(** * Visualization core of the papers explorer front end

    A shallow embedding of [ClusterGraph.tsx] (the force-directed cluster
    graph) and of [FlowVisualization] (the stacked flow chart): the derived
    data computed in the [useMemo] hooks, the scale functions, the force
    configuration, the pointer handlers and the render decision.

    Conventions.
    - Paper counts and shared counts are integers ([Z]); the data model
      gives them as non-negative integers, and the hypotheses say so
      where a result needs it.  Sums of counts are exact; the additions
      of the code are exact as long as the sums stay within the safe
      integers (below 2^53 in absolute value), and a result that depends
      on it says so.
    - Screen coordinates and sizes are JavaScript numbers.  They are
      modelled by [jsnum]: an exact rational, or one of the three
      non-finite values.  Rounding of IEEE doubles and the sign of zero
      are not modelled; results about the place of a pointer are stated
      with a margin where a rounding could decide.
    - Objects used as maps ([cluster_counts], [colors], [clusterColors])
      are finite maps from strings for their own keys; a read [o[k]] also
      finds the members that every object inherits from
      [Object.prototype], so what is read is a [jsvalue] or a [jscolor]
      and not always a number or a string.
    - A string is the sequence of its characters; [length] and
      [substring] of the code count UTF-16 units, which are the
      characters of a string of ASCII characters, and a result about
      them says so.
    - React state is a record; a handler is a function from the state
      before the event to the state after it, together with the
      notifications sent to the host. *)

From Stdlib Require Import ZArith QArith Qround Lqa Lia List Bool.
From stdpp Require Import base option list gmap strings.

Local Open Scope Z_scope.

(** ** JavaScript numbers *)

Module JsNum.

Inductive jsnum : Type :=
  | Fin (q : Q)
  | PosInf
  | NegInf
  | NaN.


Definition ofZ (z : Z) : jsnum := Fin (inject_Z z).

(** Same numeric value (not JavaScript's [===], which is false on NaN). *)
Definition same (a b : jsnum) : Prop :=
  match a, b with
  | Fin p, Fin q => (p == q)%Q
  | PosInf, PosInf | NegInf, NegInf | NaN, NaN => True
  | _, _ => False
  end.

Definition Qltb (p q : Q) : bool := negb (Qle_bool q p).

Definition neg (a : jsnum) : jsnum :=
  match a with
  | Fin q => Fin (- q)
  | PosInf => NegInf
  | NegInf => PosInf
  | NaN => NaN
  end.

Definition add (a b : jsnum) : jsnum :=
  match a, b with
  | NaN, _ | _, NaN => NaN
  | Fin p, Fin q => Fin (p + q)
  | PosInf, NegInf | NegInf, PosInf => NaN
  | PosInf, _ | _, PosInf => PosInf
  | NegInf, _ | _, NegInf => NegInf
  end.

Definition sub (a b : jsnum) : jsnum := add a (neg b).

(** Sign of a finite operand that meets an infinite one in a product or a
    quotient: [Some true] for positive, [Some false] for negative. *)
Definition sign (q : Q) : option bool :=
  if Qeq_bool q 0 then None else Some (Qltb 0 q).

Definition signed_inf (positive : bool) : jsnum :=
  if positive then PosInf else NegInf.

Definition mul (a b : jsnum) : jsnum :=
  match a, b with
  | NaN, _ | _, NaN => NaN
  | Fin p, Fin q => Fin (p * q)
  | Fin p, PosInf | PosInf, Fin p =>
      match sign p with Some s => signed_inf s | None => NaN end
  | Fin p, NegInf | NegInf, Fin p =>
      match sign p with Some s => signed_inf (negb s) | None => NaN end
  | PosInf, PosInf | NegInf, NegInf => PosInf
  | PosInf, NegInf | NegInf, PosInf => NegInf
  end.

Definition div (a b : jsnum) : jsnum :=
  match a, b with
  | NaN, _ | _, NaN => NaN
  | Fin p, Fin q =>
      if Qeq_bool q 0
      then match sign p with Some s => signed_inf s | None => NaN end
      else Fin (p / q)
  | Fin _, _ => Fin 0
  | PosInf, Fin q => signed_inf (Qle_bool 0 q)
  | NegInf, Fin q => signed_inf (Qltb q 0)
  | _, _ => NaN
  end.

(** Comparisons: false as soon as one side is NaN. *)
Definition le (a b : jsnum) : bool :=
  match a, b with
  | NaN, _ | _, NaN => false
  | Fin p, Fin q => Qle_bool p q
  | NegInf, _ | _, PosInf => true
  | _, _ => false
  end.

Definition lt (a b : jsnum) : bool :=
  match a, b with
  | NaN, _ | _, NaN => false
  | Fin p, Fin q => Qltb p q
  | PosInf, _ | _, NegInf => false
  | _, _ => true
  end.

Definition ge (a b : jsnum) : bool := le b a.
Definition gt (a b : jsnum) : bool := lt b a.

(** [Math.round]: the nearest integer, halves upwards. *)
Definition round (a : jsnum) : jsnum :=
  match a with
  | Fin q => Fin (inject_Z (Qfloor (q + (1 # 2))))
  | other => other
  end.

(** [Math.max] and [Math.min] of two arguments. *)
Definition max (a b : jsnum) : jsnum :=
  match a, b with
  | NaN, _ | _, NaN => NaN
  | _, _ => if le a b then b else a
  end.

Definition min (a b : jsnum) : jsnum :=
  match a, b with
  | NaN, _ | _, NaN => NaN
  | _, _ => if le a b then a else b
  end.

(** [arr[i]] for a number [i]: defined only at an integer index inside the
    array. *)
Definition index {A} (arr : list A) (i : jsnum) : option A :=
  match i with
  | Fin q =>
      if Qeq_bool q (inject_Z (Qfloor q)) && (0 <=? Qfloor q)
      then arr !! Z.to_nat (Qfloor q)
      else None
  | _ => None
  end.

End JsNum.

Import JsNum.

Declare Scope js_scope.
Delimit Scope js_scope with js.
Bind Scope js_scope with jsnum.
Infix "+" := add : js_scope.
Infix "-" := sub : js_scope.
Infix "*" := mul : js_scope.
Infix "/" := div : js_scope.
Infix "<?" := lt : js_scope.
Infix "<=?" := le : js_scope.
Infix ">?" := gt : js_scope.
Infix ">=?" := ge : js_scope.
Coercion ofZ : Z >-> jsnum.

(** JavaScript's [a || b] on numbers: [b] when [a] is missing or zero. *)
Definition or_number (a : option Z) (b : Z) : Z :=
  match a with
  | Some v => if v =? 0 then b else v
  | None => b
  end.

(** [Math.max(...xs, 1)]. *)
Definition max_with_1 (xs : list Z) : Z := fold_right Z.max 1 xs.

(** Viewport of a view, as measured by [getBoundingClientRect]. *)
Record Dimensions := { width : Q; height : Q }.

(** ** The cluster graph ([ClusterGraph]) *)

Module Graph.

Record ClusterNode := {
  id : string;
  name : string;
  paperCount : Z;
  topTaskTags : list string;
  topModalities : list string;
  paperIds : list string;
}.

Record ClusterLink := {
  source : string;
  target : string;
  sharedCount : Z;
  sharedPaperIds : list string;
}.

Record ClusterGraphData := {
  nodes : list ClusterNode;
  links : list ClusterLink;
}.

(** [GraphNode]: the fields of the cluster node, and the position and
    velocity that the solver writes. *)
Record GraphNode := {
  node : ClusterNode;
  x : option jsnum;
  y : option jsnum;
  vx : option jsnum;
  vy : option jsnum;
}.

(** An end of a [GraphLink] is an id until the solver replaces it by the
    node object. *)
Inductive endpoint :=
  | EndId (s : string)
  | EndNode (n : GraphNode).

Record GraphLink := {
  link_source : endpoint;
  link_target : endpoint;
  link_sharedCount : Z;
  link_sharedPaperIds : list string;
}.

Record GraphData := {
  graph_nodes : list GraphNode;
  graph_links : list GraphLink;
}.

Definition toGraphNode (n : ClusterNode) : GraphNode :=
  {| node := n; x := None; y := None; vx := None; vy := None |}.

Definition toGraphLink (l : ClusterLink) : GraphLink :=
  {| link_source := EndId (source l);
     link_target := EndId (target l);
     link_sharedCount := sharedCount l;
     link_sharedPaperIds := sharedPaperIds l |}.

(** The value given to the [graphData] property of the force graph. *)
Definition transformedData (graphData : ClusterGraphData) : GraphData :=
  {| graph_nodes := map toGraphNode (nodes graphData);
     graph_links := map toGraphLink (links graphData) |}.

Definition maxPaperCount (graphData : ClusterGraphData) : Z :=
  max_with_1 (map paperCount (nodes graphData)).

Definition maxLinkStrength (graphData : ClusterGraphData) : Z :=
  max_with_1 (map sharedCount (links graphData)).

Definition endpointId (e : endpoint) : string :=
  match e with
  | EndNode n => id (node n)
  | EndId s => s
  end.

Section Interaction.
(** The hover state and the [selectedNodeId] property. *)
Variable hoveredNode : option string.
Variable selectedNodeId : option string.

Definition getNodeSize (maxPaperCount : Z) (n : GraphNode) : jsnum :=
  let baseSize := (12 + (paperCount (node n) / maxPaperCount) * 28)%js in
  let isHovered := bool_decide (hoveredNode = Some (id (node n))) in
  let isSelected := bool_decide (selectedNodeId = Some (id (node n))) in
  let isOtherHovered :=
    bool_decide (hoveredNode ≠ None)
    && bool_decide (hoveredNode ≠ Some (id (node n))) in
  if isHovered || isSelected then (baseSize * Fin (14 # 10))%js
  else if isOtherHovered then (baseSize * Fin (3 # 4))%js
  else baseSize.

Definition getLinkWidth (maxLinkStrength : Z) (l : GraphLink) : jsnum :=
  let baseWidth := (1 + (link_sharedCount l / maxLinkStrength) * 5)%js in
  let sourceId := endpointId (link_source l) in
  let targetId := endpointId (link_target l) in
  if bool_decide (hoveredNode = Some sourceId)
     || bool_decide (hoveredNode = Some targetId)
  then (baseWidth * 2)%js
  else baseWidth.
End Interaction.

(** [isolatedNodeIds]: first the ids that some link names as its source or
    its target, then the ids of the nodes that are not among them. *)
Definition connectedIds (graphData : ClusterGraphData) : gset string :=
  fold_left (fun acc l => acc ∪ {[source l]} ∪ {[target l]})
            (links graphData) ∅.

Definition isolatedNodeIds (graphData : ClusterGraphData) : gset string :=
  list_to_set
    (map id (filter (fun n => id n ∉ connectedIds graphData)
                    (nodes graphData))).

(** The forces that the effect "apply collision force after graph
    initializes" installs on the solver: the charge strength, the link
    distance, the radius callback of [forceCollide], and the target and the
    strength callback of [forceX] and of [forceY]. *)
Record ForceConfig := {
  chargeStrength : jsnum;
  linkDistance : jsnum;
  collisionRadius : GraphNode -> jsnum;
  xTarget : jsnum;
  xStrength : GraphNode -> jsnum;
  yTarget : jsnum;
  yStrength : GraphNode -> jsnum;
}.

(** The callback given to [forceCollide]. *)
Definition collide (maxPaperCount : Z) (n : GraphNode) : jsnum :=
  let baseSize :=
    (12 + (or_number (Some (paperCount (node n))) 1 / maxPaperCount) * 28)%js in
  (baseSize + 40)%js.

(** The callback given to [strength] of [forceX] and of [forceY]. *)
Definition centering (isolated : gset string) (n : GraphNode) : jsnum :=
  if bool_decide (id (node n) ∈ isolated) then Fin (15 # 100) else Fin (2 # 100).

(** The effect runs when the graph component is mounted and the snapshot
    has a node; otherwise the solver keeps its default forces. *)
Definition configureForces (graphData : ClusterGraphData) (dimensions : Dimensions)
  : option ForceConfig :=
  if (0 <? Z.of_nat (length (graph_nodes (transformedData graphData))))%Z
  then Some {|
    chargeStrength := (-600)%Z;
    linkDistance := 180;
    collisionRadius := collide (maxPaperCount graphData);
    xTarget := (Fin (width dimensions) / 2)%js;
    xStrength := centering (isolatedNodeIds graphData);
    yTarget := (Fin (height dimensions) / 2)%js;
    yStrength := centering (isolatedNodeIds graphData) |}
  else None.

(** The positioning force of the layout solver (d3-force's [forceX] and
    [forceY], a dependency and not code of this repository): on each tick
    it adds [(target - position) * strength * alpha] to the velocity on its
    axis.  [pull2] is the square of the length of the resulting vector
    when both axes use the same strength. *)
Definition pull (strength alpha displacement : Q) : Q :=
  (displacement * strength * alpha)%Q.

Definition pull2 (strength alpha dx dy : Q) : Q :=
  (pull strength alpha dx * pull strength alpha dx
   + pull strength alpha dy * pull strength alpha dy)%Q.

End Graph.

(** ** The flow chart ([FlowVisualization]) *)

(** JavaScript truthiness of a string that may be [null], and [a || b] on
    strings. *)
Definition truthy (s : option string) : bool :=
  match s with
  | Some v => negb (String.eqb v "")
  | None => false
  end.

Definition or_string (a : option string) (b : string) : string :=
  if truthy a then default b a else b.

(** [arr.indexOf(v)]: the first position of [v], or -1. *)
Fixpoint indexOf (arr : list string) (v : string) : Z :=
  match arr with
  | [] => -1
  | a :: rest =>
      if String.eqb a v then 0
      else let i := indexOf rest v in if i <? 0 then -1 else i + 1
  end.

(** ** Objects used as maps *)

(** The names of the members of [Object.prototype], which every object
    literal and every object read from JSON inherits.  They belong to the
    language, not to this repository. *)
Definition objectPrototype : list string :=
  [ "constructor"; "hasOwnProperty"; "isPrototypeOf"; "propertyIsEnumerable";
    "toLocaleString"; "toString"; "valueOf"; "__proto__";
    "__defineGetter__"; "__defineSetter__"; "__lookupGetter__";
    "__lookupSetter__" ]%string.

(** What the read [o[k]] finds: a value of the map, the inherited member
    of that name, or nothing. *)
Inductive property (A : Type) : Type :=
  | Own (a : A)
  | Inherited (k : string)
  | Undefined.
Arguments Own {A} a.
Arguments Inherited {A} k.
Arguments Undefined {A}.

Definition get {A} (o : gmap string A) (k : string) : property A :=
  match o !! k with
  | Some a => Own a
  | None => if bool_decide (k ∈ objectPrototype) then Inherited k else Undefined
  end.

(** What a variable of type [number] holds at run time: a number; a
    member of [Object.prototype] (a function, or the prototype itself for
    [__proto__]), which is truthy; or the string that [+] makes when one
    of its operands is not a number.  The text of a member depends on the
    engine, so such a string is kept as the pair of its two parts; it
    contains the text of a member and is therefore no numeral. *)
Inductive jsvalue : Type :=
  | Number (z : Z)
  | Member (k : string)
  | Joined (a b : jsvalue).

(** [a + b]: the sum of two numbers, and otherwise the concatenation. *)
Definition plus (a b : jsvalue) : jsvalue :=
  match a, b with
  | Number x, Number y => Number (x + y)
  | _, _ => Joined a b
  end.

(** The conversion that [/], [>] and [Math.max] apply to an operand. *)
Definition toNumber (v : jsvalue) : jsnum :=
  match v with
  | Number z => ofZ z
  | Member _ | Joined _ _ => NaN
  end.
Coercion toNumber : jsvalue >-> jsnum.

(** [o[k] || b] for a map of numbers. *)
Definition number_or (p : property Z) (b : Z) : jsvalue :=
  match p with
  | Own v => Number (or_number (Some v) b)
  | Inherited k => Member k
  | Undefined => Number (or_number None b)
  end.

(** [Math.max(...xs, 1)] on values that may not be numbers. *)
Definition max_or_1 (xs : list jsvalue) : jsnum :=
  fold_right (fun v m => max (toNumber v) m) 1%Z xs.

(** What a variable that should hold a colour holds at run time: a string,
    or a member of [Object.prototype]. *)
Inductive jscolor : Type :=
  | Color (s : string)
  | MemberColor (k : string).

(** [o[k] || b] for a map of strings. *)
Definition color_or (p : property string) (b : string) : jscolor :=
  match p with
  | Own s => Color (or_string (Some s) b)
  | Inherited k => MemberColor k
  | Undefined => Color (or_string None b)
  end.

Module Flow.

Record DailyData := {
  date : string;
  cluster_counts : gmap string Z;
}.

Record FlowData := {
  start_date : string;
  end_date : string;
  clusters : list string;
  colors : gmap string string;
  daily_data : list DailyData;
}.

Record TooltipData := {
  tip_x : jsnum;
  tip_y : jsnum;
  tip_date : string;
  tip_cluster : string;
  tip_count : jsvalue;
  tip_total : jsvalue;
  tip_color : jscolor;
}.

Record StackedValue := {
  cluster : string;
  y0 : jsvalue;
  y1 : jsvalue;
  count : jsvalue;
}.

Record StackedDay := {
  sd_date : string;
  values : list StackedValue;
  total : jsvalue;
}.

Record ProcessedData := {
  stackedData : list StackedDay;
  dates : list string;
  maxY : jsnum;
  pd_clusters : list string;
}.

Module margin.
Definition top : Z := 20.
Definition right : Z := 150.
Definition bottom : Z := 50.
Definition left : Z := 60.
End margin.

(** One round of the inner [clusters.forEach] of [processedData]: the
    running [y0], the [values] pushed so far and the running [total]. *)
Definition stackStep (day : DailyData)
    (acc : jsvalue * list StackedValue * jsvalue) (c : string)
  : jsvalue * list StackedValue * jsvalue :=
  let '(y0, values, total) := acc in
  let count := number_or (get (cluster_counts day) c) 0 in
  let total := plus total count in
  let values :=
    values ++ [{| cluster := c; y0 := y0; y1 := plus y0 count;
                  count := count |}] in
  let y0 := plus y0 count in
  (y0, values, total).

Definition stackDay (clusters : list string) (day : DailyData) : StackedDay :=
  let '(_, values, total) :=
    fold_left (stackStep day) clusters (Number 0, [], Number 0) in
  {| sd_date := date day; values := values; total := total |}.

Definition processedData (flowData : FlowData) : option ProcessedData :=
  if (length (daily_data flowData) =? 0)%nat then None
  else
    let clusters := clusters flowData in
    let dates := map date (daily_data flowData) in
    let stackedData :=
      fold_left (fun acc day => acc ++ [stackDay clusters day])
                (daily_data flowData) [] in
    let maxY := max_or_1 (map total stackedData) in
    Some {| stackedData := stackedData; dates := dates; maxY := maxY;
            pd_clusters := clusters |}.

Record Scales := {
  xScale : string -> jsnum;
  yScale : jsnum -> jsnum;
  innerWidth : jsnum;
  innerHeight : jsnum;
}.

Definition scales (processedData : option ProcessedData)
    (dimensions : Dimensions) : option Scales :=
  match processedData with
  | None => None
  | Some pd =>
      let innerWidth :=
        (Fin (width dimensions) - margin.left - margin.right)%js in
      let innerHeight :=
        (Fin (height dimensions) - margin.top - margin.bottom)%js in
      let xScale (d : string) : jsnum :=
        let idx := indexOf (dates pd) d in
        (margin.left
         + (idx / Z.max (Z.of_nat (length (dates pd)) - 1) 1) * innerWidth)%js in
      let yScale (value : jsnum) : jsnum :=
        (margin.top + innerHeight - (value / maxY pd) * innerHeight)%js in
      Some {| xScale := xScale; yScale := yScale;
              innerWidth := innerWidth; innerHeight := innerHeight |}
  end.

(** *** Pointer handling *)

Record State := {
  tooltip : option TooltipData;
  hoveredCluster : option string;
  selectedCluster : option string;
}.

Definition setTooltip (t : option TooltipData) (st : State) : State :=
  {| tooltip := t; hoveredCluster := hoveredCluster st;
     selectedCluster := selectedCluster st |}.

Definition setHoveredCluster (c : option string) (st : State) : State :=
  {| tooltip := tooltip st; hoveredCluster := c;
     selectedCluster := selectedCluster st |}.

Definition setSelectedCluster (f : option string -> option string)
    (st : State) : State :=
  {| tooltip := tooltip st; hoveredCluster := hoveredCluster st;
     selectedCluster := f (selectedCluster st) |}.

Record MouseEvent := { clientX : Q; clientY : Q }.

(** The mounted canvas: where it lies on the page, and whether it gives a
    2D context. *)
Record Canvas := { rect_left : Q; rect_top : Q; context2d : bool }.

(** The test that the loop over [day.values] makes on a value. *)
Definition hit (sc : Scales) (y : jsnum) (v : StackedValue) : bool :=
  let y0Screen := yScale sc (y0 v) in
  let y1Screen := yScale sc (y1 v) in
  (y >=? y1Screen)%js && (y <=? y0Screen)%js && (count v >? 0)%js.

(** The part of [handleMouseMove] that finds the day under the pointer,
    from the test of the chart area to [stackedData[clampedIdx]]: [None]
    when the pointer is outside the plot or the index is not one of the
    array, the two cases in which the handler clears tooltip and hover. *)
Definition dayAt (pd : ProcessedData) (dimensions : Dimensions)
    (x y : jsnum) : option StackedDay :=
  if (x <? margin.left)%js
     || (x >? Fin (width dimensions) - margin.right)%js
     || (y <? margin.top)%js
     || (y >? Fin (height dimensions) - margin.bottom)%js
  then None
  else
    let innerWidth :=
      (Fin (width dimensions) - margin.left - margin.right)%js in
    let relX := (x - margin.left)%js in
    let last := Z.of_nat (length (dates pd)) - 1 in
    let dateIdx := round ((relX / innerWidth) * last)%js in
    let clampedIdx := max 0 (min dateIdx last) in
    index (stackedData pd) clampedIdx.

Section Handlers.
Variable flowData : FlowData.
Variable dimensions : Dimensions.
(** Whether the host passed an [onClusterClick] callback. *)
Variable onClusterClick : bool.
(** [canvasRef.current]. *)
Variable canvasRef : option Canvas.

Definition clearHover (st : State) : State :=
  setHoveredCluster None (setTooltip None st).

Definition handleMouseMove (e : MouseEvent) (st : State) : State :=
  match processedData flowData,
        scales (processedData flowData) dimensions with
  | Some pd, Some sc =>
      match canvasRef with
      | None => st
      | Some canvas =>
          let x := (Fin (clientX e) - Fin (rect_left canvas))%js in
          let y := (Fin (clientY e) - Fin (rect_top canvas))%js in
          match dayAt pd dimensions x y with
          | None => clearHover st
          | Some day =>
              let foundCluster := cluster <$> find (hit sc y) (values day) in
              let st := setHoveredCluster foundCluster st in
              if truthy foundCluster then
                match find (fun v => bool_decide (Some (cluster v) = foundCluster))
                           (values day) with
                | Some value =>
                    setTooltip
                      (Some {| tip_x := Fin (clientX e);
                               tip_y := Fin (clientY e);
                               tip_date := sd_date day;
                               tip_cluster := default ""%string foundCluster;
                               tip_count := count value;
                               tip_total := total day;
                               tip_color :=
                                 color_or
                                   (get (colors flowData)
                                      (default ""%string foundCluster))
                                   "#6B7280" |})
                      st
                | None => st
                end
              else setTooltip None st
          end
      end
  | _, _ => st
  end.

Definition toggle (c : string) (prev : option string) : option string :=
  if bool_decide (prev = Some c) then None else Some c.

(** The canvas click: the new state and the calls of [onClusterClick]. *)
Definition handleClick (st : State) : State * list (string * string) :=
  if truthy (hoveredCluster st) then
    let c := default ""%string (hoveredCluster st) in
    let st' := setSelectedCluster (toggle c) st in
    match onClusterClick, tooltip st with
    | true, Some t => (st', [(c, tip_date t)])
    | _, _ => (st', [])
    end
  else (st, []).

Definition canvasMouseLeave (st : State) : State := clearHover st.

(** The handlers of one legend entry. *)
Definition legendMouseEnter (c : string) (st : State) : State :=
  setHoveredCluster (Some c) st.
Definition legendMouseLeave (st : State) : State :=
  setHoveredCluster None st.
Definition legendClick (c : string) (st : State)
  : State * list (string * string) :=
  (setSelectedCluster (toggle c) st, []).

(** The figure shown in the tooltip: [Math.round((count / total) * 100)]. *)
Definition percentage (t : TooltipData) : jsnum :=
  round ((tip_count t / tip_total t) * 100)%js.
End Handlers.

(** *** Drawing *)

(** A canvas style: a CSS string, or a cluster colour followed by the
    opacity as a byte. *)
Inductive Style :=
  | Css (s : string)
  | WithAlpha (color : jscolor) (alpha255 : jsnum).

Inductive Text :=
  | Str (s : string)
  | Num (v : jsnum).

Inductive CanvasOp :=
  | SetSize (w h : jsnum)
  | SetStyleSize (w h : jsnum)
  | ScaleBy (sx sy : jsnum)
  | ClearRect (x y w h : jsnum)
  | FillRect (x y w h : jsnum)
  | FillStyle (s : Style)
  | StrokeStyle (s : Style)
  | LineWidth (w : jsnum)
  | BeginPath
  | MoveTo (x y : jsnum)
  | LineTo (x y : jsnum)
  | ClosePath
  | Fill
  | Stroke
  | Font (f : string)
  | TextAlign (a : string)
  | TextBaseline (b : string)
  | FillText (t : Text) (x y : jsnum)
  | Save
  | Translate (x y : jsnum)
  | RotateQuarterTurns (n : Z)
  | Restore.

(** [s.slice(n)]. *)
Definition slice (n : nat) (s : string) : string :=
  String.substring n (String.length s - n) s.

Section Draw.
Variable flowData : FlowData.
Variable dimensions : Dimensions.
Variable st : State.
(** [window.devicePixelRatio || 1]. *)
Variable dpr : Q.

Let w : jsnum := Fin (width dimensions).
Let h : jsnum := Fin (height dimensions).

Definition yTicks : Z := 5.

Definition gridLine (pd : ProcessedData) (sc : Scales) (i : Z)
  : list CanvasOp :=
  let y := yScale sc ((maxY pd / yTicks) * i)%js in
  [BeginPath; MoveTo margin.left y; LineTo (w - margin.right)%js y; Stroke].

(** The closed path of the band of cluster number [i], its fill and its
    outline.  [None] stands for the exception raised when a day has no
    value number [i]. *)
Definition band (pd : ProcessedData) (sc : Scales) (i : nat) (c : string)
  : option (list CanvasOp) :=
  let color := color_or (get (colors flowData) c) "#6B7280" in
  let isHovered := bool_decide (hoveredCluster st = Some c) in
  let isSelected := bool_decide (selectedCluster st = Some c) in
  let isOtherHovered :=
    bool_decide (hoveredCluster st ≠ None)
    && bool_decide (hoveredCluster st ≠ Some c) in
  topLine ← mapM (fun '(idx, day) =>
               v ← values day !! i;
               Some ((if (idx =? 0)%nat then MoveTo else LineTo)
                       (xScale sc (sd_date day)) (yScale sc (y1 v))))
             (imap pair (stackedData pd));
  bottomLine ← mapM (fun day =>
               v ← values day !! i;
               Some (LineTo (xScale sc (sd_date day)) (yScale sc (y0 v))))
             (rev (stackedData pd));
  let alpha :=
    if isHovered || isSelected then 9 # 10
    else if isOtherHovered then 3 # 10
    else 7 # 10 in
  Some ([BeginPath] ++ topLine ++ bottomLine
        ++ [ClosePath; FillStyle (WithAlpha color (round (Fin alpha * 255)%js)); Fill]
        ++ (if isHovered || isSelected
            then [StrokeStyle (Css "#FFD21E"); LineWidth 2; Stroke]
            else [])).

Definition yLabel (pd : ProcessedData) (sc : Scales) (i : Z) : CanvasOp :=
  let value := round ((maxY pd / yTicks) * i)%js in
  FillText (Num value) (margin.left - 8)%js (yScale sc value).

Definition xLabels (pd : ProcessedData) (sc : Scales) : list CanvasOp :=
  let dateCount := Z.of_nat (length (dates pd)) in
  let labelInterval := Z.max 1 (Qceiling (inject_Z dateCount / 10)) in
  concat (imap (fun idx d =>
    if (Z.of_nat idx mod labelInterval =? 0) || (Z.of_nat idx =? dateCount - 1)
    then [FillText (Str (slice 5 d)) (xScale sc d)
                   (h - margin.bottom + 8)%js]
    else []) (dates pd)).

(** The drawing effect: the operations sent to the canvas, in order. *)
Definition draw (canvasRef : option Canvas) : option (list CanvasOp) :=
  match canvasRef, processedData flowData,
        scales (processedData flowData) dimensions with
  | Some canvas, Some pd, Some sc =>
      if negb (context2d canvas) then Some []
      else
        bands ← mapM (fun '(i, c) => band pd sc i c)
                     (rev (imap pair (pd_clusters pd)));
        Some ([SetSize (w * Fin dpr)%js (h * Fin dpr)%js;
               SetStyleSize w h;
               ScaleBy (Fin dpr) (Fin dpr);
               ClearRect 0 0 w h;
               FillStyle (Css "#0a0a1a"); FillRect 0 0 w h;
               StrokeStyle (Css "rgba(255, 255, 255, 0.05)"); LineWidth 1]
              ++ concat (map (gridLine pd sc) [0; 1; 2; 3; 4; 5])
              ++ concat bands
              ++ [StrokeStyle (Css "rgba(255, 255, 255, 0.3)"); LineWidth 1;
                  BeginPath; MoveTo margin.left margin.top;
                  LineTo margin.left (h - margin.bottom)%js; Stroke;
                  BeginPath; MoveTo margin.left (h - margin.bottom)%js;
                  LineTo (w - margin.right)%js (h - margin.bottom)%js; Stroke;
                  FillStyle (Css "rgba(255, 255, 255, 0.6)");
                  Font "11px sans-serif"; TextAlign "right";
                  TextBaseline "middle"]
              ++ map (yLabel pd sc) [0; 1; 2; 3; 4; 5]
              ++ [TextAlign "center"; TextBaseline "top"]
              ++ xLabels pd sc
              ++ [Save; Translate 15 (h / 2)%js; RotateQuarterTurns (-1);
                  TextAlign "center";
                  FillStyle (Css "rgba(255, 255, 255, 0.6)");
                  FillText (Str "Papers") 0 0; Restore])
  | _, _, _ => Some []
  end.
End Draw.

(** *** What the component returns *)

Record LegendEntry := {
  legend_cluster : string;
  legend_highlighted : bool;
  legend_color : jscolor;
}.

Record TooltipView := {
  shown : TooltipData;
  percent : jsnum;
}.

(** Either the message shown when there is nothing to plot, or the chart:
    a canvas with its legend, the tooltip if any and the date range.
    Class names and the shortening of legend labels are left out. *)
Inductive View :=
  | EmptyState (message : string)
  | Chart (legend : list LegendEntry) (tip : option TooltipView)
          (range : string * string).

Definition render (flowData : FlowData) (st : State) : View :=
  match processedData flowData with
  | None => EmptyState "No flow data available"
  | Some _ =>
      Chart
        (map (fun c =>
                {| legend_cluster := c;
                   legend_highlighted :=
                     bool_decide (hoveredCluster st = Some c)
                     || bool_decide (selectedCluster st = Some c);
                   legend_color :=
                     color_or (get (colors flowData) c) "#6B7280" |})
             (take 12 (clusters flowData)))
        ((fun t => {| shown := t; percent := percentage t |}) <$> tooltip st)
        (start_date flowData, end_date flowData)
  end.

End Flow.


(** ** Notions used to state the properties *)

Module FlowSpec.
Import Flow.

(** A day's count of a cluster: 0 when the cluster is not a key of
    [cluster_counts]. *)
Definition countOf (day : DailyData) (c : string) : Z :=
  default 0 (cluster_counts day !! c).

Definition sumCounts (day : DailyData) (cs : list string) : Z :=
  foldr (fun c s => countOf day c + s) 0 cs.

(** What the code reads as a day's count of a cluster. *)
Definition readCount (day : DailyData) (c : string) : jsvalue :=
  number_or (get (cluster_counts day) c) 0.

(** The bands of a day, bottom up, starting at the value [y], and the
    value that the running sum ends with. *)
Fixpoint stackValues (day : DailyData) (y : jsvalue) (cs : list string)
  : list StackedValue :=
  match cs with
  | [] => []
  | c :: cs =>
      {| cluster := c; y0 := y; y1 := plus y (readCount day c);
         count := readCount day c |}
      :: stackValues day (plus y (readCount day c)) cs
  end.

Fixpoint stackTotal (day : DailyData) (t : jsvalue) (cs : list string)
  : jsvalue :=
  match cs with
  | [] => t
  | c :: cs => stackTotal day (plus t (readCount day c)) cs
  end.

(** The bands of a day, bottom up, starting at height [y], when every
    count is the number [countOf]. *)
Fixpoint stackFrom (day : DailyData) (y : Z) (cs : list string)
  : list StackedValue :=
  match cs with
  | [] => []
  | c :: cs =>
      {| cluster := c; y0 := Number y; y1 := Number (y + countOf day c);
         count := Number (countOf day c) |}
      :: stackFrom day (y + countOf day c) cs
  end.

(** The largest total of a day, and at least 1. *)
Definition maxTotal (flowData : FlowData) : Z :=
  max_with_1 (map (fun day => sumCounts day (clusters flowData))
                  (daily_data flowData)).

(** A name whose read in the counts of a day does not reach
    [Object.prototype]: a key of the day, or not the name of an inherited
    member. *)
Definition plainName (day : DailyData) (c : string) : Prop :=
  is_Some (cluster_counts day !! c) ∨ c ∉ objectPrototype.

#[global] Instance plainName_dec (day : DailyData) (c : string)
  : Decision (plainName day c).
Proof. unfold plainName. apply _. Defined.

Definition plainDay (cs : list string) (day : DailyData) : Prop :=
  Forall (plainName day) cs.

#[global] Instance plainDay_dec (cs : list string) (day : DailyData)
  : Decision (plainDay cs day).
Proof. unfold plainDay. apply _. Defined.

(** No read of a count of the snapshot reaches [Object.prototype]. *)
Definition plainCounts (flowData : FlowData) : Prop :=
  Forall (plainDay (clusters flowData)) (daily_data flowData).

#[global] Instance plainCounts_dec (flowData : FlowData)
  : Decision (plainCounts flowData).
Proof. unfold plainCounts. apply _. Defined.

(** The same for the colours of the listed clusters. *)
Definition plainColor (flowData : FlowData) (c : string) : Prop :=
  is_Some (colors flowData !! c) ∨ c ∉ objectPrototype.

Definition plainColors (flowData : FlowData) : Prop :=
  Forall (plainColor flowData) (clusters flowData).

#[global] Instance plainColors_dec (flowData : FlowData)
  : Decision (plainColors flowData).
Proof. unfold plainColors, plainColor. apply _. Defined.

(** The counts of the listed clusters of a day are integers whose sum, in
    absolute values, is a safe integer: the additions of doubles that
    stack them are then exact. *)
Definition absCounts (day : DailyData) (cs : list string) : Z :=
  foldr (fun c s => Z.abs (countOf day c) + s) 0 cs.

Definition maxSafeInteger : Z := 2 ^ 53 - 1.

Definition safeDay (cs : list string) (day : DailyData) : Prop :=
  absCounts day cs <= maxSafeInteger.

(** Counts of a snapshot are non-negative, as the data model has them. *)
Definition nonNegative (flowData : FlowData) : Prop :=
  ∀ day c n, day ∈ daily_data flowData ->
             cluster_counts day !! c = Some n -> 0 <= n.

(** The scale functions on finite arguments, as rationals. *)
Definition innerWidthQ (dimensions : Dimensions) : Q :=
  width dimensions + - inject_Z margin.left + - inject_Z margin.right.

Definition innerHeightQ (dimensions : Dimensions) : Q :=
  height dimensions + - inject_Z margin.top + - inject_Z margin.bottom.

Definition xScaleQ (dimensions : Dimensions) (dateCount : nat) (idx : Z) : Q :=
  inject_Z margin.left
  + inject_Z idx / inject_Z (Z.max (Z.of_nat dateCount - 1) 1)
    * innerWidthQ dimensions.

Definition yScaleQ (dimensions : Dimensions) (maxY : Z) (value : Q) : Q :=
  inject_Z margin.top + innerHeightQ dimensions
  + - (value / inject_Z maxY * innerHeightQ dimensions).

(** The colour of a cluster: the one configured for it when that is not
    the empty string; for a cluster without a configured colour, the
    member of [Object.prototype] of its name if there is one; and
    [#6B7280] otherwise. *)
Definition colorOf (flowData : FlowData) (c : string) : jscolor :=
  match colors flowData !! c with
  | Some s => Color (if decide (s = ""%string) then "#6B7280"%string else s)
  | None => if decide (c ∈ objectPrototype) then MemberColor c
            else Color "#6B7280"
  end.

(** The pointer of a mouse event, relative to the canvas. *)
Definition pointerX (canvas : Canvas) (e : MouseEvent) : jsnum :=
  (Fin (clientX e) - Fin (rect_left canvas))%js.
Definition pointerY (canvas : Canvas) (e : MouseEvent) : jsnum :=
  (Fin (clientY e) - Fin (rect_top canvas))%js.

End FlowSpec.

(** ** Notions used to state what the drawing effect paints *)

Module DrawSpec.
Import Flow.

(** The colour and opacity byte of a band fill; no other operation of the
    effect sets a style of that form. *)
Definition bandFill (op : CanvasOp) : option (jscolor * jsnum) :=
  match op with
  | FillStyle (WithAlpha c a) => Some (c, a)
  | _ => None
  end.

Definition bandFills (ops : list CanvasOp) : list (jscolor * jsnum) :=
  omap bandFill ops.

(** The opacity of the band of a cluster, as a byte: 0.9, 0.3 and 0.7 of
    255, rounded. *)
Definition opacity (st : State) (c : string) : Z :=
  if bool_decide (hoveredCluster st = Some c)
     || bool_decide (selectedCluster st = Some c) then 230
  else if bool_decide (hoveredCluster st ≠ None) then 77
  else 179.

(** The texts written by [fillText]. *)
Definition label (op : CanvasOp) : option Text :=
  match op with
  | FillText t _ _ => Some t
  | _ => None
  end.

End DrawSpec.

(** ** Painting and interaction of the cluster graph *)

Module GraphView.
Import Graph.



(** [a || 0] on a coordinate that the solver may not have set yet. *)
Definition or_zero (a : option jsnum) : jsnum :=
  match a with
  | Some (Fin q) => if Qeq_bool q 0 then 0 else Fin q
  | Some NaN | None => 0
  | Some other => other
  end.

Definition getLinkColor (hoveredNode : option string) (l : GraphLink)
  : string :=
  let sourceId := endpointId (link_source l) in
  let targetId := endpointId (link_target l) in
  if bool_decide (hoveredNode = Some sourceId)
     || bool_decide (hoveredNode = Some targetId)
  then "rgba(255, 210, 30, 0.8)"%string
  else "rgba(100, 100, 120, 0.3)"%string.

Definition linkDirectionalParticleWidth (hoveredNode : option string)
    (l : GraphLink) : jsnum :=
  let sourceId := endpointId (link_source l) in
  let targetId := endpointId (link_target l) in
  if bool_decide (hoveredNode = Some sourceId)
     || bool_decide (hoveredNode = Some targetId)
  then 4 else 0.

(** Operations on the canvas of the graph; an arc is always a full
    circle. *)
Inductive PaintOp :=
  | BeginPath
  | Arc (x y r : jsnum)
  (** [createRadialGradient] between two radii, its two colour stops (the
      inner one a colour followed by two more digits), and the assignment
      to [fillStyle] *)
  | FillGradient (x y r0 r1 : jsnum) (inner : jscolor * string)
                 (outer : string)
  | FillStyle (s : jscolor)
  | Fill
  | StrokeStyle (s : string)
  | LineWidth (w : jsnum)
  | Stroke
  | Font (bold : bool) (size : jsnum)
  | TextAlign (a : string)
  | TextBaseline (b : string)
  | FillText (t : Flow.Text) (x y : jsnum).


Section Painting.
Variable hoveredNode : option string.
Variable selectedNodeId : option string.
Variable maxPaperCount : Z.


Definition nodePointerAreaPaint (n : GraphNode) (color : string)
  : list PaintOp :=
  let size := getNodeSize hoveredNode selectedNodeId maxPaperCount n in
  [BeginPath; Arc (or_zero (x n)) (or_zero (y n)) (size + 5)%js;
   FillStyle (Color color); Fill].
End Painting.

(** Calls of the host's callbacks. *)
Inductive HostCall :=
  | NodeClicked (n : ClusterNode)
  | NodeHovered (n : option ClusterNode).

Definition record (n : GraphNode) : ClusterNode :=
  {| id := id (node n); name := name (node n);
     paperCount := paperCount (node n);
     topTaskTags := topTaskTags (node n);
     topModalities := topModalities (node n);
     paperIds := paperIds (node n) |}.

(** [handleNodeHover]: the new hover state, the calls of [onNodeHover]
    when the host gave one, and the cursor set on the container when it is
    mounted. *)
Definition handleNodeHover (onNodeHover : bool) (container : bool)
    (n : option GraphNode)
  : option string * list HostCall * option string :=
  let hovered :=
    match n with
    | Some g => if truthy (Some (id (node g))) then Some (id (node g)) else None
    | None => None
    end in
  let calls :=
    match onNodeHover, n with
    | true, Some g => [NodeHovered (Some (record g))]
    | true, None => [NodeHovered None]
    | false, _ => []
    end in
  let cursor :=
    if container
    then Some (match n with Some _ => "pointer" | None => "grab" end)%string
    else None in
  (hovered, calls, cursor).


(** The legend lists the first ten nodes. *)
Definition legend (graphData : ClusterGraphData) : list ClusterNode :=
  take 10 (nodes graphData).

(** The panel of the hovered node: nothing when no node is hovered, and
    otherwise the nodes with the hovered id, each with its name, its paper
    count and its first three task tags. *)
Definition hoveredInfo (graphData : ClusterGraphData)
    (hoveredNode : option string)
  : option (list (string * Z * list string)) :=
  if truthy hoveredNode
  then Some (map (fun n => (name n, paperCount n, take 3 (topTaskTags n)))
               (filter (fun n => Some (id n) = hoveredNode)
                       (nodes graphData)))
  else None.

End GraphView.

(** ** The host: how [App] mounts the two views and answers their calls *)

Module App.

Record ClusterInfo := {
  clusterId : string;
  name : string;
  paperCount : Z;
  topTaskTags : list string;
  topModalities : list string;
}.

Inductive ViewMode := grid | graph | flow.

Section Papers.
(** The paper cards; nothing here looks inside one. *)
Variable PaperCard : Type.

(** The part of the state of [App] that a click on a cluster writes. *)
Record Selection := {
  selectedCluster : option ClusterInfo;
  clusterPapers : list PaperCard;
  clusterLoading : bool;
}.





(** The [selectedNodeId] given to the graph: [selectedCluster?.clusterId]. *)
Definition selectedNodeId (st : Selection) : option string :=
  clusterId <$> selectedCluster st.

End Papers.

(** What [App] puts in the place of the flow chart. *)
Inductive FlowPanel :=
  | Mounted (height : Q) (view : Flow.View)
  | NoTemporalData.

(** The flow chart is mounted when nothing is searched for, the view mode
    is [flow], and the flow data was loaded and has a day; [None] when the
    flow view is not shown at all. *)
Definition flowPanel (searchQuery : string) (viewMode : ViewMode)
    (flowData : option Flow.FlowData) (st : Flow.State) : option FlowPanel :=
  if negb (truthy (Some searchQuery))
  then match viewMode with
       | flow =>
           Some (match flowData with
                 | Some fd =>
                     if (0 <? length (Flow.daily_data fd))%nat
                     then Mounted 500 (Flow.render fd st)
                     else NoTemporalData
                 | None => NoTemporalData
                 end)
       | _ => None
       end
  else None.

End App.

Module GraphSpec.
Import Graph.

(** The radius of a node before the hover scaling, as a rational. *)
Definition baseSizeQ (maxPaperCount papers : Z) : Q :=
  inject_Z 12 + inject_Z papers / inject_Z maxPaperCount * inject_Z 28.

(** The width of a link before the hover scaling, as a rational. *)
Definition baseWidthQ (maxLinkStrength shared : Z) : Q :=
  inject_Z 1 + inject_Z shared / inject_Z maxLinkStrength * inject_Z 5.


(** A link one of whose ends is the hovered node. *)
Definition touchesHovered (hoveredNode : option string) (l : GraphLink)
  : Prop :=
  hoveredNode = Some (endpointId (link_source l))
  ∨ hoveredNode = Some (endpointId (link_target l)).

End GraphSpec.

(** * Sample snapshots *)

Module GraphSamples.
Import Graph.

Definition mkNode (i : string) (papers : Z) : ClusterNode :=
  {| id := i; name := i; paperCount := papers; topTaskTags := [];
     topModalities := []; paperIds := [] |}.

Definition mkLink (s t : string) (shared : Z) : ClusterLink :=
  {| source := s; target := t; sharedCount := shared; sharedPaperIds := [] |}.

(** A snapshot whose only link points at an id that no node has. *)
Definition dangling : ClusterGraphData :=
  {| nodes := [mkNode "A" 10]; links := [mkLink "A" "ghost" 3] |}.

(** Two nodes joined by a link and a third one on its own; the third has
    no papers. *)
Definition threeNodes : ClusterGraphData :=
  {| nodes := [mkNode "A" 10; mkNode "B" 5; mkNode "C" 0];
     links := [mkLink "A" "B" 3] |}.

Definition viewport : Dimensions := {| width := 800; height := 600 |}.

(** The link A-B of [threeNodes] after the solver put the node objects in
    the place of the ids. *)
Definition resolvedLink : GraphLink :=
  {| link_source := EndNode (toGraphNode (mkNode "A" 10));
     link_target := EndNode (toGraphNode (mkNode "B" 5));
     link_sharedCount := 3; link_sharedPaperIds := [] |}.


End GraphSamples.

Module FlowSamples.
Import Flow.

Definition day (d : string) (counts : list (string * Z)) : DailyData :=
  {| date := d; cluster_counts := list_to_map counts |}.

Definition snapshot (cs : list string) (days : list DailyData) : FlowData :=
  {| start_date := "2024-01-01"; end_date := "2024-01-07"; clusters := cs;
     colors := ∅; daily_data := days |}.

(** The scenario of the specification: one day, X has three papers and Y
    none. *)
Definition oneDay : FlowData :=
  snapshot ["X"; "Y"] [day "2024-01-01" [("X", 3); ("Y", 0)]].

(** A band whose three numbers are numbers. *)
Definition bandOf (c : string) (from to : Z) : StackedValue :=
  {| cluster := c; y0 := Number from; y1 := Number to;
     count := Number (to - from) |}.

Definition bandX : StackedValue := bandOf "X" 0 3.
Definition bandY : StackedValue := bandOf "Y" 3 3.
Definition oneDayStacked : StackedDay :=
  {| sd_date := "2024-01-01"; values := [bandX; bandY]; total := Number 3 |}.
Definition oneDayProcessed : ProcessedData :=
  {| stackedData := [oneDayStacked]; dates := ["2024-01-01"%string];
     maxY := 3; pd_clusters := ["X"%string; "Y"%string] |}.

(** Two days. *)
Definition twoDays : FlowData :=
  snapshot ["X"; "Y"]
    [day "2024-01-01" [("X", 3); ("Y", 2)]; day "2024-01-02" [("X", 1)]].

Definition firstOfTwo : StackedDay :=
  {| sd_date := "2024-01-01"; values := [bandOf "X" 0 3; bandOf "Y" 3 5];
     total := Number 5 |}.
Definition secondOfTwo : StackedDay :=
  {| sd_date := "2024-01-02"; values := [bandOf "X" 0 1; bandOf "Y" 1 1];
     total := Number 1 |}.

Definition twoDaysProcessed : ProcessedData :=
  {| stackedData := [firstOfTwo; secondOfTwo];
     dates := ["2024-01-01"%string; "2024-01-02"%string];
     maxY := 5; pd_clusters := ["X"%string; "Y"%string] |}.

(** Two entries with the same date. *)
Definition sameDate : FlowData :=
  snapshot ["X"; "Y"]
    [day "2024-01-01" [("X", 1)]; day "2024-01-01" [("Y", 1)]].

(** A cluster that is a small part of its day. *)
Definition smallShare : FlowData :=
  snapshot ["X"; "Y"] [day "2024-01-01" [("X", 1); ("Y", 999)]].

(** Counts that cancel out; the data model excludes them. *)
Definition cancelling : FlowData :=
  snapshot ["X"; "Y"] [day "2024-01-01" [("X", 3); ("Y", -3)]].


Definition noDays : FlowData := snapshot ["X"; "Y"] [].

(** A cluster that bears the name of a member of [Object.prototype] and
    has no count on the day. *)
Definition inheritedName : FlowData :=
  snapshot ["X"; "constructor"] [day "2024-01-01" [("X", 3)]].

(** The same cluster with a count on the day. *)
Definition inheritedNameCounted : FlowData :=
  snapshot ["X"; "constructor"]
    [day "2024-01-01" [("X", 3); ("constructor", 2)]].

Definition desktop : Dimensions := {| width := 800; height := 400 |}.
(** A container narrower than the two side margins. *)
Definition narrow : Dimensions := {| width := 200; height := 400 |}.

Definition atOrigin : Canvas :=
  {| rect_left := 0; rect_top := 0; context2d := true |}.

Definition idle : State :=
  {| tooltip := None; hoveredCluster := None; selectedCluster := None |}.

Definition pointer (x y : Q) : MouseEvent := {| clientX := x; clientY := y |}.

(** The state after the pointer came to rest on the X band of [oneDay]. *)
Definition overX : State :=
  handleMouseMove oneDay desktop (Some atOrigin) (pointer 60 185) idle.

End FlowSamples.

Module AppSamples.
Import App.



End AppSamples.

(** * Properties *)

(** ** Arithmetic on finite numbers *)

Section FiniteArithmetic.

Lemma Qeq_bool_inject_Z_0 (z : Z) : z ≠ 0 -> Qeq_bool (inject_Z z) 0 = false.
Proof.
  intros Hz. apply not_true_is_false. intros H.
  apply Qeq_bool_iff in H. apply Hz.
  unfold Qeq in H. simpl in H. lia.
Qed.

Lemma div_by_nonzero (p : Q) (z : Z) :
  z ≠ 0 -> (Fin p / Fin (inject_Z z))%js = Fin (p / inject_Z z).
Proof. intros Hz. simpl. now rewrite Qeq_bool_inject_Z_0. Qed.

Lemma Qltb_lt (p q : Q) : Qltb p q = true <-> (p < q)%Q.
Proof.
  unfold Qltb. rewrite negb_true_iff. split.
  - intros H. apply Qnot_le_lt. intros Hle.
    apply Qle_bool_iff in Hle. congruence.
  - intros H. apply not_true_is_false. intros Hle.
    apply Qle_bool_iff in Hle. apply (Qlt_not_le _ _ H Hle).
Qed.

Lemma Qltb_ge (p q : Q) : Qltb p q = false <-> (q <= p)%Q.
Proof.
  unfold Qltb. rewrite negb_false_iff. apply Qle_bool_iff.
Qed.

Lemma max_with_1_ge_1 (xs : list Z) : 1 <= max_with_1 xs.
Proof. induction xs as [|a xs IH]; simpl; lia. Qed.

Lemma max_with_1_ge (xs : list Z) (a : Z) : a ∈ xs -> a <= max_with_1 xs.
Proof.
  induction 1 as [a xs | a b xs _ IH]; simpl; lia.
Qed.

End FiniteArithmetic.

(** ** The cluster graph *)

Module GraphFacts.
Import Graph.

Lemma elem_of_connectedIds_from (ls : list ClusterLink) (acc : gset string)
    (s : string) :
  s ∈ fold_left (fun acc l => acc ∪ {[source l]} ∪ {[target l]}) ls acc
  <-> s ∈ acc ∨ ∃ l, l ∈ ls ∧ (source l = s ∨ target l = s).
Proof.
  revert acc. induction ls as [|l ls IH]; intros acc; simpl.
  - split; [auto | intros [H | (l & Hl & _)]; [done | inversion Hl]].
  - rewrite IH. rewrite !elem_of_union, !elem_of_singleton. split.
    + intros [[[H | H] | H] | (l' & Hl' & H)].
      * by left.
      * right. exists l. split; [left | auto].
      * right. exists l. split; [left | auto].
      * right. exists l'. split; [by right | done].
    + intros [H | (l' & Hl' & H)].
      * by left; left; left.
      * apply elem_of_cons in Hl' as [-> | Hl'].
        -- destruct H as [H | H]; left; [left; right | right]; done.
        -- right. by exists l'.
Qed.

Lemma elem_of_connectedIds (gd : ClusterGraphData) (s : string) :
  s ∈ connectedIds gd
  <-> ∃ l, l ∈ links gd ∧ (source l = s ∨ target l = s).
Proof.
  unfold connectedIds. rewrite elem_of_connectedIds_from.
  split; [intros [H | H]; [set_solver | done] | by right].
Qed.

Lemma elem_of_isolatedNodeIds (gd : ClusterGraphData) (s : string) :
  s ∈ isolatedNodeIds gd
  <-> (∃ n, n ∈ nodes gd ∧ id n = s) ∧ s ∉ connectedIds gd.
Proof.
  unfold isolatedNodeIds. rewrite elem_of_list_to_set.
  rewrite list_elem_of_In, in_map_iff. split.
  - intros (n & <- & Hn). apply list_elem_of_In, list_elem_of_filter in Hn.
    destruct Hn as [Hc Hn]. split; [by exists n | done].
  - intros [(n & Hn & <-) Hc]. exists n. split; [done |].
    apply list_elem_of_In, list_elem_of_filter. done.
Qed.

(** The strength given to a node of the snapshot depends only on whether
    some link names it. *)
Lemma centering_isolated (gd : ClusterGraphData) (n : GraphNode) :
  node n ∈ nodes gd ->
  (∀ l, l ∈ links gd -> source l ≠ id (node n) ∧ target l ≠ id (node n)) ->
  centering (isolatedNodeIds gd) n = Fin (15 # 100).
Proof.
  intros Hn Hiso. unfold centering. rewrite bool_decide_eq_true_2; [done |].
  apply elem_of_isolatedNodeIds. split; [by exists (node n) |].
  rewrite elem_of_connectedIds. intros (l & Hl & H).
  destruct (Hiso l Hl) as [Hs Ht].
  destruct H as [H | H]; [by apply Hs | by apply Ht].
Qed.

Lemma centering_connected (gd : ClusterGraphData) (n : GraphNode)
    (l : ClusterLink) :
  l ∈ links gd -> source l = id (node n) ∨ target l = id (node n) ->
  centering (isolatedNodeIds gd) n = Fin (2 # 100).
Proof.
  intros Hl H. unfold centering. rewrite bool_decide_eq_false_2; [done |].
  rewrite elem_of_isolatedNodeIds. intros [_ Hc]. apply Hc.
  apply elem_of_connectedIds. by exists l.
Qed.

Lemma configureForces_Some (gd : ClusterGraphData) (dims : Dimensions)
    (cfg : ForceConfig) :
  configureForces gd dims = Some cfg ->
  nodes gd ≠ []
  ∧ collisionRadius cfg = collide (maxPaperCount gd)
  ∧ xStrength cfg = centering (isolatedNodeIds gd)
  ∧ yStrength cfg = centering (isolatedNodeIds gd).
Proof.
  unfold configureForces. destruct (nodes gd) as [|n ns] eqn:E.
  - unfold transformedData. rewrite E. discriminate.
  - unfold transformedData. rewrite E. simpl. intros [= <-]. done.
Qed.

Lemma maxPaperCount_ge_1 (gd : ClusterGraphData) : 1 <= maxPaperCount gd.
Proof. apply max_with_1_ge_1. Qed.

Lemma maxLinkStrength_ge_1 (gd : ClusterGraphData) : 1 <= maxLinkStrength gd.
Proof. apply max_with_1_ge_1. Qed.



End GraphFacts.

Module GraphClaims.
Import Graph GraphFacts GraphSamples.

(** C3, as stated, fails: the link A -> ghost has a target that is the id
    of no node, and it is still in the link list given to the solver. *)
Lemma dangling_link_reaches_solver :
  ("ghost"%string ∉ map id (nodes dangling))
  ∧ graph_links (transformedData dangling)
    = [ {| link_source := EndId "A"; link_target := EndId "ghost";
           link_sharedCount := 3; link_sharedPaperIds := [] |} ].
Proof.
  split; [| reflexivity].
  simpl. rewrite list_elem_of_singleton. discriminate.
Qed.

(** C3, amended: no link is dropped.  The solver is given the links of the
    snapshot one for one and in order, each with the source id, target id
    and shared count it has in the snapshot, whether or not those ids are
    ids of nodes; and it is given the nodes one for one, whatever the
    links are. *)
Theorem transformedData_keeps_every_link (gd : ClusterGraphData) :
  length (graph_links (transformedData gd)) = length (links gd)
  ∧ (∀ i l, links gd !! i = Some l ->
       ∃ gl, graph_links (transformedData gd) !! i = Some gl
             ∧ endpointId (link_source gl) = source l
             ∧ endpointId (link_target gl) = target l
             ∧ link_sharedCount gl = sharedCount l)
  ∧ length (graph_nodes (transformedData gd)) = length (nodes gd)
  ∧ map node (graph_nodes (transformedData gd)) = nodes gd.
Proof.
  unfold transformedData; simpl. split; [| split; [| split]].
  - apply length_map.
  - intros i l Hl. exists (toGraphLink l). split; [| done].
    change (map toGraphLink (links gd)) with (toGraphLink <$> links gd).
    by rewrite list_lookup_fmap, Hl.
  - apply length_map.
  - rewrite map_map. simpl. apply map_id.
Qed.

(** The dangling link of [dangling] is handed over, and so is the node
    list of a snapshot that has no link at all. *)
Lemma transformedData_keeps_every_link_witness :
  (∃ gl, graph_links (transformedData dangling) !! 0%nat = Some gl
         ∧ endpointId (link_source gl) = "A"%string
         ∧ endpointId (link_target gl) = "ghost"%string
         ∧ link_sharedCount gl = 3)
  ∧ map node (graph_nodes (transformedData dangling)) = nodes dangling
  ∧ map node (graph_nodes (transformedData
                             {| nodes := [mkNode "A" 10]; links := [] |}))
    = [mkNode "A" 10].
Proof.
  destruct (transformedData_keeps_every_link dangling)
    as (_ & Hlinks & _ & Hnodes).
  destruct (transformedData_keeps_every_link
              {| nodes := [mkNode "A" 10]; links := [] |})
    as (_ & _ & _ & Hnodes').
  split; [| split; [exact Hnodes | exact Hnodes']].
  apply (Hlinks 0%nat (mkLink "A" "ghost" 3)). reflexivity.
Defined.

(** C5, as stated, fails at paperCount 0: node C of [threeNodes] is drawn
    with radius 12, so the claim asks for a collision radius of 12 + 40,
    and the solver is given 12 + 28 * 1 / 10 + 40. *)
Lemma collision_radius_at_zero_papers :
  ∃ cfg, configureForces threeNodes viewport = Some cfg
    ∧ getNodeSize None None (maxPaperCount threeNodes)
        (toGraphNode (mkNode "C" 0)) = Fin (12 + 0 / 10 * 28)
    ∧ collisionRadius cfg (toGraphNode (mkNode "C" 0))
      = Fin (12 + 1 / 10 * 28 + 40)
    ∧ ¬ same (collisionRadius cfg (toGraphNode (mkNode "C" 0)))
             (getNodeSize None None (maxPaperCount threeNodes)
                (toGraphNode (mkNode "C" 0)) + 40)%js.
Proof.
  eexists. split; [reflexivity |]. split; [reflexivity |].
  split; [reflexivity |]. vm_compute. discriminate.
Qed.

(** C5, amended: for a node whose paperCount is not 0, the collision
    radius is the radius the node is drawn with when nothing is hovered or
    selected, 12 + 28 * paperCount / maxPaperCount, plus a padding of 40;
    a node with paperCount 0 collides as a node with one paper does. *)
Theorem collision_radius_is_visual_radius_plus_padding
    (gd : ClusterGraphData) (dims : Dimensions) (cfg : ForceConfig)
    (n : GraphNode) :
  configureForces gd dims = Some cfg ->
  (paperCount (node n) ≠ 0 ->
     collisionRadius cfg n
     = (getNodeSize None None (maxPaperCount gd) n + 40)%js
     ∧ same (collisionRadius cfg n)
         (Fin (12 + inject_Z (paperCount (node n))
                    / inject_Z (maxPaperCount gd) * 28 + 40)))
  ∧ (paperCount (node n) = 0 ->
     same (collisionRadius cfg n)
       (Fin (12 + 1 / inject_Z (maxPaperCount gd) * 28 + 40))).
Proof.
  intros Hcfg. apply configureForces_Some in Hcfg as (_ & -> & _).
  pose proof (max_with_1_ge_1 (map paperCount (nodes gd))) as Hmax.
  fold (maxPaperCount gd) in Hmax.
  assert (Hdiv : ∀ p : Q,
    (Fin p / ofZ (maxPaperCount gd))%js = Fin (p / inject_Z (maxPaperCount gd)))
    by (intros p; unfold ofZ; apply div_by_nonzero; lia).
  unfold collide, getNodeSize, or_number. split.
  - intros Hpc. apply Z.eqb_neq in Hpc. rewrite Hpc.
    rewrite !bool_decide_eq_false_2 by done. simpl orb. cbv iota.
    split; [reflexivity |].
    unfold ofZ at 2. rewrite Hdiv. simpl. reflexivity.
  - intros ->. simpl Z.eqb. cbv iota.
    unfold ofZ at 2. rewrite Hdiv. simpl. reflexivity.
Qed.

Lemma collision_radius_is_visual_radius_plus_padding_witness :
  ∃ cfg, configureForces threeNodes viewport = Some cfg
    ∧ collisionRadius cfg (toGraphNode (mkNode "B" 5))
      = (getNodeSize None None (maxPaperCount threeNodes)
           (toGraphNode (mkNode "B" 5)) + 40)%js
    ∧ same (collisionRadius cfg (toGraphNode (mkNode "C" 0)))
        (Fin (12 + 1 / inject_Z (maxPaperCount threeNodes) * 28 + 40)).
Proof.
  eexists. split; [reflexivity |]. split.
  - apply (collision_radius_is_visual_radius_plus_padding
             threeNodes viewport _ (toGraphNode (mkNode "B" 5)) eq_refl).
    discriminate.
  - apply (collision_radius_is_visual_radius_plus_padding
             threeNodes viewport _ (toGraphNode (mkNode "C" 0)) eq_refl).
    reflexivity.
Defined.

(** C6, as stated, fails at the centre: in [threeNodes] the node C is
    isolated and has strength 0.15, the node A is an end of a link and has
    strength 0.02; at distance 0 from the centre, which is the same
    distance for both, the pull on either is 0, and the pull on C is not
    the strictly larger one. *)
Lemma pull_vanishes_at_the_centre :
  ∃ cfg, configureForces threeNodes viewport = Some cfg
    ∧ xStrength cfg (toGraphNode (mkNode "C" 0)) = Fin (15 # 100)
    ∧ yStrength cfg (toGraphNode (mkNode "C" 0)) = Fin (15 # 100)
    ∧ xStrength cfg (toGraphNode (mkNode "A" 10)) = Fin (2 # 100)
    ∧ yStrength cfg (toGraphNode (mkNode "A" 10)) = Fin (2 # 100)
    ∧ (pull2 (15 # 100) 1 0 0 == 0)%Q
    ∧ (pull2 (2 # 100) 1 0 0 == 0)%Q
    ∧ ¬ (pull2 (2 # 100) 1 0 0 < pull2 (15 # 100) 1 0 0)%Q.
Proof.
  eexists. split; [reflexivity |].
  do 4 (split; [vm_compute; reflexivity |]).
  split; [reflexivity |]. split; [reflexivity |].
  intros H. vm_compute in H. discriminate H.
Qed.

(** C6, amended: for every node of the snapshot the centering forces are installed,
    and the node gets strength 0.15 on the x and on the y force when no
    link names it as source or target, and 0.02 on both when some link
    does.  With the positioning force of the solver, at the same non-zero
    distance from the centre and the same alpha, the pull on an isolated
    node is strictly the larger one (compared through its square). *)
Theorem isolated_nodes_are_pulled_harder
    (gd : ClusterGraphData) (dims : Dimensions) (n : GraphNode) :
  node n ∈ nodes gd ->
  ∃ cfg, configureForces gd dims = Some cfg
    ∧ ((∀ l, l ∈ links gd ->
          source l ≠ id (node n) ∧ target l ≠ id (node n)) ->
       xStrength cfg n = Fin (15 # 100) ∧ yStrength cfg n = Fin (15 # 100))
    ∧ ((∃ l, l ∈ links gd
             ∧ (source l = id (node n) ∨ target l = id (node n))) ->
       xStrength cfg n = Fin (2 # 100) ∧ yStrength cfg n = Fin (2 # 100))
    ∧ (∀ alpha dxi dyi dxc dyc : Q,
         (0 < alpha)%Q ->
         (dxi * dxi + dyi * dyi == dxc * dxc + dyc * dyc)%Q ->
         (0 < dxi * dxi + dyi * dyi)%Q ->
         (pull2 (2 # 100) alpha dxc dyc < pull2 (15 # 100) alpha dxi dyi)%Q).
Proof.
  intros Hn.
  destruct (configureForces gd dims) as [cfg|] eqn:Hcfg.
  2: { unfold configureForces, transformedData in Hcfg. simpl in Hcfg.
       destruct (nodes gd); [inversion Hn | discriminate]. }
  exists cfg. split; [done |].
  apply configureForces_Some in Hcfg as (_ & _ & -> & ->).
  split; [| split].
  - intros Hiso. by rewrite (centering_isolated gd n Hn Hiso).
  - intros (l & Hl & Hinc). by rewrite (centering_connected gd n l Hl Hinc).
  - intros alpha dxi dyi dxc dyc Halpha Hdist Hpos.
    unfold pull2, pull.
    set (D := (dxi * dxi + dyi * dyi)%Q) in *.
    assert (E1 : ((dxc * (2 # 100) * alpha) * (dxc * (2 # 100) * alpha)
                  + (dyc * (2 # 100) * alpha) * (dyc * (2 # 100) * alpha)
                  == (4 # 10000) * (alpha * alpha) * D)%Q)
      by (rewrite Hdist; ring).
    assert (E2 : ((dxi * (15 # 100) * alpha) * (dxi * (15 # 100) * alpha)
                  + (dyi * (15 # 100) * alpha) * (dyi * (15 # 100) * alpha)
                  == (225 # 10000) * (alpha * alpha) * D)%Q)
      by (unfold D; ring).
    rewrite E1, E2.
    assert (Haa : (0 < alpha * alpha * D)%Q).
    { apply Qmult_lt_0_compat; [apply Qmult_lt_0_compat |]; assumption. }
    lra.
Qed.

(** In [threeNodes], C is isolated and A is an end of the link A-B; the
    pulls are compared at distance 5. *)
Lemma isolated_nodes_are_pulled_harder_witness :
  ∃ cfg, configureForces threeNodes viewport = Some cfg
    ∧ xStrength cfg (toGraphNode (mkNode "C" 0)) = Fin (15 # 100)
    ∧ yStrength cfg (toGraphNode (mkNode "C" 0)) = Fin (15 # 100)
    ∧ xStrength cfg (toGraphNode (mkNode "A" 10)) = Fin (2 # 100)
    ∧ yStrength cfg (toGraphNode (mkNode "A" 10)) = Fin (2 # 100)
    ∧ (pull2 (2 # 100) 1 3 4 < pull2 (15 # 100) 1 5 0)%Q.
Proof.
  assert (HinC : mkNode "C" 0 ∈ nodes threeNodes)
    by (simpl; repeat constructor).
  assert (HinA : mkNode "A" 10 ∈ nodes threeNodes)
    by (simpl; repeat constructor).
  destruct (isolated_nodes_are_pulled_harder threeNodes viewport
              (toGraphNode (mkNode "C" 0)) HinC)
    as (cfg & Hcfg & Hiso & _ & Hpull).
  destruct (isolated_nodes_are_pulled_harder threeNodes viewport
              (toGraphNode (mkNode "A" 10)) HinA)
    as (cfg' & Hcfg' & _ & Hcon & _).
  assert (cfg' = cfg) as -> by congruence.
  exists cfg. split; [exact Hcfg |].
  assert (HC : ∀ l, l ∈ links threeNodes ->
            source l ≠ "C"%string ∧ target l ≠ "C"%string).
  { intros l Hl. simpl in Hl. apply list_elem_of_singleton in Hl as ->.
    split; discriminate. }
  assert (HA : ∃ l, l ∈ links threeNodes
                    ∧ (source l = "A"%string ∨ target l = "A"%string)).
  { exists (mkLink "A" "B" 3).
    split; [simpl; repeat constructor | left; reflexivity]. }
  destruct (Hiso HC) as [Hx Hy]. destruct (Hcon HA) as [Hx' Hy'].
  do 4 (split; [assumption |]).
  apply (Hpull 1%Q 5%Q 0%Q 3%Q 4%Q); reflexivity.
Defined.

End GraphClaims.

(** ** The flow chart *)

(** ** The flow chart *)

Module FlowFacts.
Import Flow FlowSpec.

(** *** Reads of a count *)

Lemma readCount_plain (day : DailyData) (c : string) :
  plainName day c -> readCount day c = Number (countOf day c).
Proof.
  unfold plainName, readCount, get, countOf. intros [[v Hv] | Hc].
  - rewrite Hv. simpl. destruct (Z.eqb_spec v 0); congruence.
  - destruct (cluster_counts day !! c) as [v|]; simpl.
    + destruct (Z.eqb_spec v 0); congruence.
    + by rewrite bool_decide_eq_false_2.
Qed.

Lemma readCount_Number (day : DailyData) (c : string) (n : Z) :
  readCount day c = Number n -> countOf day c = n.
Proof.
  unfold readCount, get, countOf.
  destruct (cluster_counts day !! c) as [v|]; simpl.
  - destruct (Z.eqb_spec v 0); congruence.
  - case_bool_decide; simpl; congruence.
Qed.

Lemma readCount_inherited (day : DailyData) (c : string) :
  ¬ plainName day c -> readCount day c = Member c.
Proof.
  unfold plainName, readCount, get. intros Hc.
  destruct (cluster_counts day !! c) as [v|].
  - destruct Hc. left. by eexists.
  - case_bool_decide; [done |]. destruct Hc. by right.
Qed.

(** *** The stack of a day *)

Lemma fold_stackStep (day : DailyData) (cs : list string)
    (y : jsvalue) (vs : list StackedValue) (t : jsvalue) :
  fold_left (stackStep day) cs (y, vs, t)
  = (stackTotal day y cs, vs ++ stackValues day y cs, stackTotal day t cs).
Proof.
  revert y vs t. induction cs as [|c cs IH]; intros y vs t; simpl.
  - by rewrite app_nil_r.
  - fold (readCount day c). by rewrite IH, <- app_assoc.
Qed.

Lemma stackDay_eq (cs : list string) (day : DailyData) :
  stackDay cs day
  = {| sd_date := date day; values := stackValues day (Number 0) cs;
       total := stackTotal day (Number 0) cs |}.
Proof. unfold stackDay. by rewrite fold_stackStep. Qed.

Lemma stackValues_plain (day : DailyData) (y : Z) (cs : list string) :
  plainDay cs day -> stackValues day (Number y) cs = stackFrom day y cs.
Proof.
  revert y. induction cs as [|c cs IH]; intros y Hplain; [done |].
  apply Forall_cons in Hplain as [Hc Hcs]. simpl.
  rewrite (readCount_plain day c Hc). simpl. by rewrite (IH _ Hcs).
Qed.

Lemma stackTotal_plain (day : DailyData) (t : Z) (cs : list string) :
  plainDay cs day ->
  stackTotal day (Number t) cs = Number (t + sumCounts day cs).
Proof.
  revert t. induction cs as [|c cs IH]; intros t Hplain.
  - simpl. unfold sumCounts. simpl. by rewrite Z.add_0_r.
  - apply Forall_cons in Hplain as [Hc Hcs]. simpl.
    rewrite (readCount_plain day c Hc). simpl. rewrite (IH _ Hcs).
    unfold sumCounts. simpl. f_equal. lia.
Qed.

Lemma stackDay_plain (cs : list string) (day : DailyData) :
  plainDay cs day ->
  stackDay cs day
  = {| sd_date := date day; values := stackFrom day 0 cs;
       total := Number (sumCounts day cs) |}.
Proof.
  intros Hplain.
  by rewrite stackDay_eq, stackValues_plain, stackTotal_plain.
Qed.

Lemma stackTotal_not_number (day : DailyData) (t : jsvalue)
    (cs : list string) :
  (∀ z, t ≠ Number z) -> toNumber (stackTotal day t cs) = NaN.
Proof.
  revert t. induction cs as [|c cs IH]; intros t Ht; simpl.
  - destruct t; [by destruct (Ht z) | done | done].
  - apply IH. intros z. destruct t; [by destruct (Ht z0) | done | done].
Qed.

(** A day with a listed name that is read from [Object.prototype] has a
    total that is not a number. *)
Lemma stackTotal_polluted (day : DailyData) (t : jsvalue) (cs : list string) :
  ¬ plainDay cs day -> toNumber (stackTotal day t cs) = NaN.
Proof.
  revert t. induction cs as [|c cs IH]; intros t Hnot.
  - destruct Hnot. constructor.
  - simpl. destruct (decide (plainName day c)) as [Hc | Hc].
    + apply IH. intros Hcs. apply Hnot. by constructor.
    + rewrite (readCount_inherited day c Hc).
      apply stackTotal_not_number. intros z. by destruct t.
Qed.

Lemma map_cluster_stackValues (day : DailyData) (y : jsvalue)
    (cs : list string) :
  map cluster (stackValues day y cs) = cs.
Proof.
  revert y. induction cs as [|c cs IH]; intros y; simpl; [done |].
  by rewrite IH.
Qed.

Lemma length_stackValues (day : DailyData) (y : jsvalue) (cs : list string) :
  length (stackValues day y cs) = length cs.
Proof. by rewrite <- (map_cluster_stackValues day y cs) at 2; rewrite length_map. Qed.

(** Every value of a day carries a listed cluster and what the code reads
    as its count. *)
Lemma stackValues_elem (day : DailyData) (y : jsvalue) (cs : list string)
    (v : StackedValue) :
  v ∈ stackValues day y cs ->
  cluster v ∈ cs ∧ count v = readCount day (cluster v).
Proof.
  revert y. induction cs as [|c cs IH]; intros y Hv; simpl in Hv.
  - by apply elem_of_nil in Hv.
  - apply elem_of_cons in Hv as [-> | Hv]; simpl.
    + split; [left | done].
    + destruct (IH _ Hv) as [H1 H2]. split; [by right | done].
Qed.





Lemma absCounts_nonneg (day : DailyData) (cs : list string) :
  0 <= absCounts day cs.
Proof. induction cs as [|c cs IH]; unfold absCounts in *; simpl; lia. Qed.

Lemma abs_sumCounts_take (day : DailyData) (cs : list string) (i : nat) :
  Z.abs (sumCounts day (take i cs)) <= absCounts day cs.
Proof.
  revert i. induction cs as [|c cs IH]; intros [|i];
    unfold sumCounts, absCounts in *; simpl; try lia.
  - pose proof (absCounts_nonneg day cs) as H. unfold absCounts in H. lia.
  - specialize (IH i). lia.
Qed.

Lemma fold_push {A B} (f : A -> B) (l : list A) (acc : list B) :
  fold_left (fun acc a => acc ++ [f a]) l acc = acc ++ map f l.
Proof.
  revert acc. induction l as [|a l IH]; intros acc; simpl.
  - by rewrite app_nil_r.
  - by rewrite IH, <- app_assoc.
Qed.

(** *** [Math.max] over the totals *)

Lemma max_NaN_r (a : jsnum) : max a NaN = NaN.
Proof. by destruct a. Qed.

Lemma Qle_bool_inject_Z (a b : Z) :
  Qle_bool (inject_Z a) (inject_Z b) = (a <=? b).
Proof.
  destruct (Z.leb_spec a b) as [H | H].
  - apply Qle_bool_iff. by rewrite <- Zle_Qle.
  - apply not_true_iff_false. intros Hle. apply Qle_bool_iff in Hle.
    rewrite <- Zle_Qle in Hle. lia.
Qed.

Lemma Qltb_inject_Z (a b : Z) : Qltb (inject_Z a) (inject_Z b) = (a <? b).
Proof.
  unfold Qltb. rewrite Qle_bool_inject_Z.
  destruct (Z.leb_spec b a), (Z.ltb_spec a b); simpl; try done; lia.
Qed.

Lemma max_ofZ (a b : Z) : max (ofZ a) (ofZ b) = ofZ (Z.max a b).
Proof.
  unfold max, ofZ, le. rewrite Qle_bool_inject_Z.
  destruct (Z.leb_spec a b).
  - by rewrite Z.max_r.
  - by rewrite Z.max_l by lia.
Qed.

Lemma max_or_1_numbers (zs : list Z) :
  max_or_1 (map Number zs) = ofZ (max_with_1 zs).
Proof.
  induction zs as [|z zs IH]; [done |].
  unfold max_or_1 in *. cbn [map fold_right]. rewrite IH. apply max_ofZ.
Qed.

Lemma max_or_1_NaN (vs : list jsvalue) (v : jsvalue) :
  v ∈ vs -> toNumber v = NaN -> max_or_1 vs = NaN.
Proof.
  intros Hin Hv. unfold max_or_1.
  induction Hin as [v vs | v v' vs _ IH]; cbn [fold_right].
  - by rewrite Hv.
  - rewrite (IH Hv). apply max_NaN_r.
Qed.

(** *** The processed data *)

Lemma processedData_Some (fd : FlowData) (pd : ProcessedData) :
  processedData fd = Some pd <->
  daily_data fd ≠ []
  ∧ pd = {| stackedData := map (stackDay (clusters fd)) (daily_data fd);
            dates := map date (daily_data fd);
            maxY := max_or_1
                      (map total (map (stackDay (clusters fd)) (daily_data fd)));
            pd_clusters := clusters fd |}.
Proof.
  unfold processedData. rewrite fold_push. simpl.
  destruct (daily_data fd) as [|d ds]; simpl.
  - split; [discriminate | intros [H _]; done].
  - split; [intros [= <-]; done | intros [_ ->]; done].
Qed.

Lemma processedData_None (fd : FlowData) :
  processedData fd = None <-> daily_data fd = [].
Proof.
  unfold processedData. destruct (daily_data fd); simpl; split; done.
Qed.

Lemma processedData_is_Some (fd : FlowData) :
  daily_data fd ≠ [] -> ∃ pd, processedData fd = Some pd.
Proof.
  intros Hne. eexists. apply processedData_Some. split; [done | reflexivity].
Qed.

Lemma plainCounts_day (fd : FlowData) (d : DailyData) :
  plainCounts fd -> d ∈ daily_data fd -> plainDay (clusters fd) d.
Proof. intros Hplain Hd. unfold plainCounts in Hplain. rewrite Forall_forall in Hplain. auto. Qed.

Lemma maxTotal_ge_1 (fd : FlowData) : 1 <= maxTotal fd.
Proof. apply max_with_1_ge_1. Qed.

(** When no read reaches [Object.prototype], the stacked days are those
    of [stackFrom] and [maxY] is the number [maxTotal]. *)
Lemma processedData_plain (fd : FlowData) (pd : ProcessedData) :
  plainCounts fd ->
  processedData fd = Some pd ->
  maxY pd = ofZ (maxTotal fd)
  ∧ stackedData pd
    = map (fun d => {| sd_date := date d;
                       values := stackFrom d 0 (clusters fd);
                       total := Number (sumCounts d (clusters fd)) |})
          (daily_data fd).
Proof.
  intros Hplain Hpd. apply processedData_Some in Hpd as [_ ->]. simpl.
  assert (E : map (stackDay (clusters fd)) (daily_data fd)
              = map (fun d => {| sd_date := date d;
                                 values := stackFrom d 0 (clusters fd);
                                 total := Number (sumCounts d (clusters fd)) |})
                    (daily_data fd)).
  { apply map_ext_in. intros d Hd. apply stackDay_plain.
    apply (plainCounts_day fd); [done |]. by apply list_elem_of_In. }
  rewrite E. split; [| done].
  rewrite map_map. simpl. unfold maxTotal.
  by rewrite <- max_or_1_numbers, map_map.
Qed.

(** Otherwise [maxY] is NaN. *)
Lemma processedData_polluted (fd : FlowData) (pd : ProcessedData) :
  ¬ plainCounts fd ->
  processedData fd = Some pd ->
  maxY pd = NaN.
Proof.
  intros Hnot Hpd. apply processedData_Some in Hpd as [_ ->]. simpl.
  unfold plainCounts in Hnot. apply not_Forall_Exists in Hnot; [| apply _].
  apply Exists_exists in Hnot as (d & Hd & Hbad).
  apply (max_or_1_NaN _ (total (stackDay (clusters fd) d))).
  - apply list_elem_of_In, in_map, in_map. by apply list_elem_of_In.
  - rewrite stackDay_eq. simpl. by apply stackTotal_polluted.
Qed.

(** *** The values of a stacked day, when the reads are plain *)

Lemma map_cluster_stackFrom (day : DailyData) (y : Z) (cs : list string) :
  map cluster (stackFrom day y cs) = cs.
Proof.
  revert y. induction cs as [|c cs IH]; intros y; simpl; [done |].
  by rewrite IH.
Qed.

Lemma sumCounts_take_S (day : DailyData) (cs : list string) (i : nat)
    (c : string) :
  cs !! i = Some c ->
  sumCounts day (take (S i) cs) = sumCounts day (take i cs) + countOf day c.
Proof.
  revert i. induction cs as [|a cs IH]; intros [|i] H; simpl in *; try done.
  - injection H as ->. unfold sumCounts. simpl. lia.
  - specialize (IH i H). unfold sumCounts in *. simpl in *. lia.
Qed.

Lemma stackFrom_lookup (day : DailyData) (y : Z) (cs : list string)
    (i : nat) (v : StackedValue) :
  stackFrom day y cs !! i = Some v ->
  cs !! i = Some (cluster v)
  ∧ count v = Number (countOf day (cluster v))
  ∧ y0 v = Number (y + sumCounts day (take i cs))
  ∧ y1 v = Number (y + sumCounts day (take i cs) + countOf day (cluster v)).
Proof.
  revert y i. induction cs as [|c cs IH]; intros y [|i] H; simpl in *;
    try done.
  - injection H as <-. simpl. unfold sumCounts. simpl.
    repeat split; f_equal; lia.
  - destruct (IH _ _ H) as (Hc & Hn & Hy0 & Hy1).
    repeat split; try done.
    + rewrite Hy0. unfold sumCounts. simpl. f_equal. lia.
    + rewrite Hy1. unfold sumCounts. simpl. f_equal. lia.
Qed.

Lemma stackFrom_last (day : DailyData) (y : Z) (cs : list string) :
  cs ≠ [] ->
  ∃ v, last (stackFrom day y cs) = Some v
       ∧ y1 v = Number (y + sumCounts day cs).
Proof.
  revert y. induction cs as [|c cs IH]; intros y Hne; [done |].
  destruct cs as [|c' cs].
  - eexists. split; [reflexivity |]. unfold sumCounts. simpl. f_equal. lia.
  - destruct (IH (y + countOf day c)) as (v & Hv & Hy); [done |].
    exists v. split.
    + simpl stackFrom in *. by rewrite last_cons_cons.
    + rewrite Hy. unfold sumCounts. simpl. f_equal. lia.
Qed.

Lemma length_stackFrom (d : DailyData) (y : Z) (cs : list string) :
  length (stackFrom d y cs) = length cs.
Proof.
  revert y. induction cs as [|c cs IH]; intros y; simpl; [done |].
  by rewrite IH.
Qed.

Lemma sumCounts_nonneg (day : DailyData) (cs : list string) :
  (∀ c, 0 <= countOf day c) -> 0 <= sumCounts day cs.
Proof.
  intros H. induction cs as [|c cs IH]; unfold sumCounts in *; simpl; [lia |].
  specialize (H c). lia.
Qed.

Lemma sumCounts_app (day : DailyData) (cs ds : list string) :
  sumCounts day (cs ++ ds) = sumCounts day cs + sumCounts day ds.
Proof.
  induction cs as [|c cs IH]; unfold sumCounts in *; simpl; [done |].
  rewrite IH. lia.
Qed.

Lemma countOf_nonneg (fd : FlowData) (day : DailyData) (c : string) :
  nonNegative fd -> day ∈ daily_data fd -> 0 <= countOf day c.
Proof.
  intros Hnn Hday. unfold countOf.
  destruct (cluster_counts day !! c) as [n|] eqn:E; simpl; [| lia].
  by apply (Hnn day c n).
Qed.

Lemma countOf_le_sumCounts (d : DailyData) (cs : list string) (c : string) :
  (∀ c', 0 <= countOf d c') -> c ∈ cs -> countOf d c <= sumCounts d cs.
Proof.
  intros Hnn. induction 1 as [c cs | c c' cs _ IH]; unfold sumCounts in *; simpl.
  - pose proof (sumCounts_nonneg d cs Hnn) as H. unfold sumCounts in H. lia.
  - specialize (Hnn c'). lia.
Qed.

Lemma sumCounts_take_le (d : DailyData) (cs : list string) (i : nat) :
  (∀ c, 0 <= countOf d c) ->
  0 <= sumCounts d (take i cs) <= sumCounts d cs.
Proof.
  intros Hnn. rewrite <- (take_drop i cs) at 3. rewrite sumCounts_app.
  pose proof (sumCounts_nonneg d (take i cs) Hnn).
  pose proof (sumCounts_nonneg d (drop i cs) Hnn). lia.
Qed.

Lemma sumCounts_le_maxTotal (fd : FlowData) (d : DailyData) :
  d ∈ daily_data fd -> sumCounts d (clusters fd) <= maxTotal fd.
Proof.
  intros Hd. unfold maxTotal. apply max_with_1_ge.
  apply list_elem_of_In.
  apply (in_map (fun day => sumCounts day (clusters fd))).
  by apply list_elem_of_In.
Qed.

(** *** The scales *)

Lemma scales_defined (pd : ProcessedData) (dims : Dimensions) :
  ∃ sc, scales (Some pd) dims = Some sc.
Proof. eexists. reflexivity. Qed.

(** [xScale] is the rational one, whatever the counts. *)
Lemma xScale_eq (pd : ProcessedData) (dims : Dimensions) (sc : Scales) :
  scales (Some pd) dims = Some sc ->
  ∀ d, xScale sc d
       = Fin (xScaleQ dims (length (dates pd)) (indexOf (dates pd) d)).
Proof.
  intros Hsc. unfold scales in Hsc. injection Hsc as <-. simpl.
  intros d. rewrite Qeq_bool_inject_Z_0 by lia. reflexivity.
Qed.

(** [yScale] is the rational one on finite arguments when [maxY] is a
    number that is not 0. *)
Lemma yScale_eq (pd : ProcessedData) (dims : Dimensions) (sc : Scales)
    (M : Z) :
  scales (Some pd) dims = Some sc ->
  maxY pd = ofZ M -> 1 <= M ->
  ∀ v, yScale sc (Fin v) = Fin (yScaleQ dims M v).
Proof.
  intros Hsc HM H1. unfold scales in Hsc. injection Hsc as <-. simpl.
  intros v. rewrite HM. unfold ofZ. cbn [div].
  rewrite Qeq_bool_inject_Z_0 by lia. reflexivity.
Qed.

(** On finite arguments the scale functions are the rational ones. *)
Lemma scales_Some (fd : FlowData) (pd : ProcessedData) (dims : Dimensions)
    (sc : Scales) :
  plainCounts fd ->
  processedData fd = Some pd ->
  scales (Some pd) dims = Some sc ->
  (∀ d, xScale sc d
        = Fin (xScaleQ dims (length (dates pd)) (indexOf (dates pd) d)))
  ∧ (∀ v, yScale sc (Fin v) = Fin (yScaleQ dims (maxTotal fd) v)).
Proof.
  intros Hplain Hpd Hsc. split; [by apply xScale_eq |].
  destruct (processedData_plain fd pd Hplain Hpd) as [HM _].
  apply (yScale_eq pd); [done | done | apply maxTotal_ge_1].
Qed.

(** When [maxY] is NaN, so is [yScale] of anything. *)
Lemma yScale_NaN (pd : ProcessedData) (dims : Dimensions) (sc : Scales) :
  scales (Some pd) dims = Some sc ->
  maxY pd = NaN ->
  ∀ v, yScale sc v = NaN.
Proof.
  intros Hsc HM. unfold scales in Hsc. injection Hsc as <-. simpl.
  intros v. rewrite HM. by destruct v.
Qed.

(** *** The values of a stacked day *)

Lemma stackedData_elem (fd : FlowData) (pd : ProcessedData) (sd : StackedDay) :
  processedData fd = Some pd ->
  sd ∈ stackedData pd ->
  ∃ d, d ∈ daily_data fd ∧ sd = stackDay (clusters fd) d.
Proof.
  intros Hpd Hsd. apply processedData_Some in Hpd as [_ ->]. simpl in Hsd.
  apply list_elem_of_In, in_map_iff in Hsd as (d & <- & Hd).
  exists d. by rewrite list_elem_of_In.
Qed.

Lemma stackDay_value (cs : list string) (d : DailyData) (v : StackedValue) :
  v ∈ values (stackDay cs d) ->
  cluster v ∈ cs ∧ count v = readCount d (cluster v).
Proof. rewrite stackDay_eq. simpl. apply stackValues_elem. Qed.

(** *** The pointer handler *)

Lemma index_elem {A} (arr : list A) (i : jsnum) (a : A) :
  index arr i = Some a -> a ∈ arr.
Proof.
  destruct i as [q| | |]; simpl; try done.
  destruct (_ && _); [| done]. intros H.
  apply list_elem_of_lookup. eauto.
Qed.

Lemma find_elem {A} (p : A -> bool) (l : list A) (a : A) :
  find p l = Some a -> a ∈ l ∧ p a = true.
Proof.
  intros H. apply find_some in H as [H1 H2]. split; [| done].
  by apply list_elem_of_In.
Qed.

Lemma find_is_Some {A} (p : A -> bool) (l : list A) (a : A) :
  a ∈ l -> p a = true -> ∃ b, find p l = Some b.
Proof.
  intros Ha Hp. destruct (find p l) as [b|] eqn:E; [by exists b |].
  apply list_elem_of_In in Ha.
  pose proof (find_none p l E a Ha). congruence.
Qed.

Lemma find_all_false {A} (p : A -> bool) (l : list A) :
  (∀ a, p a = false) -> find p l = None.
Proof.
  intros H. induction l as [|a l IH]; [done |]. simpl. by rewrite H.
Qed.

Lemma truthy_Some (s : string) : truthy (Some s) = true <-> s ≠ ""%string.
Proof.
  simpl. rewrite negb_true_iff. split.
  - intros H ->. by rewrite String.eqb_refl in H.
  - intros H. by apply String.eqb_neq.
Qed.

(** The four ways in which a pointer move over a mounted canvas ends when
    there is data: no day under the pointer; a day and no band; a band
    whose cluster has the empty name, which counts as no cluster for the
    tooltip; a band and its tooltip. *)
Lemma handleMouseMove_cases (fd : FlowData) (dims : Dimensions)
    (canvas : Canvas) (e : MouseEvent) (st : State)
    (pd : ProcessedData) (sc : Scales) :
  processedData fd = Some pd ->
  scales (Some pd) dims = Some sc ->
  let x := pointerX canvas e in
  let y := pointerY canvas e in
  let st' := handleMouseMove fd dims (Some canvas) e st in
  (dayAt pd dims x y = None
   ∧ hoveredCluster st' = None ∧ tooltip st' = None)
  ∨ (∃ sd, dayAt pd dims x y = Some sd
       ∧ find (hit sc y) (values sd) = None
       ∧ hoveredCluster st' = None ∧ tooltip st' = None)
  ∨ (∃ sd v, dayAt pd dims x y = Some sd
       ∧ find (hit sc y) (values sd) = Some v
       ∧ cluster v = ""%string
       ∧ hoveredCluster st' = Some (cluster v) ∧ tooltip st' = None)
  ∨ (∃ sd v value, dayAt pd dims x y = Some sd
       ∧ find (hit sc y) (values sd) = Some v
       ∧ cluster v ≠ ""%string
       ∧ value ∈ values sd ∧ cluster value = cluster v
       ∧ hoveredCluster st' = Some (cluster v)
       ∧ tooltip st'
         = Some {| tip_x := Fin (clientX e); tip_y := Fin (clientY e);
                   tip_date := sd_date sd; tip_cluster := cluster v;
                   tip_count := count value; tip_total := total sd;
                   tip_color :=
                     color_or (get (colors fd) (cluster v)) "#6B7280" |}).
Proof.
  intros Hpd Hsc x y st'. subst x y st'. unfold handleMouseMove.
  rewrite Hpd, Hsc. fold (pointerX canvas e) (pointerY canvas e).
  set (x := pointerX canvas e). set (y := pointerY canvas e).
  destruct (dayAt pd dims x y) as [sd|] eqn:Hday; [| by left].
  right. destruct (find (hit sc y) (values sd)) as [v|] eqn:Hfind.
  2: { left. exists sd. done. }
  right. simpl fmap. destruct (truthy (Some (cluster v))) eqn:Ht.
  - right. apply truthy_Some in Ht.
    destruct (find_elem _ _ _ Hfind) as [Hv _].
    destruct (find_is_Some
                (fun v' => bool_decide (Some (cluster v') = Some (cluster v)))
                (values sd) v Hv) as [value Hvalue].
    { by apply bool_decide_eq_true_2. }
    exists sd, v, value. rewrite Hvalue.
    apply find_elem in Hvalue as [Hin Heq].
    apply bool_decide_eq_true_1 in Heq. injection Heq as Heq.
    done.
  - left. exists sd, v. apply not_true_iff_false in Ht.
    rewrite truthy_Some in Ht.
    destruct (decide (cluster v = ""%string)) as [E | E]; [| done].
    done.
Qed.

(** A band that the test accepts has a count that is a positive number. *)
Lemma hit_positive (sc : Scales) (y : jsnum) (v : StackedValue) :
  hit sc y v = true -> ∃ n, count v = Number n ∧ 0 < n.
Proof.
  unfold hit. rewrite !andb_true_iff. intros [_ H].
  destruct (count v) as [n| |]; try done.
  exists n. split; [done |]. unfold gt, toNumber, ofZ, lt in H.
  rewrite Qltb_inject_Z in H. by apply Z.ltb_lt.
Qed.

(** When [maxY] is NaN the test accepts no band. *)
Lemma hit_NaN (pd : ProcessedData) (dims : Dimensions) (sc : Scales)
    (y : jsnum) (v : StackedValue) :
  scales (Some pd) dims = Some sc ->
  maxY pd = NaN ->
  hit sc y v = false.
Proof.
  intros Hsc HM. unfold hit. rewrite !(yScale_NaN pd dims sc Hsc HM).
  unfold ge. by destruct y.
Qed.

(** So a read that reaches [Object.prototype] leaves nothing to hover. *)
Lemma polluted_never_hovers (fd : FlowData) (dims : Dimensions)
    (canvas : Canvas) (e : MouseEvent) (st : State) (pd : ProcessedData) :
  ¬ plainCounts fd ->
  processedData fd = Some pd ->
  hoveredCluster (handleMouseMove fd dims (Some canvas) e st) = None
  ∧ tooltip (handleMouseMove fd dims (Some canvas) e st) = None.
Proof.
  intros Hnot Hpd.
  destruct (scales_defined pd dims) as [sc Hsc].
  pose proof (processedData_polluted fd pd Hnot Hpd) as HM.
  assert (Hnone : ∀ y l, find (hit sc y) l = None).
  { intros y l. apply find_all_false. intros v. by apply (hit_NaN pd dims). }
  destruct (handleMouseMove_cases fd dims canvas e st pd sc Hpd Hsc)
    as [(_ & H) | [(sd & _ & _ & H) | [H | H]]]; try done.
  - destruct H as (sd & v & _ & Hfind & _). by rewrite Hnone in Hfind.
  - destruct H as (sd & v & value & _ & Hfind & _). by rewrite Hnone in Hfind.
Qed.

(** What a resolved band says about the snapshot. *)
Lemma found_band (fd : FlowData) (pd : ProcessedData) (dims : Dimensions)
    (sc : Scales) (x y : jsnum) (sd : StackedDay) (v : StackedValue) :
  processedData fd = Some pd ->
  dayAt pd dims x y = Some sd ->
  find (hit sc y) (values sd) = Some v ->
  ∃ d, d ∈ daily_data fd ∧ sd = stackDay (clusters fd) d
       ∧ cluster v ∈ clusters fd
       ∧ 0 < countOf d (cluster v)
       ∧ ∀ v', v' ∈ values sd -> cluster v' = cluster v ->
               count v' = Number (countOf d (cluster v)).
Proof.
  intros Hpd Hday Hfind.
  unfold dayAt in Hday. destruct (_ || _) in Hday; [done |].
  apply index_elem in Hday.
  destruct (stackedData_elem fd pd sd Hpd Hday) as (d & Hd & ->).
  apply find_elem in Hfind as [Hv Hhit].
  apply hit_positive in Hhit as (n & Hn & Hpos).
  destruct (stackDay_value _ _ _ Hv) as [Hc Hread].
  rewrite Hn in Hread. symmetry in Hread.
  pose proof (readCount_Number d _ n Hread) as Hcount.
  exists d. repeat split; try done.
  - by rewrite Hcount.
  - intros v' Hv' Hsame. destruct (stackDay_value _ _ _ Hv') as [_ Hread'].
    by rewrite Hread', Hsame, Hread, Hcount.
Qed.

Lemma Qfloor_bounds (q : Q) (lo hi : Z) :
  (inject_Z lo <= q)%Q -> (q < inject_Z hi)%Q -> lo <= Qfloor q < hi.
Proof.
  intros Hlo Hhi. split.
  - rewrite <- (Qfloor_Z lo). by apply Qfloor_resp_le.
  - rewrite Zlt_Qlt. eapply Qle_lt_trans; [apply Qfloor_le | done].
Qed.

Lemma percentage_range (t : TooltipData) (n m : Z) :
  tip_count t = Number n -> tip_total t = Number m ->
  1 <= n -> n <= m ->
  ∃ p : Z, percentage t = Fin (inject_Z p) ∧ 0 <= p <= 100.
Proof.
  intros En Em Hc Ht. unfold percentage. rewrite En, Em. simpl.
  rewrite Qeq_bool_inject_Z_0 by lia.
  eexists. split; [reflexivity |].
  set (r := (inject_Z n / inject_Z m)%Q).
  assert (Hpos : (0 < inject_Z m)%Q).
  { change 0%Q with (inject_Z 0). rewrite <- Zlt_Qlt. lia. }
  assert (Hr0 : (0 <= r)%Q).
  { apply Qle_shift_div_l; [done |]. rewrite Qmult_0_l.
    change 0%Q with (inject_Z 0). rewrite <- Zle_Qle. lia. }
  assert (Hr1 : (r <= 1)%Q).
  { apply Qle_shift_div_r; [done |]. rewrite Qmult_1_l.
    rewrite <- Zle_Qle. lia. }
  change (inject_Z 100) with (100 # 1).
  assert (0 <= Qfloor (r * (100 # 1) + (1 # 2)) < 101); [| lia].
  apply Qfloor_bounds.
  - change (inject_Z 0) with 0%Q. lra.
  - change (inject_Z 101) with (101 # 1). lra.
Qed.

(** *** From a scale value back to the day and the band *)

Lemma indexOf_lookup (l : list string) (k : nat) (d : string) :
  NoDup l -> l !! k = Some d -> indexOf l d = Z.of_nat k.
Proof.
  intros Hnd. revert k. induction Hnd as [|a l Ha Hnd IH]; intros k Hk.
  - done.
  - destruct k as [|k]; simpl in *.
    + injection Hk as ->. by rewrite String.eqb_refl.
    + assert (a ≠ d) as Hne.
      { intros ->. apply Ha. apply list_elem_of_lookup. by exists k. }
      apply String.eqb_neq in Hne. rewrite Hne, (IH k Hk).
      destruct (Z.ltb_spec (Z.of_nat k) 0); lia.
Qed.

Section YScale.
Variable dims : Dimensions.
Variable M : Z.
Hypothesis HM : 1 <= M.
Hypothesis Hheight : (0 < innerHeightQ dims)%Q.

Lemma yScaleQ_slope :
  ∀ a, (yScaleQ dims M a
        == inject_Z margin.top + innerHeightQ dims
           - a * (innerHeightQ dims / inject_Z M))%Q.
Proof.
  intros a. unfold yScaleQ. field.
  intros H. apply Qeq_bool_iff in H. rewrite Qeq_bool_inject_Z_0 in H; [done | lia].
Qed.

Lemma slope_positive : (0 < innerHeightQ dims / inject_Z M)%Q.
Proof.
  apply Qlt_shift_div_l.
  - change 0%Q with (inject_Z 0). rewrite <- Zlt_Qlt. lia.
  - by rewrite Qmult_0_l.
Qed.

Lemma yScaleQ_decreasing (a b : Q) :
  (a < b)%Q -> (yScaleQ dims M b < yScaleQ dims M a)%Q.
Proof.
  intros Hab. rewrite !yScaleQ_slope.
  pose proof slope_positive as Hs.
  assert ((a * (innerHeightQ dims / inject_Z M)
           < b * (innerHeightQ dims / inject_Z M))%Q)
    by (by apply Qmult_lt_compat_r).
  lra.
Qed.

Lemma yScaleQ_antitone (a b : Q) :
  (a <= b)%Q -> (yScaleQ dims M b <= yScaleQ dims M a)%Q.
Proof.
  intros Hab. rewrite !yScaleQ_slope.
  pose proof slope_positive as Hs.
  assert ((a * (innerHeightQ dims / inject_Z M)
           <= b * (innerHeightQ dims / inject_Z M))%Q)
    by (apply Qmult_le_compat_r; [done | by apply Qlt_le_weak]).
  lra.
Qed.

(** The value whose place on the screen is a given height. *)
Lemma yScaleQ_inverse (yq : Q) :
  (yq == yScaleQ dims M
           ((inject_Z margin.top + innerHeightQ dims - yq)
            * inject_Z M / innerHeightQ dims))%Q.
Proof.
  unfold yScaleQ. field. split.
  - intros H. rewrite H in Hheight. by apply Qlt_irrefl in Hheight.
  - intros H. apply Qeq_bool_iff in H.
    rewrite Qeq_bool_inject_Z_0 in H; [done | lia].
Qed.

End YScale.

(** The test on a band whose three values are numbers. *)
Lemma hit_finite (pd : ProcessedData) (dims : Dimensions)
    (sc : Scales) (M : Z) (y : Q) (v : StackedValue) (a b n : Z) :
  scales (Some pd) dims = Some sc ->
  maxY pd = ofZ M -> 1 <= M ->
  y0 v = Number a -> y1 v = Number b -> count v = Number n ->
  hit sc (Fin y) v
  = Qle_bool (yScaleQ dims M (inject_Z b)) y
    && Qle_bool y (yScaleQ dims M (inject_Z a))
    && (0 <? n).
Proof.
  intros Hsc HM H1 Ea Eb En.
  pose proof (yScale_eq pd dims sc M Hsc HM H1) as Hy.
  unfold hit. rewrite Ea, Eb, En. unfold toNumber, ge, gt, ofZ. rewrite !Hy.
  cbn [le lt]. by rewrite Qltb_inject_Z.
Qed.

(** The middle of a band that is not empty lies strictly inside it. *)
Lemma midpoint_inside (a n : Z) :
  0 < n ->
  (inject_Z a < (inject_Z a + inject_Z (a + n)) / inject_Z 2)%Q
  ∧ ((inject_Z a + inject_Z (a + n)) / inject_Z 2 < inject_Z (a + n))%Q.
Proof.
  intros Hn. rewrite inject_Z_plus.
  assert (0 < inject_Z n)%Q
    by (change 0%Q with (inject_Z 0); rewrite <- Zlt_Qlt; lia).
  change (inject_Z 2) with (2 # 1).
  split.
  - apply Qlt_shift_div_l; [reflexivity | lra].
  - apply Qlt_shift_div_r; [reflexivity | lra].
Qed.

Section Scan.
Variable pd : ProcessedData.
Variable dims : Dimensions.
Variable sc : Scales.
Variable M : Z.
Variable d : DailyData.
Hypothesis Hsc : scales (Some pd) dims = Some sc.
Hypothesis HmaxY : maxY pd = ofZ M.
Hypothesis HM : 1 <= M.
Hypothesis Hheight : (0 < innerHeightQ dims)%Q.
Hypothesis Hnn : ∀ c, 0 <= countOf d c.

(** The scan stops at the band that holds the value under the pointer,
    its upper edge included: the bands before it end at or below the
    bottom of that band. *)
Lemma scan_finds_band (cs : list string) (y : Z) (i : nat)
    (v : StackedValue) (a b : Z) (m yq : Q) :
  stackFrom d y cs !! i = Some v ->
  y0 v = Number a -> y1 v = Number b ->
  (inject_Z a < m)%Q -> (m <= inject_Z b)%Q ->
  (yq == yScaleQ dims M m)%Q ->
  find (hit sc (Fin yq)) (stackFrom d y cs) = Some v.
Proof.
  revert y i. induction cs as [|c cs IH]; intros y i Hv Ea Eb Hlo Hhi Hyq;
    [done |].
  destruct (stackFrom_lookup d y (c :: cs) i v Hv) as (_ & En & Hy0 & Hy1).
  rewrite Ea in Hy0. injection Hy0 as Hy0.
  rewrite Eb in Hy1. injection Hy1 as Hy1.
  assert (Hpos : 0 < countOf d (cluster v)).
  { assert (inject_Z a < inject_Z b)%Q as H
      by (eapply Qlt_le_trans; eauto).
    rewrite <- Zlt_Qlt in H. lia. }
  destruct i as [|i]; simpl in Hv |- *.
  - injection Hv as Hv. rewrite Hv.
    rewrite (hit_finite pd dims sc M yq v a b _ Hsc HmaxY HM Ea Eb En).
    replace (0 <? countOf d (cluster v)) with true
      by (symmetry; by apply Z.ltb_lt).
    rewrite andb_true_r.
    replace (Qle_bool _ yq) with true; [replace (Qle_bool yq _) with true |];
      [done | |]; symmetry; apply Qle_bool_iff; rewrite Hyq;
      apply yScaleQ_antitone; try done; by apply Qlt_le_weak.
  - rewrite (hit_finite pd dims sc M yq _ y (y + countOf d c) (countOf d c)
               Hsc HmaxY HM) by reflexivity.
    replace (Qle_bool _ yq) with false; [by apply (IH _ i) |].
    symmetry. apply not_true_iff_false. intros Hle.
    apply Qle_bool_iff in Hle. rewrite Hyq in Hle.
    pose proof (sumCounts_nonneg d (take i cs) Hnn) as Hsum.
    assert (Hbelow : (inject_Z (y + countOf d c) <= inject_Z a)%Q).
    { rewrite <- Zle_Qle. simpl in Hy0. unfold sumCounts in *.
      simpl in Hy0. lia. }
    assert (Hlt : (yScaleQ dims M m
                   < yScaleQ dims M (inject_Z (y + countOf d c)))%Q).
    { apply yScaleQ_decreasing; try done.
      eapply Qle_lt_trans; [exact Hbelow | exact Hlo]. }
    apply (Qlt_not_le _ _ Hlt Hle).
Qed.


End Scan.

Lemma dayAt_finite (pd : ProcessedData) (dims : Dimensions) (xq yq : Q)
    (k : Z) :
  (0 < innerWidthQ dims)%Q ->
  (inject_Z margin.left <= xq)%Q ->
  (xq <= width dims + - inject_Z margin.right)%Q ->
  (inject_Z margin.top <= yq)%Q ->
  (yq <= height dims + - inject_Z margin.bottom)%Q ->
  ((xq + - inject_Z margin.left) / innerWidthQ dims
   * inject_Z (Z.of_nat (length (dates pd)) - 1) == inject_Z k)%Q ->
  0 <= k <= Z.of_nat (length (dates pd)) - 1 ->
  dayAt pd dims (Fin xq) (Fin yq) = stackedData pd !! Z.to_nat k.
Proof.
  intros HW Hx1 Hx2 Hy1 Hy2 Hk Hrange. unfold dayAt, gt, ofZ.
  cbn [sub add neg lt].
  replace (Qltb xq _) with false by (symmetry; by apply Qltb_ge).
  replace (Qltb _ xq) with false by (symmetry; by apply Qltb_ge).
  replace (Qltb yq _) with false by (symmetry; by apply Qltb_ge).
  replace (Qltb _ yq) with false by (symmetry; by apply Qltb_ge).
  cbn [orb]. fold (innerWidthQ dims). cbn [div].
  replace (Qeq_bool (innerWidthQ dims) 0) with false.
  2: { symmetry. apply not_true_iff_false. intros H.
       apply Qeq_bool_iff in H. rewrite H in HW. by apply Qlt_irrefl in HW. }
  cbn [mul round].
  set (q := (_ / _ * _ + (1 # 2))%Q).
  assert (Hfloor : Qfloor q = k).
  { assert (k <= Qfloor q < k + 1); [| lia].
    apply Qfloor_bounds; subst q; rewrite Hk, ?inject_Z_plus;
      change (inject_Z 1) with 1%Q; lra. }
  rewrite Hfloor. cbn [min le].
  replace (Qle_bool (inject_Z k) _) with true
    by (symmetry; apply Qle_bool_iff; rewrite <- Zle_Qle; lia).
  cbn [max le].
  replace (Qle_bool (inject_Z 0) (inject_Z k)) with true
    by (symmetry; apply Qle_bool_iff; rewrite <- Zle_Qle; lia).
  cbn [index]. rewrite Qfloor_Z.
  replace (Qeq_bool _ _) with true by (symmetry; by apply Qeq_bool_iff).
  replace (0 <=? k) with true by (symmetry; apply Z.leb_le; lia).
  reflexivity.
Qed.

Lemma inject_Z_pos (z : Z) : 0 < z -> (0 < inject_Z z)%Q.
Proof. intros H. change 0%Q with (inject_Z 0). rewrite <- Zlt_Qlt. lia. Qed.

Lemma inject_Z_nonneg (z : Z) : 0 <= z -> (0 <= inject_Z z)%Q.
Proof. intros H. change 0%Q with (inject_Z 0). rewrite <- Zle_Qle. lia. Qed.

(** [xScale] of the day number [k] lies in the plot, and the index that
    the handler computes from it is [k] again. *)
Lemma xScaleQ_inverse (dims : Dimensions) (n k : nat) :
  (0 < innerWidthQ dims)%Q -> (k < n)%nat ->
  (inject_Z margin.left <= xScaleQ dims n (Z.of_nat k))%Q
  ∧ (xScaleQ dims n (Z.of_nat k) <= width dims + - inject_Z margin.right)%Q
  ∧ ((xScaleQ dims n (Z.of_nat k) + - inject_Z margin.left)
     / innerWidthQ dims * inject_Z (Z.of_nat n - 1)
     == inject_Z (Z.of_nat k))%Q.
Proof.
  intros HW Hk. unfold xScaleQ.
  set (D := Z.max (Z.of_nat n - 1) 1).
  set (r := (inject_Z (Z.of_nat k) / inject_Z D)%Q).
  assert (HD : (0 < inject_Z D)%Q) by (apply inject_Z_pos; lia).
  assert (Hr0 : (0 <= r)%Q).
  { apply Qle_shift_div_l; [done |]. rewrite Qmult_0_l.
    apply inject_Z_nonneg. lia. }
  assert (Hr1 : (r <= 1)%Q).
  { apply Qle_shift_div_r; [done |]. rewrite Qmult_1_l, <- Zle_Qle. lia. }
  assert (Hprod : (0 <= r * innerWidthQ dims)%Q)
    by (apply Qmult_le_0_compat; [done | by apply Qlt_le_weak]).
  assert (Hprod1 : (r * innerWidthQ dims <= 1 * innerWidthQ dims)%Q)
    by (apply Qmult_le_compat_r; [done | by apply Qlt_le_weak]).
  split; [lra |]. split; [unfold innerWidthQ in *; lra |].
  assert (Hback : ((inject_Z margin.left + r * innerWidthQ dims
                    + - inject_Z margin.left) / innerWidthQ dims == r)%Q).
  { field. intros H. rewrite H in HW. by apply Qlt_irrefl in HW. }
  rewrite Hback. subst r.
  destruct (decide (Z.of_nat n - 1 < 1)) as [Hone | Hmany].
  - assert (k = 0%nat) as -> by lia.
    replace (Z.of_nat n - 1) with 0 by lia. simpl. ring.
  - replace D with (Z.of_nat n - 1) in * by (unfold D; lia).
    field. intros H. rewrite H in HD. by apply Qlt_irrefl in HD.
Qed.

Lemma yScaleQ_range (dims : Dimensions) (M : Z) (v : Q) :
  1 <= M -> (0 < innerHeightQ dims)%Q ->
  (0 <= v)%Q -> (v <= inject_Z M)%Q ->
  (inject_Z margin.top <= yScaleQ dims M v)%Q
  ∧ (yScaleQ dims M v <= height dims + - inject_Z margin.bottom)%Q.
Proof.
  intros HM HH Hv0 Hv1.
  pose proof (yScaleQ_antitone dims M HM HH _ _ Hv0) as Hup.
  pose proof (yScaleQ_antitone dims M HM HH _ _ Hv1) as Hdown.
  assert (E0 : (yScaleQ dims M 0
                == height dims + - inject_Z margin.bottom)%Q).
  { rewrite (yScaleQ_slope dims M HM). unfold innerHeightQ. ring. }
  assert (EM : (yScaleQ dims M (inject_Z M) == inject_Z margin.top)%Q).
  { rewrite (yScaleQ_slope dims M HM). field.
    intros H. pose proof (inject_Z_pos M ltac:(lia)) as HP.
    rewrite H in HP. by apply Qlt_irrefl in HP. }
  rewrite <- EM, <- E0. done.
Qed.

(** The day of [stackedData] at a position, when the reads are plain. *)
Lemma stackedData_lookup (fd : FlowData) (pd : ProcessedData) (k : nat)
    (sd : StackedDay) :
  plainCounts fd ->
  processedData fd = Some pd ->
  stackedData pd !! k = Some sd ->
  ∃ d, daily_data fd !! k = Some d
       ∧ sd = {| sd_date := date d; values := stackFrom d 0 (clusters fd);
                 total := Number (sumCounts d (clusters fd)) |}.
Proof.
  intros Hplain Hpd Hsd.
  destruct (processedData_plain fd pd Hplain Hpd) as [_ E].
  rewrite E in Hsd. change (map ?f ?l) with (f <$> l) in Hsd.
  rewrite list_lookup_fmap in Hsd.
  destruct (daily_data fd !! k) as [d|]; [| done].
  injection Hsd as <-. by exists d.
Qed.

(** The same for a day that is an element of [stackedData]. *)
Lemma stackedData_plain_elem (fd : FlowData) (pd : ProcessedData)
    (sd : StackedDay) :
  plainCounts fd ->
  processedData fd = Some pd ->
  sd ∈ stackedData pd ->
  ∃ d, d ∈ daily_data fd
       ∧ sd = {| sd_date := date d; values := stackFrom d 0 (clusters fd);
                 total := Number (sumCounts d (clusters fd)) |}.
Proof.
  intros Hplain Hpd Hsd. apply list_elem_of_lookup in Hsd as [k Hk].
  destruct (stackedData_lookup fd pd k sd Hplain Hpd Hk) as (d & Hd & E).
  exists d. split; [| done]. apply list_elem_of_lookup. eauto.
Qed.

(** A pointer on the scale value of day [k] and on the middle of a band
    of positive count finds that day and that band. *)
Lemma pointer_on_midpoint (fd : FlowData) (dims : Dimensions)
    (pd : ProcessedData) (sc : Scales) (k i : nat) (sd : StackedDay)
    (v : StackedValue) (xq yq : Q) :
  (0 < innerWidthQ dims)%Q -> (0 < innerHeightQ dims)%Q ->
  NoDup (map date (daily_data fd)) ->
  nonNegative fd ->
  plainCounts fd ->
  processedData fd = Some pd ->
  scales (Some pd) dims = Some sc ->
  stackedData pd !! k = Some sd ->
  values sd !! i = Some v ->
  (count v >? 0)%js = true ->
  same (Fin xq) (xScale sc (sd_date sd)) ->
  same (Fin yq) (yScale sc ((y0 v + y1 v) / 2)%js) ->
  dayAt pd dims (Fin xq) (Fin yq) = Some sd
  ∧ find (hit sc (Fin yq)) (values sd) = Some v.
Proof.
  intros HW HH Hnd Hnn Hplain Hpd Hsc Hsd Hv Hpos Hx Hy.
  pose proof (maxTotal_ge_1 fd) as HM.
  destruct (scales_Some fd pd dims sc Hplain Hpd Hsc) as [Hxs Hys].
  destruct (processedData_plain fd pd Hplain Hpd) as [HmaxY _].
  pose proof Hpd as Hpd'. apply processedData_Some in Hpd' as [_ Epd].
  destruct (stackedData_lookup fd pd k sd Hplain Hpd Hsd) as (d & Hd & Esd).
  assert (Hdin : d ∈ daily_data fd) by (apply list_elem_of_lookup; eauto).
  assert (Hnnd : ∀ c, 0 <= countOf d c)
    by (intros c; by apply (countOf_nonneg fd)).
  assert (Hlen : length (dates pd) = length (daily_data fd))
    by (rewrite Epd; simpl; apply length_map).
  assert (Hk : (k < length (dates pd))%nat)
    by (rewrite Hlen; by apply lookup_lt_Some in Hd).
  assert (Hidx : indexOf (dates pd) (sd_date sd) = Z.of_nat k).
  { apply indexOf_lookup; rewrite Epd; simpl; [done |].
    change (map ?f ?l) with (f <$> l).
    rewrite list_lookup_fmap, Hd, Esd. done. }
  rewrite Hxs, Hidx in Hx. simpl in Hx.
  assert (Evals : values sd = stackFrom d 0 (clusters fd))
    by (by rewrite Esd).
  rewrite Evals in Hv |- *.
  destruct (stackFrom_lookup d 0 _ i v Hv) as (Hc & En & Ea & Eb).
  set (a := 0 + sumCounts d (take i (clusters fd))) in *.
  set (n := countOf d (cluster v)) in *.
  assert (Hn : 0 < n).
  { rewrite En in Hpos. unfold gt, toNumber, ofZ, lt in Hpos.
    rewrite Qltb_inject_Z in Hpos. by apply Z.ltb_lt. }
  rewrite Ea, Eb in Hy.
  replace ((Number a + Number (a + n)) / 2)%js
    with (Fin ((inject_Z a + inject_Z (a + n)) / inject_Z 2)) in Hy
    by reflexivity.
  rewrite Hys in Hy. simpl in Hy.
  destruct (midpoint_inside a n Hn) as [Hlo Hhi].
  split.
  - destruct (xScaleQ_inverse dims (length (dates pd)) k HW Hk)
      as (Hx1 & Hx2 & Hx3).
    destruct (yScaleQ_range dims (maxTotal fd)
                ((inject_Z a + inject_Z (a + n)) / inject_Z 2) HM HH)
      as [Hy1' Hy2'].
    { apply Qlt_le_weak. eapply Qle_lt_trans; [| exact Hlo].
      apply inject_Z_nonneg.
      pose proof (sumCounts_take_le d (clusters fd) i Hnnd). lia. }
    { apply Qlt_le_weak. eapply Qlt_le_trans; [exact Hhi |].
      rewrite <- Zle_Qle.
      pose proof (sumCounts_take_S d _ i _ Hc) as HS.
      pose proof (sumCounts_take_le d (clusters fd) (S i) Hnnd).
      pose proof (sumCounts_le_maxTotal fd d Hdin). lia. }
    rewrite <- Hx in Hx1, Hx2, Hx3. rewrite <- Hy in Hy1', Hy2'.
    rewrite (dayAt_finite pd dims xq yq (Z.of_nat k)); try done; [| lia].
    by rewrite Nat2Z.id.
  - apply (scan_finds_band pd dims sc (maxTotal fd) d Hsc HmaxY HM HH Hnnd
             _ 0 i v a (a + n)
             ((inject_Z a + inject_Z (a + n)) / inject_Z 2));
      try done.
    by apply Qlt_le_weak.
Qed.

(** Non-negative counts, checked entry by entry. *)
Lemma nonNegative_entries (fd : FlowData) :
  Forall (fun d => Forall (fun entry => 0 <= entry.2)
                          (map_to_list (cluster_counts d)))
         (daily_data fd) ->
  nonNegative fd.
Proof.
  intros Hall d c n Hd Hn. rewrite Forall_forall in Hall.
  specialize (Hall d Hd). rewrite Forall_forall in Hall.
  apply (Hall (c, n)). by apply elem_of_map_to_list.
Qed.

End FlowFacts.

Module FlowClaims.
Import Flow FlowSpec FlowFacts FlowSamples.




(** The scenario of the specification, computed. *)
Example stack_of_oneDay : processedData oneDay = Some oneDayProcessed.
Proof. vm_compute. reflexivity. Qed.

(** An inherited name that is a key of the day is stacked as any other. *)
Example stack_of_counted_inherited_name :
  ∃ pd, processedData inheritedNameCounted = Some pd
    ∧ stackedData pd
      = [ {| sd_date := "2024-01-01";
             values := [bandOf "X" 0 3; bandOf "constructor" 3 5];
             total := Number 5 |} ]
    ∧ maxY pd = 5.
Proof. eexists. split; [reflexivity |]. split; vm_compute; reflexivity. Qed.

(** C9: when [daily_data] is empty nothing is stacked and no scale is
    built, the drawing effect ends without an exception and without a
    single canvas operation, the pointer handler leaves the state alone,
    and the component returns the message "No flow data available" in
    place of the chart. *)
Theorem empty_snapshot_shows_message (fd : FlowData) (dims : Dimensions)
    (st : State) (dpr : Q) (canvasRef : option Canvas) (e : MouseEvent) :
  daily_data fd = [] ->
  processedData fd = None
  ∧ scales (processedData fd) dims = None
  ∧ draw fd dims st dpr canvasRef = Some []
  ∧ handleMouseMove fd dims canvasRef e st = st
  ∧ render fd st = EmptyState "No flow data available".
Proof.
  intros Hempty. apply processedData_None in Hempty.
  unfold draw, handleMouseMove, render. rewrite Hempty. simpl.
  repeat split. by destruct canvasRef.
Qed.

Lemma empty_snapshot_shows_message_witness :
  processedData noDays = None
  ∧ scales (processedData noDays) desktop = None
  ∧ draw noDays desktop idle 1 None = Some []
  ∧ handleMouseMove noDays desktop None (pointer 100 100) idle = idle
  ∧ render noDays idle = EmptyState "No flow data available".
Proof.
  apply (empty_snapshot_shows_message noDays desktop idle 1 None
           (pointer 100 100)).
  reflexivity.
Defined.



(** C10, as stated, fails: with one paper out of a thousand the hit test
    sets a tooltip of count 1 and total 1000, and the figure shown is
    [Math.round(0.1)], which is 0 and not between 1 and 100. *)
Lemma percentage_can_be_zero :
  ∃ t, tooltip (handleMouseMove smallShare desktop (Some atOrigin)
                  (pointer 60 (349835 # 1000)) idle) = Some t
    ∧ tip_cluster t = "X"%string
    ∧ tip_count t = Number 1 ∧ tip_total t = Number 1000
    ∧ percentage t = Fin 0.
Proof. eexists. split; [reflexivity |]. repeat split. Qed.

(** C10, amended: when the counts of the snapshot are non-negative, a
    tooltip set by the hit test has a count and a total that are numbers
    with [1 <= count <= total], so the division by [total] is a division
    by a number that is at least 1, and the figure
    [Math.round(count / total * 100)] is an integer between 0 and 100. *)
Theorem tooltip_percentage_is_defined (fd : FlowData) (dims : Dimensions)
    (canvas : Canvas) (e : MouseEvent) (st : State) (pd : ProcessedData)
    (t : TooltipData) :
  nonNegative fd ->
  processedData fd = Some pd ->
  tooltip (handleMouseMove fd dims (Some canvas) e st) = Some t ->
  ∃ count total : Z,
    tip_count t = Number count ∧ tip_total t = Number total
    ∧ 1 <= count ∧ count <= total
    ∧ ∃ p : Z, percentage t = Fin (inject_Z p) ∧ 0 <= p <= 100.
Proof.
  intros Hnn Hpd Htip.
  destruct (decide (plainCounts fd)) as [Hplain | Hnot].
  2: { destruct (polluted_never_hovers fd dims canvas e st pd Hnot Hpd)
         as [_ H]. congruence. }
  destruct (scales_defined pd dims) as [sc Hsc].
  destruct (handleMouseMove_cases fd dims canvas e st pd sc Hpd Hsc)
    as [(_ & _ & H) | [(sd & _ & _ & _ & H) | [(sd & v & _ & _ & _ & _ & H) | H]]];
    try congruence.
  destruct H as (sd & v & value & Hday & Hfind & _ & Hin & Hc & _ & H).
  rewrite H in Htip. injection Htip as <-.
  destruct (found_band fd pd dims sc _ _ sd v Hpd Hday Hfind)
    as (d & Hd & -> & Hcs & Hpos & Hall).
  pose proof (plainCounts_day fd d Hplain Hd) as Hday'.
  exists (countOf d (cluster v)), (sumCounts d (clusters fd)).
  assert (Hcount : count value = Number (countOf d (cluster v)))
    by (by apply Hall).
  assert (Htotal : total (stackDay (clusters fd) d)
                   = Number (sumCounts d (clusters fd)))
    by (by rewrite stackDay_plain).
  assert (Hle : countOf d (cluster v) <= sumCounts d (clusters fd)).
  { apply countOf_le_sumCounts; [| done].
    intros c'. by apply (countOf_nonneg fd). }
  split; [done |]. split; [done |]. split; [lia |]. split; [done |].
  apply (percentage_range _ (countOf d (cluster v))
           (sumCounts d (clusters fd))); try done. lia.
Qed.

Lemma tooltip_percentage_is_defined_witness :
  ∃ t, tooltip (handleMouseMove smallShare desktop (Some atOrigin)
                  (pointer 60 (349835 # 1000)) idle) = Some t
    ∧ ∃ count total : Z,
        tip_count t = Number count ∧ tip_total t = Number total
        ∧ 1 <= count ∧ count <= total
        ∧ ∃ p : Z, percentage t = Fin (inject_Z p) ∧ 0 <= p <= 100.
Proof.
  eexists. split; [reflexivity |].
  eapply (tooltip_percentage_is_defined smallShare desktop atOrigin
            (pointer 60 (349835 # 1000)) idle).
  - apply nonNegative_entries. vm_compute. repeat constructor; discriminate.
  - reflexivity.
  - reflexivity.
Defined.

(** C2, as stated, fails in two ways.  In a container 200 wide the plot
    has no width: [xScale] of the second day is 50, left of the plot, and
    the pointer put on the middle of its X band is rejected.  And when two
    entries carry the same date, [xScale] gives both the place of the
    first: the pointer put on the middle of the Y band of the second entry
    is taken for the X band of the first one. *)
Lemma hit_test_misses_midpoint :
  (∃ pd sc sd v,
     processedData twoDays = Some pd ∧ scales (Some pd) narrow = Some sc
     ∧ stackedData pd !! 1%nat = Some sd ∧ values sd !! 0%nat = Some v
     ∧ cluster v = "X"%string ∧ count v = Number 1
     ∧ same (pointerX atOrigin (pointer 50 317)) (xScale sc (sd_date sd))
     ∧ same (pointerY atOrigin (pointer 50 317))
            (yScale sc ((y0 v + y1 v) / 2)%js)
     ∧ hoveredCluster (handleMouseMove twoDays narrow (Some atOrigin)
                         (pointer 50 317) idle) = None)
  ∧ (∃ pd sc sd v,
     processedData sameDate = Some pd ∧ scales (Some pd) desktop = Some sc
     ∧ stackedData pd !! 1%nat = Some sd ∧ values sd !! 1%nat = Some v
     ∧ cluster v = "Y"%string ∧ count v = Number 1
     ∧ same (pointerX atOrigin (pointer 60 185)) (xScale sc (sd_date sd))
     ∧ same (pointerY atOrigin (pointer 60 185))
            (yScale sc ((y0 v + y1 v) / 2)%js)
     ∧ hoveredCluster (handleMouseMove sameDate desktop (Some atOrigin)
                         (pointer 60 185) idle) = Some "X"%string).
Proof.
  split.
  - do 4 eexists. do 4 (split; [reflexivity |]).
    repeat split; vm_compute; reflexivity.
  - do 4 eexists. do 4 (split; [reflexivity |]).
    repeat split; vm_compute; reflexivity.
Qed.

(** C2, amended: in a viewport wider than 210 and higher than 70 (the
    plot then has a positive width and height), for a snapshot with at
    least one day, pairwise distinct dates and non-negative counts, and
    for every day and every band of that day with a positive count, a
    pointer at [xScale] of the day's date and [yScale] of the middle of the
    band makes [handleMouseMove] set the hovered cluster to the cluster of
    that band.  Screen coordinates are exact rationals here. *)
Theorem hit_test_inverts_scales (fd : FlowData) (dims : Dimensions)
    (canvas : Canvas) (e : MouseEvent) (st : State)
    (pd : ProcessedData) (sc : Scales) (k i : nat) (sd : StackedDay)
    (v : StackedValue) :
  (210 < width dims)%Q -> (70 < height dims)%Q ->
  NoDup (map date (daily_data fd)) ->
  nonNegative fd ->
  processedData fd = Some pd ->
  scales (Some pd) dims = Some sc ->
  stackedData pd !! k = Some sd ->
  values sd !! i = Some v ->
  (count v >? 0)%js = true ->
  same (pointerX canvas e) (xScale sc (sd_date sd)) ->
  same (pointerY canvas e) (yScale sc ((y0 v + y1 v) / 2)%js) ->
  hoveredCluster (handleMouseMove fd dims (Some canvas) e st)
  = Some (cluster v).
Proof.
  intros Hw Hh Hnd Hnn Hpd Hsc Hsd Hv Hpos Hx Hy.
  destruct (decide (plainCounts fd)) as [Hplain | Hnot].
  2: { pose proof (processedData_polluted fd pd Hnot Hpd) as HM.
       rewrite (yScale_NaN pd dims sc Hsc HM) in Hy. done. }
  assert (HW : (0 < innerWidthQ dims)%Q).
  { unfold innerWidthQ.
    change (inject_Z margin.left) with (60 # 1).
    change (inject_Z margin.right) with (150 # 1). lra. }
  assert (HH : (0 < innerHeightQ dims)%Q).
  { unfold innerHeightQ.
    change (inject_Z margin.top) with (20 # 1).
    change (inject_Z margin.bottom) with (50 # 1). lra. }
  destruct (pointer_on_midpoint fd dims pd sc k i sd v
              (clientX e + - rect_left canvas)
              (clientY e + - rect_top canvas)
              HW HH Hnd Hnn Hplain Hpd Hsc Hsd Hv Hpos Hx Hy)
    as [Hday Hfind].
  change (Fin (clientX e + - rect_left canvas))
    with (pointerX canvas e) in Hday.
  change (Fin (clientY e + - rect_top canvas))
    with (pointerY canvas e) in Hday, Hfind.
  destruct (handleMouseMove_cases fd dims canvas e st pd sc Hpd Hsc)
    as [(H & _) | [(sd' & H1 & H2 & _) | [H | H]]].
  - congruence.
  - congruence.
  - destruct H as (sd' & v' & H1 & H2 & _ & Hhov & _). congruence.
  - destruct H as (sd' & v' & value & H1 & H2 & _ & _ & _ & Hhov & _).
    congruence.
Qed.

Lemma hit_test_inverts_scales_witness :
  hoveredCluster (handleMouseMove oneDay desktop (Some atOrigin)
                    (pointer 60 185) idle)
  = Some "X"%string.
Proof.
  eapply (hit_test_inverts_scales oneDay desktop atOrigin (pointer 60 185)
            idle oneDayProcessed _ 0 0 oneDayStacked bandX).
  - reflexivity.
  - reflexivity.
  - simpl. apply NoDup_singleton.
  - apply nonNegative_entries. vm_compute. repeat constructor; discriminate.
  - reflexivity.
  - reflexivity.
  - reflexivity.
  - reflexivity.
  - reflexivity.
  - reflexivity.
  - reflexivity.
Defined.

(** C8, as stated, fails on its last part: with the pointer on the legend
    entry of X, X is the hovered cluster; a click on that entry selects X
    and sends the host nothing, and so does a click that reaches the canvas
    in that state, although a callback is registered. *)
Lemma legend_click_does_not_notify :
  hoveredCluster (legendMouseEnter "X" idle) = Some "X"%string
  ∧ selectedCluster (legendClick "X" (legendMouseEnter "X" idle)).1
    = Some "X"%string
  ∧ (legendClick "X" (legendMouseEnter "X" idle)).2 = []
  ∧ selectedCluster (handleClick true (legendMouseEnter "X" idle)).1
    = Some "X"%string
  ∧ (handleClick true (legendMouseEnter "X" idle)).2 = [].
Proof. repeat split. Qed.

(** C8, amended: a canvas click while a cluster [c] with a non-empty name
    is the hovered one selects [c] when [c] is not the selected cluster and
    clears the selection when it is, so that two clicks in a row on a
    cluster that was not selected leave nothing selected; hover and
    tooltip are unchanged.  The click calls the host with [c] and the date
    of the tooltip when a callback is registered and a tooltip is shown,
    and sends nothing otherwise; when the hover was set by the hit test the
    tooltip is there and its date is that of the day under the pointer.  A
    click on the legend entry of [c] changes the selection in the same way
    and never calls the host. *)
Theorem click_toggles_hovered_cluster (cb : bool) (st : State) (c : string)
    (fd : FlowData) (dims : Dimensions) (canvas : Canvas) (e : MouseEvent)
    (st0 : State) (pd : ProcessedData) :
  hoveredCluster st = Some c ->
  c ≠ ""%string ->
  processedData fd = Some pd ->
  selectedCluster (handleClick cb st).1
  = (if decide (selectedCluster st = Some c) then None else Some c)
  ∧ selectedCluster (handleClick cb (handleClick cb st).1).1
    = (if decide (selectedCluster st = Some c) then Some c else None)
  ∧ hoveredCluster (handleClick cb st).1 = Some c
  ∧ tooltip (handleClick cb st).1 = tooltip st
  ∧ (handleClick cb st).2
    = (if cb then match tooltip st with
                  | Some t => [(c, tip_date t)]
                  | None => []
                  end
       else [])
  ∧ (legendClick c st).1 = (handleClick cb st).1
  ∧ (legendClick c st).2 = []
  ∧ (st = handleMouseMove fd dims (Some canvas) e st0 ->
     ∃ t sd, tooltip st = Some t
       ∧ dayAt pd dims (pointerX canvas e) (pointerY canvas e) = Some sd
       ∧ tip_cluster t = c ∧ tip_date t = sd_date sd).
Proof.
  intros Hhov Hc Hpd.
  assert (Htruthy : truthy (hoveredCluster st) = true)
    by (rewrite Hhov; by apply truthy_Some).
  assert (Hclick : handleClick cb st
                   = (setSelectedCluster (toggle c) st,
                      if cb then match tooltip st with
                                 | Some t => [(c, tip_date t)]
                                 | None => []
                                 end
                      else [])).
  { unfold handleClick. rewrite Htruthy, Hhov. simpl.
    destruct cb, (tooltip st); reflexivity. }
  rewrite Hclick. cbn [fst snd].
  assert (Hclick2 : (handleClick cb (setSelectedCluster (toggle c) st)).1
                    = setSelectedCluster (toggle c)
                        (setSelectedCluster (toggle c) st)).
  { unfold handleClick. simpl. rewrite Htruthy, Hhov. simpl.
    destruct cb, (tooltip st); reflexivity. }
  rewrite Hclick2. unfold legendClick, toggle. simpl.
  repeat split; try done.
  - repeat case_decide; repeat case_bool_decide; congruence.
  - repeat case_decide; repeat case_bool_decide; congruence.
  - intros ->.
    destruct (scales_defined pd dims) as [sc Hsc].
    destruct (handleMouseMove_cases fd dims canvas e st0 pd sc Hpd Hsc)
      as [(_ & H & _) | [(sd & _ & _ & H & _) | [H | H]]];
      try congruence.
    + destruct H as (sd & v & _ & _ & Hv & H & _). congruence.
    + destruct H as (sd & v & value & Hday & _ & _ & _ & _ & H & Htip).
      eexists. exists sd. split; [exact Htip |]. simpl.
      split; [done |]. split; [congruence | done].
Qed.

Lemma click_toggles_hovered_cluster_witness :
  selectedCluster (handleClick true overX).1 = Some "X"%string
  ∧ selectedCluster (handleClick true (handleClick true overX).1).1 = None
  ∧ (handleClick true overX).2 = [("X"%string, "2024-01-01"%string)].
Proof.
  destruct (click_toggles_hovered_cluster true overX "X" oneDay desktop
              atOrigin (pointer 60 185) idle oneDayProcessed
              eq_refl ltac:(discriminate) eq_refl)
    as (H1 & H2 & _ & _ & H5 & _).
  exact (conj H1 (conj H2 H5)).
Defined.

End FlowClaims.

(** ** Scale denominators *)

Module ScaleClaims.
Import Flow FlowSpec FlowFacts FlowSamples.




End ScaleClaims.

(** ** The scenarios of the specification *)

Module Scenarios.
Import Flow FlowSpec FlowFacts FlowSamples.

(** Nodes A (10 papers) and B (5 papers): radius 40 and radius 26. *)
Example radius_of_A_and_B :
  same (Graph.getNodeSize None None
          (Graph.maxPaperCount GraphSamples.threeNodes)
          (Graph.toGraphNode (GraphSamples.mkNode "A" 10))) (Fin 40)
  ∧ same (Graph.getNodeSize None None
            (Graph.maxPaperCount GraphSamples.threeNodes)
            (Graph.toGraphNode (GraphSamples.mkNode "B" 5))) (Fin 26).
Proof. split; reflexivity. Qed.

(** One day with X at 3 and Y at 0: no pointer position, in no viewport,
    makes Y the hovered cluster. *)
Example Y_is_never_hovered (dims : Dimensions) (canvas : Canvas)
    (e : MouseEvent) (st : State) :
  hoveredCluster (handleMouseMove oneDay dims (Some canvas) e st)
  ≠ Some "Y"%string.
Proof.
  intros Hhov.
  destruct (scales_defined oneDayProcessed dims) as [sc Hsc].
  assert (HY : ∀ sd v,
    dayAt oneDayProcessed dims (pointerX canvas e) (pointerY canvas e)
      = Some sd ->
    find (hit sc (pointerY canvas e)) (values sd) = Some v ->
    cluster v ≠ "Y"%string).
  { intros sd v Hday Hfind HcY.
    destruct (found_band oneDay oneDayProcessed dims sc _ _ sd v
                eq_refl Hday Hfind) as (d & Hd & _ & _ & Hpos & _).
    simpl in Hd. apply list_elem_of_singleton in Hd as ->.
    rewrite HcY in Hpos. vm_compute in Hpos. discriminate. }
  destruct (handleMouseMove_cases oneDay dims canvas e st oneDayProcessed sc
              eq_refl Hsc)
    as [(_ & H & _) | [(sd & _ & _ & H & _) | [H | H]]];
    try congruence.
  - destruct H as (sd & v & Hday & Hfind & _ & H & _).
    apply (HY sd v Hday Hfind). congruence.
  - destruct H as (sd & v & value & Hday & Hfind & _ & _ & _ & H & _).
    apply (HY sd v Hday Hfind). congruence.
Qed.

(** The tooltip of the X band of that day: 3 papers, 100% of the total. *)
Example tooltip_over_X :
  (fun t => (tip_cluster t, tip_date t, tip_count t, tip_total t,
             percentage t)) <$> tooltip overX
  = Some ("X"%string, "2024-01-01"%string, Number 3, Number 3, Fin 100).
Proof. reflexivity. Qed.

(** Why the bound on the percentage asks for non-negative counts: with
    counts 3 and -3 the total of the day is 0, and the tooltip of the X
    band divides by it. *)
Example total_can_vanish_with_negative_counts :
  ∃ t, tooltip (handleMouseMove cancelling desktop (Some atOrigin)
                  (pointer 60 (20 # 1)) idle) = Some t
    ∧ tip_count t = Number 3 ∧ tip_total t = Number 0
    ∧ percentage t = PosInf.
Proof. eexists. split; [reflexivity |]. repeat split. Qed.

(** A cluster named like a member of [Object.prototype] and absent from
    the day: wherever the pointer is, nothing is hovered. *)
Example inherited_name_hovers_nothing (dims : Dimensions) (canvas : Canvas)
    (e : MouseEvent) (st : State) :
  hoveredCluster (handleMouseMove inheritedName dims (Some canvas) e st)
  = None.
Proof.
  destruct (processedData_is_Some inheritedName) as [pd Hpd]; [done |].
  apply (polluted_never_hovers inheritedName dims canvas e st pd);
    [| done].
  intros H. apply (bool_decide_eq_true_2 _) in H. vm_compute in H.
  discriminate.
Qed.

End Scenarios.

(** ** More about the stack and the scales *)

Module FlowGeometry.
Import Flow FlowSpec FlowFacts FlowSamples.

(** The numbers of a band, when no read reaches [Object.prototype] and
    the counts are non-negative. *)
Lemma band_bounds (fd : FlowData) (pd : ProcessedData)
    (sd : StackedDay) (v : StackedValue) :
  nonNegative fd ->
  plainCounts fd ->
  processedData fd = Some pd ->
  sd ∈ stackedData pd ->
  v ∈ values sd ->
  ∃ a n t, y0 v = Number a ∧ count v = Number n ∧ y1 v = Number (a + n)
    ∧ total sd = Number t ∧ maxY pd = ofZ (maxTotal fd)
    ∧ 0 <= n ∧ 0 <= a ∧ a + n <= t ∧ t <= maxTotal fd.
Proof.
  intros Hnn Hplain Hpd Hsd Hv.
  destruct (stackedData_plain_elem fd pd sd Hplain Hpd Hsd) as (d & Hd & ->).
  destruct (processedData_plain fd pd Hplain Hpd) as [HM _].
  assert (Hnnd : ∀ c, 0 <= countOf d c)
    by (intros c; by apply (countOf_nonneg fd)).
  simpl in *.
  apply list_elem_of_lookup in Hv as [i Hi].
  destruct (stackFrom_lookup d 0 _ i v Hi) as (Hc & Hn & Hy0 & Hy1).
  exists (0 + sumCounts d (take i (clusters fd))), (countOf d (cluster v)),
         (sumCounts d (clusters fd)).
  do 5 (split; [done |]).
  pose proof (sumCounts_take_le d (clusters fd) i Hnnd).
  pose proof (sumCounts_take_le d (clusters fd) (S i) Hnnd).
  pose proof (sumCounts_take_S d _ i _ Hc).
  pose proof (sumCounts_le_maxTotal fd d Hd).
  specialize (Hnnd (cluster v)). lia.
Qed.

Lemma le_Number (a b : Z) : a <= b -> (Number a <=? Number b)%js = true.
Proof.
  intros H. unfold toNumber, ofZ, le. rewrite Qle_bool_inject_Z.
  by apply Z.leb_le.
Qed.

(** X1: with non-negative counts, and when every listed cluster is a key
    of each day or does not bear the name of a member of
    [Object.prototype], every band of every day is nested in the stack:
    its count, [y0], [y1] and the total of its day are numbers, the count
    is non-negative, [0 <= y0 <= y1 <= total], and no day's total exceeds
    [maxY]. *)
Theorem stacked_bands_are_nested (fd : FlowData) (pd : ProcessedData)
    (sd : StackedDay) (v : StackedValue) :
  nonNegative fd ->
  plainCounts fd ->
  processedData fd = Some pd ->
  sd ∈ stackedData pd ->
  v ∈ values sd ->
  (0 <=? count v)%js = true
  ∧ (0 <=? y0 v)%js = true
  ∧ (y0 v <=? y1 v)%js = true
  ∧ (y1 v <=? total sd)%js = true
  ∧ (total sd <=? maxY pd)%js = true.
Proof.
  intros Hnn Hplain Hpd Hsd Hv.
  destruct (band_bounds fd pd sd v Hnn Hplain Hpd Hsd Hv)
    as (a & n & t & -> & -> & -> & -> & -> & Hn & Ha & Hat & Ht).
  change (ofZ 0) with (toNumber (Number 0)).
  change (ofZ (maxTotal fd)) with (toNumber (Number (maxTotal fd))).
  repeat split; apply le_Number; lia.
Qed.

Lemma stacked_bands_are_nested_witness :
  (0 <=? count bandX)%js = true
  ∧ (0 <=? y0 bandX)%js = true
  ∧ (y0 bandX <=? y1 bandX)%js = true
  ∧ (y1 bandX <=? total oneDayStacked)%js = true
  ∧ (total oneDayStacked <=? maxY oneDayProcessed)%js = true.
Proof.
  apply (stacked_bands_are_nested oneDay oneDayProcessed oneDayStacked bandX).
  - apply nonNegative_entries. vm_compute. repeat constructor; discriminate.
  - apply (bool_decide_eq_true_1 _). vm_compute. reflexivity.
  - reflexivity.
  - simpl. repeat constructor.
  - simpl. repeat constructor.
Defined.

(** X2: in a viewport higher than 70, with non-negative counts, and when
    every listed cluster is a key of each day or does not bear the name of
    a member of [Object.prototype], every band is drawn inside the plot:
    the screen position of its upper edge is not above the top margin,
    not below that of its lower edge, and the lower edge is not below the
    x axis. *)
Theorem bands_are_drawn_inside_the_plot (fd : FlowData) (dims : Dimensions)
    (pd : ProcessedData) (sc : Scales) (sd : StackedDay) (v : StackedValue) :
  (70 < height dims)%Q ->
  nonNegative fd ->
  plainCounts fd ->
  processedData fd = Some pd ->
  scales (Some pd) dims = Some sc ->
  sd ∈ stackedData pd ->
  v ∈ values sd ->
  (margin.top <=? yScale sc (y1 v))%js = true
  ∧ (yScale sc (y1 v) <=? yScale sc (y0 v))%js = true
  ∧ (yScale sc (y0 v) <=? Fin (height dims) - margin.bottom)%js = true.
Proof.
  intros Hh Hnn Hplain Hpd Hsc Hsd Hv.
  destruct (band_bounds fd pd sd v Hnn Hplain Hpd Hsd Hv)
    as (a & n & t & -> & _ & -> & _ & _ & Hn & Ha & Hat & Ht).
  pose proof (maxTotal_ge_1 fd) as HM.
  assert (HH : (0 < innerHeightQ dims)%Q).
  { unfold innerHeightQ.
    change (inject_Z margin.top) with (20 # 1).
    change (inject_Z margin.bottom) with (50 # 1). lra. }
  destruct (scales_Some fd pd dims sc Hplain Hpd Hsc) as [_ Hy].
  unfold toNumber. unfold ofZ at 2 3 4 5. rewrite !Hy. unfold ofZ.
  cbn [le sub add neg].
  destruct (yScaleQ_range dims (maxTotal fd) (inject_Z (a + n)) HM HH)
    as [Hup _].
  { apply inject_Z_nonneg. lia. }
  { rewrite <- Zle_Qle. lia. }
  destruct (yScaleQ_range dims (maxTotal fd) (inject_Z a) HM HH) as [_ Hdown].
  { by apply inject_Z_nonneg. }
  { rewrite <- Zle_Qle. lia. }
  rewrite !Qle_bool_iff. split; [done |]. split; [| done].
  apply yScaleQ_antitone; try done. rewrite <- Zle_Qle. lia.
Qed.

Lemma bands_are_drawn_inside_the_plot_witness :
  ∃ sc, scales (Some oneDayProcessed) desktop = Some sc
  ∧ (margin.top <=? yScale sc (y1 bandX))%js = true
  ∧ (yScale sc (y1 bandX) <=? yScale sc (y0 bandX))%js = true
  ∧ (yScale sc (y0 bandX) <=? Fin (height desktop) - margin.bottom)%js = true.
Proof.
  eexists. split; [reflexivity |].
  apply (bands_are_drawn_inside_the_plot oneDay desktop oneDayProcessed _
           oneDayStacked bandX).
  - reflexivity.
  - apply nonNegative_entries. vm_compute. repeat constructor; discriminate.
  - apply (bool_decide_eq_true_1 _). vm_compute. reflexivity.
  - reflexivity.
  - reflexivity.
  - simpl. repeat constructor.
  - simpl. repeat constructor.
Defined.

Lemma xScaleQ_slope (dims : Dimensions) (n : nat) (k : Z) :
  (xScaleQ dims n k
   == inject_Z margin.left
      + inject_Z k
        * (innerWidthQ dims / inject_Z (Z.max (Z.of_nat n - 1) 1)))%Q.
Proof.
  unfold xScaleQ. field. intros H.
  pose proof (inject_Z_pos (Z.max (Z.of_nat n - 1) 1) ltac:(lia)) as HP.
  rewrite H in HP. by apply Qlt_irrefl in HP.
Qed.

Lemma xScale_of_day (fd : FlowData) (dims : Dimensions) (pd : ProcessedData)
    (sc : Scales) (k : nat) (d : string) :
  NoDup (map date (daily_data fd)) ->
  processedData fd = Some pd ->
  scales (Some pd) dims = Some sc ->
  dates pd !! k = Some d ->
  xScale sc d = Fin (xScaleQ dims (length (dates pd)) (Z.of_nat k)).
Proof.
  intros Hnd Hpd Hsc Hk.
  rewrite (xScale_eq pd dims sc Hsc). f_equal. f_equal.
  apply indexOf_lookup; [| done].
  apply processedData_Some in Hpd as [_ ->]. done.
Qed.

(** X3: in a viewport wider than 210 and for pairwise distinct dates, the
    dates of the chart are those of the days, in order; [xScale] puts
    every one of them between the left margin and the right end of the
    plot, the first on the left margin and, when there are several days,
    the last on the right end; and it is strictly increasing in the
    position of the day. *)
Theorem xScale_is_increasing (fd : FlowData) (dims : Dimensions)
    (pd : ProcessedData) (sc : Scales) :
  (210 < width dims)%Q ->
  NoDup (map date (daily_data fd)) ->
  processedData fd = Some pd ->
  scales (Some pd) dims = Some sc ->
  dates pd = map date (daily_data fd)
  ∧ (∃ d, dates pd !! 0%nat = Some d ∧ same (xScale sc d) margin.left)
  ∧ (∀ i d, dates pd !! i = Some d ->
       (margin.left <=? xScale sc d)%js = true
       ∧ (xScale sc d <=? Fin (width dims) - margin.right)%js = true)
  ∧ (∀ i j di dj, dates pd !! i = Some di -> dates pd !! j = Some dj ->
       (i < j)%nat -> (xScale sc di <? xScale sc dj)%js = true)
  ∧ (∀ j d, (2 <= length (dates pd))%nat ->
       dates pd !! j = Some d -> S j = length (dates pd) ->
       same (xScale sc d) (Fin (width dims) - margin.right)%js).
Proof.
  intros Hw Hnd Hpd Hsc.
  assert (HW : (0 < innerWidthQ dims)%Q).
  { unfold innerWidthQ.
    change (inject_Z margin.left) with (60 # 1).
    change (inject_Z margin.right) with (150 # 1). lra. }
  pose proof Hpd as Hpd'. apply processedData_Some in Hpd' as [Hne Epd].
  assert (Hdates : dates pd = map date (daily_data fd)) by (by rewrite Epd).
  set (n := length (dates pd)).
  set (D := Z.max (Z.of_nat n - 1) 1).
  assert (Hs : (0 < innerWidthQ dims / inject_Z D)%Q).
  { apply Qlt_shift_div_l; [apply inject_Z_pos; lia | by rewrite Qmult_0_l]. }
  split; [done |]. split; [| split; [| split]].
  - assert (Hfirst : ∃ d, dates pd !! 0%nat = Some d).
    { rewrite Hdates. destruct (daily_data fd); [done | by eexists]. }
    destruct Hfirst as [d Hd]. exists d. split; [done |].
    rewrite (xScale_of_day fd dims pd sc 0 d Hnd Hpd Hsc Hd).
    unfold ofZ. cbn [same]. rewrite xScaleQ_slope. simpl inject_Z. ring.
  - intros i d Hi.
    rewrite (xScale_of_day fd dims pd sc i d Hnd Hpd Hsc Hi).
    pose proof (lookup_lt_Some _ _ _ Hi) as Hilt.
    destruct (xScaleQ_inverse dims n i HW Hilt) as (H1 & H2 & _).
    unfold ofZ. cbn [le sub add neg]. by rewrite !Qle_bool_iff.
  - intros i j di dj Hi Hj Hij.
    rewrite (xScale_of_day fd dims pd sc i di Hnd Hpd Hsc Hi).
    rewrite (xScale_of_day fd dims pd sc j dj Hnd Hpd Hsc Hj).
    cbn [lt]. rewrite Qltb_lt, !xScaleQ_slope. fold n D.
    assert ((inject_Z (Z.of_nat i) * (innerWidthQ dims / inject_Z D)
             < inject_Z (Z.of_nat j) * (innerWidthQ dims / inject_Z D))%Q).
    { apply Qmult_lt_compat_r; [done |]. rewrite <- Zlt_Qlt. lia. }
    lra.
  - intros j d Hmany Hj HS.
    rewrite (xScale_of_day fd dims pd sc j d Hnd Hpd Hsc Hj).
    unfold ofZ. cbn [same sub add neg]. rewrite xScaleQ_slope. fold n D.
    replace D with (Z.of_nat j) by (unfold D, n; lia).
    unfold innerWidthQ. field. intros H.
    pose proof (inject_Z_pos (Z.of_nat j) ltac:(lia)) as HP.
    rewrite H in HP. by apply Qlt_irrefl in HP.
Qed.

(** One day alone sits on the left margin; of two days the second sits on
    the right end of the plot. *)
Lemma xScale_is_increasing_witness :
  (∃ sc d, scales (Some oneDayProcessed) desktop = Some sc
     ∧ dates oneDayProcessed !! 0%nat = Some d
     ∧ same (xScale sc d) margin.left)
  ∧ (∃ sc, scales (Some twoDaysProcessed) desktop = Some sc
     ∧ (xScale sc "2024-01-01" <? xScale sc "2024-01-02")%js = true
     ∧ same (xScale sc "2024-01-02") (Fin (width desktop) - margin.right)%js).
Proof.
  assert (Hw : (210 < width desktop)%Q) by reflexivity.
  split.
  - destruct (xScale_is_increasing oneDay desktop oneDayProcessed _ Hw
                ltac:(simpl; apply NoDup_singleton) eq_refl eq_refl)
      as (_ & (d & Hd & Hleft) & _).
    eexists. exists d. split; [reflexivity |]. by split.
  - assert (Hnd : NoDup (map date (daily_data twoDays)))
      by (apply (bool_decide_eq_true_1 _); vm_compute; reflexivity).
    destruct (xScale_is_increasing twoDays desktop twoDaysProcessed _ Hw Hnd
                eq_refl eq_refl)
      as (_ & _ & _ & Hinc & Hlast).
    eexists. split; [reflexivity |]. split.
    + apply (Hinc 0%nat 1%nat); [reflexivity | reflexivity | lia].
    + apply (Hlast 1%nat); [simpl; lia | reflexivity | reflexivity].
Defined.

Lemma stackFrom_ext (d d' : DailyData) (y : Z) (cs : list string) :
  (∀ c, c ∈ cs -> countOf d c = countOf d' c) ->
  stackFrom d y cs = stackFrom d' y cs
  ∧ sumCounts d cs = sumCounts d' cs.
Proof.
  revert y. induction cs as [|c cs IH]; intros y Hagree; [done |].
  assert (Hc : countOf d c = countOf d' c) by (apply Hagree; left).
  destruct (IH (y + countOf d c)) as [IH1 IH2].
  { intros c' Hc'. apply Hagree. by right. }
  unfold sumCounts in *. simpl. rewrite <- Hc, IH1, IH2. done.
Qed.

(** X4: the stack of a day reads nothing but the day's date and the
    counts of the clusters listed in [clusters].  When every listed
    cluster is a key of the day or does not bear the name of a member of
    [Object.prototype], a missing key counts as 0: two such days with the
    same date that agree on those counts give the same stacked day,
    whatever other keys they carry; and when the absolute values of the
    listed counts add up to a safe integer, the total is the sum of the
    listed counts, a safe integer. *)
Theorem stack_reads_only_listed_clusters (cs : list string)
    (d d' : DailyData) :
  date d = date d' ->
  plainDay cs d -> plainDay cs d' ->
  safeDay cs d ->
  (∀ c, c ∈ cs ->
     default 0 (cluster_counts d !! c) = default 0 (cluster_counts d' !! c)) ->
  stackDay cs d = stackDay cs d'
  ∧ total (stackDay cs d)
    = Number (foldr (fun c s => default 0 (cluster_counts d !! c) + s) 0 cs)
  ∧ Z.abs (foldr (fun c s => default 0 (cluster_counts d !! c) + s) 0 cs)
    <= maxSafeInteger.
Proof.
  intros Hdate Hplain Hplain' Hsafe Hagree.
  rewrite (stackDay_plain cs d Hplain), (stackDay_plain cs d' Hplain').
  destruct (stackFrom_ext d d' 0 cs Hagree) as [-> Hs].
  fold (sumCounts d cs) (sumCounts d' cs) in *.
  simpl. split; [by rewrite Hdate, Hs |]. split; [reflexivity |].
  pose proof (abs_sumCounts_take d cs (length cs)) as H.
  rewrite firstn_all in H. unfold safeDay in Hsafe.
  fold (countOf d) in *. change (foldr _ 0 cs) with (sumCounts d cs). lia.
Qed.

(** A key that is not listed is ignored, and a listed key that is missing
    counts as 0. *)
Lemma stack_reads_only_listed_clusters_witness :
  stackDay ["X"; "Y"]%string (day "2024-01-01" [("X", 3); ("Z", 9)])
  = stackDay ["X"; "Y"]%string (day "2024-01-01" [("X", 3); ("Y", 0)])
  ∧ total (stackDay ["X"; "Y"]%string (day "2024-01-01" [("X", 3); ("Z", 9)]))
    = Number 3.
Proof.
  destruct (stack_reads_only_listed_clusters ["X"; "Y"]%string
              (day "2024-01-01" [("X", 3); ("Z", 9)])
              (day "2024-01-01" [("X", 3); ("Y", 0)]))
    as (H1 & H2 & _).
  - reflexivity.
  - apply (bool_decide_eq_true_1 _). vm_compute. reflexivity.
  - apply (bool_decide_eq_true_1 _). vm_compute. reflexivity.
  - unfold safeDay. vm_compute. discriminate.
  - intros c Hc.
    apply elem_of_cons in Hc as [-> | Hc]; [reflexivity |].
    apply list_elem_of_singleton in Hc as ->. reflexivity.
  - split; [exact H1 | exact H2].
Defined.

End FlowGeometry.

(** ** More about the pointer handlers *)

Module FlowPointer.
Import Flow FlowSpec FlowFacts FlowSamples.

(** X5: a pointer move never changes the selected cluster, whether or not
    there is data, a canvas, or a band under the pointer. *)
Theorem mouse_move_keeps_selection (fd : FlowData) (dims : Dimensions)
    (canvasRef : option Canvas) (e : MouseEvent) (st : State) :
  selectedCluster (handleMouseMove fd dims canvasRef e st)
  = selectedCluster st.
Proof.
  unfold handleMouseMove.
  destruct (processedData fd) as [pd|]; [| done]. simpl scales. cbv iota.
  destruct canvasRef as [canvas|]; [| done].
  destruct (dayAt _ _ _ _) as [sd|]; [| done].
  destruct (truthy _); [| done].
  destruct (find (fun v => bool_decide _) _); done.
Qed.

Lemma dayAt_outside (pd : ProcessedData) (dims : Dimensions) (xq yq : Q) :
  (xq < inject_Z margin.left)%Q
  ∨ (width dims + - inject_Z margin.right < xq)%Q
  ∨ (yq < inject_Z margin.top)%Q
  ∨ (height dims + - inject_Z margin.bottom < yq)%Q ->
  dayAt pd dims (Fin xq) (Fin yq) = None.
Proof.
  intros H. unfold dayAt, gt, ofZ. cbn [sub add neg lt].
  replace (_ || _ || _ || _) with true; [done |]. symmetry.
  rewrite !orb_true_iff, !Qltb_lt. tauto.
Qed.

(** X6: when there is data and the pointer is outside the plot rectangle
    (left of the left margin, right of the plot, above the top margin or
    below the x axis), the move clears the hovered cluster and the tooltip,
    and a click that follows changes nothing and sends nothing. *)
Theorem pointer_outside_plot_clears_hover (fd : FlowData)
    (dims : Dimensions) (canvas : Canvas) (e : MouseEvent) (st : State)
    (pd : ProcessedData) (cb : bool) :
  processedData fd = Some pd ->
  (clientX e - rect_left canvas < 60)%Q
  ∨ (width dims - 150 < clientX e - rect_left canvas)%Q
  ∨ (clientY e - rect_top canvas < 20)%Q
  ∨ (height dims - 50 < clientY e - rect_top canvas)%Q ->
  hoveredCluster (handleMouseMove fd dims (Some canvas) e st) = None
  ∧ tooltip (handleMouseMove fd dims (Some canvas) e st) = None
  ∧ handleClick cb (handleMouseMove fd dims (Some canvas) e st)
    = (handleMouseMove fd dims (Some canvas) e st, []).
Proof.
  intros Hpd Hout.
  assert (Hmove : handleMouseMove fd dims (Some canvas) e st = clearHover st).
  { unfold handleMouseMove. rewrite Hpd. simpl scales. cbv iota.
    cbn [sub add neg]. rewrite dayAt_outside; [done |].
    change (inject_Z margin.left) with (60 # 1).
    change (inject_Z margin.right) with (150 # 1).
    change (inject_Z margin.top) with (20 # 1).
    change (inject_Z margin.bottom) with (50 # 1).
    unfold Qminus in Hout. exact Hout. }
  rewrite Hmove. done.
Qed.

(** A pointer over the legend column, right of the plot. *)
Lemma pointer_outside_plot_clears_hover_witness :
  hoveredCluster (handleMouseMove oneDay desktop (Some atOrigin)
                    (pointer 700 185) overX) = None
  ∧ tooltip (handleMouseMove oneDay desktop (Some atOrigin)
               (pointer 700 185) overX) = None
  ∧ handleClick true (handleMouseMove oneDay desktop (Some atOrigin)
                        (pointer 700 185) overX)
    = (handleMouseMove oneDay desktop (Some atOrigin) (pointer 700 185) overX,
       []).
Proof.
  apply (pointer_outside_plot_clears_hover oneDay desktop atOrigin
           (pointer 700 185) overX oneDayProcessed true).
  - reflexivity.
  - right. left. reflexivity.
Defined.

Lemma dayAt_round (pd : ProcessedData) (dims : Dimensions) (xq yq : Q) :
  (0 < innerWidthQ dims)%Q ->
  (inject_Z margin.left <= xq)%Q ->
  (xq <= width dims + - inject_Z margin.right)%Q ->
  (inject_Z margin.top <= yq)%Q ->
  (yq <= height dims + - inject_Z margin.bottom)%Q ->
  (1 <= length (dates pd))%nat ->
  let t := ((xq + - inject_Z margin.left) / innerWidthQ dims
            * inject_Z (Z.of_nat (length (dates pd)) - 1))%Q in
  (0 <= t)%Q
  ∧ 0 <= Qfloor (t + (1 # 2)) <= Z.of_nat (length (dates pd)) - 1
  ∧ dayAt pd dims (Fin xq) (Fin yq)
    = stackedData pd !! Z.to_nat (Qfloor (t + (1 # 2))).
Proof.
  intros HW Hx1 Hx2 Hy1 Hy2 Hn t.
  set (last := Z.of_nat (length (dates pd)) - 1) in *.
  set (r := ((xq + - inject_Z margin.left) / innerWidthQ dims)%Q) in *.
  assert (Hr0 : (0 <= r)%Q).
  { apply Qle_shift_div_l; [done |]. rewrite Qmult_0_l. lra. }
  assert (Hr1 : (r <= 1)%Q).
  { apply Qle_shift_div_r; [done |]. unfold innerWidthQ in *. lra. }
  assert (Hl0 : (0 <= inject_Z last)%Q) by (apply inject_Z_nonneg; lia).
  assert (Ht0 : (0 <= t)%Q) by (by apply Qmult_le_0_compat).
  assert (Ht1 : (t <= inject_Z last)%Q).
  { unfold t. rewrite <- (Qmult_1_l (inject_Z last)) at 2.
    by apply Qmult_le_compat_r. }
  assert (Hk : 0 <= Qfloor (t + (1 # 2)) < last + 1).
  { apply Qfloor_bounds.
    - change (inject_Z 0) with 0%Q. lra.
    - rewrite inject_Z_plus. change (inject_Z 1) with 1%Q. lra. }
  split; [done |]. split; [lia |].
  unfold dayAt, gt, ofZ. cbn [sub add neg lt].
  replace (Qltb xq _) with false by (symmetry; by apply Qltb_ge).
  replace (Qltb _ xq) with false by (symmetry; by apply Qltb_ge).
  replace (Qltb yq _) with false by (symmetry; by apply Qltb_ge).
  replace (Qltb _ yq) with false by (symmetry; by apply Qltb_ge).
  cbn [orb]. fold (innerWidthQ dims). cbn [div].
  replace (Qeq_bool (innerWidthQ dims) 0) with false.
  2: { symmetry. apply not_true_iff_false. intros H.
       apply Qeq_bool_iff in H. rewrite H in HW. by apply Qlt_irrefl in HW. }
  cbn [mul round]. fold last r. fold t.
  set (k := Qfloor (t + (1 # 2))) in *.
  cbn [min le].
  replace (Qle_bool (inject_Z k) _) with true
    by (symmetry; apply Qle_bool_iff; rewrite <- Zle_Qle; lia).
  cbn [max le].
  replace (Qle_bool (inject_Z 0) (inject_Z k)) with true
    by (symmetry; apply Qle_bool_iff; rewrite <- Zle_Qle; lia).
  cbn [index]. rewrite Qfloor_Z.
  replace (Qeq_bool _ _) with true by (symmetry; by apply Qeq_bool_iff).
  replace (0 <=? k) with true by (symmetry; apply Z.leb_le; lia).
  reflexivity.
Qed.

(** X7: in a viewport wider than 210, a pointer anywhere in the plot
    rectangle is given a day (the index is always one of the array).
    When there are several days, the place [xScale] gives that day is
    within 0.51 of a day's spacing of the pointer, and a day whose place
    is within 0.49 of a day's spacing of the pointer is the day given: the
    nearest day is taken, and only within a hundredth of the spacing
    around the middle between two days, where the rounding of the code
    decides, nothing is said about which of the two it is. *)
Theorem pointer_in_plot_finds_nearest_day (fd : FlowData)
    (dims : Dimensions) (pd : ProcessedData) (xq yq : Q) :
  (210 < width dims)%Q ->
  processedData fd = Some pd ->
  (60 <= xq)%Q -> (xq <= width dims - 150)%Q ->
  (20 <= yq)%Q -> (yq <= height dims - 50)%Q ->
  ∃ k sd, stackedData pd !! k = Some sd
    ∧ dayAt pd dims (Fin xq) (Fin yq) = Some sd
    ∧ ((2 <= length (dates pd))%nat ->
       let spacing :=
         (innerWidthQ dims / inject_Z (Z.of_nat (length (dates pd)) - 1))%Q in
       let place (j : nat) :=
         xScaleQ dims (length (dates pd)) (Z.of_nat j) in
       (place k - (51 # 100) * spacing <= xq)%Q
       ∧ (xq <= place k + (51 # 100) * spacing)%Q
       ∧ ∀ j, (j < length (dates pd))%nat ->
           (place j - (49 # 100) * spacing <= xq)%Q ->
           (xq <= place j + (49 # 100) * spacing)%Q ->
           j = k).
Proof.
  intros Hw Hpd Hx1 Hx2 Hy1 Hy2.
  assert (HW : (0 < innerWidthQ dims)%Q).
  { unfold innerWidthQ.
    change (inject_Z margin.left) with (60 # 1).
    change (inject_Z margin.right) with (150 # 1). lra. }
  pose proof Hpd as Hpd'. apply processedData_Some in Hpd' as [Hne Epd].
  assert (Hlen : length (stackedData pd) = length (dates pd))
    by (rewrite Epd; simpl; by rewrite !length_map).
  assert (Hn : (1 <= length (dates pd))%nat).
  { rewrite Epd. simpl. rewrite length_map.
    destruct (daily_data fd); [done | simpl; lia]. }
  assert (Hx2' : (xq <= width dims + - inject_Z margin.right)%Q).
  { change (inject_Z margin.right) with (150 # 1). unfold Qminus in Hx2.
    exact Hx2. }
  assert (Hy2' : (yq <= height dims + - inject_Z margin.bottom)%Q).
  { change (inject_Z margin.bottom) with (50 # 1). unfold Qminus in Hy2.
    exact Hy2. }
  destruct (dayAt_round pd dims xq yq HW Hx1 Hx2' Hy1 Hy2' Hn)
    as (Ht0 & Hk & Hday).
  set (n := length (dates pd)) in *.
  set (t := ((xq + - inject_Z margin.left) / innerWidthQ dims
             * inject_Z (Z.of_nat n - 1))%Q) in *.
  set (k := Qfloor (t + (1 # 2))) in *.
  destruct (lookup_lt_is_Some_2 (stackedData pd) (Z.to_nat k)) as [sd Hsd];
    [lia |].
  exists (Z.to_nat k), sd. split; [done |]. split; [by rewrite Hday |].
  intros Hmany spacing place.
  assert (HD : (0 < inject_Z (Z.of_nat n - 1))%Q)
    by (apply inject_Z_pos; lia).
  assert (Hs : (0 < spacing)%Q).
  { apply Qlt_shift_div_l; [done | by rewrite Qmult_0_l]. }
  assert (Hplace : ∀ j : nat,
            (place j == inject_Z margin.left
                        + inject_Z (Z.of_nat j) * spacing)%Q).
  { intros j. unfold place. rewrite FlowGeometry.xScaleQ_slope.
    replace (Z.max (Z.of_nat n - 1) 1) with (Z.of_nat n - 1) by lia. done. }
  assert (Hxq : (xq == inject_Z margin.left + t * spacing)%Q).
  { unfold t, spacing. field. split; intros H.
    - rewrite H in HD. by apply Qlt_irrefl in HD.
    - rewrite H in HW. by apply Qlt_irrefl in HW. }
  pose proof (Qfloor_le (t + (1 # 2))) as Hlo.
  pose proof (Qlt_floor (t + (1 # 2))) as Hhi.
  fold k in Hlo, Hhi. rewrite inject_Z_plus in Hhi.
  change (inject_Z 1) with 1%Q in Hhi.
  assert (H1 : ((inject_Z k - (1 # 2)) * spacing <= t * spacing)%Q)
    by (apply Qmult_le_compat_r; [lra | by apply Qlt_le_weak]).
  assert (H2 : (t * spacing <= (inject_Z k + (1 # 2)) * spacing)%Q)
    by (apply Qmult_le_compat_r; [lra | by apply Qlt_le_weak]).
  split; [| split].
  - rewrite Hplace, Z2Nat.id, Hxq by lia. lra.
  - rewrite Hplace, Z2Nat.id, Hxq by lia. lra.
  - intros j Hj Hjlo Hjhi. rewrite Hplace, Hxq in Hjlo, Hjhi.
    assert (Ha : (inject_Z (Z.of_nat j) - (49 # 100) <= t)%Q).
    { apply (Qmult_le_r _ _ spacing Hs). lra. }
    assert (Hb : (t <= inject_Z (Z.of_nat j) + (49 # 100))%Q).
    { apply (Qmult_le_r _ _ spacing Hs). lra. }
    assert (Z.of_nat j <= k < Z.of_nat j + 1); [| lia].
    apply Qfloor_bounds.
    + lra.
    + rewrite inject_Z_plus. change (inject_Z 1) with 1%Q. lra.
Qed.

(** On [twoDays] in a viewport 800 wide the two days are at 60 and at 650;
    the pointer at 400 is nearer the second. *)
Lemma pointer_in_plot_finds_nearest_day_witness :
  ∃ k sd, stackedData twoDaysProcessed !! k = Some sd
    ∧ dayAt twoDaysProcessed desktop (Fin 400) (Fin 100) = Some sd
    ∧ ((2 <= length (dates twoDaysProcessed))%nat ->
       let spacing :=
         (innerWidthQ desktop
          / inject_Z (Z.of_nat (length (dates twoDaysProcessed)) - 1))%Q in
       let place (j : nat) :=
         xScaleQ desktop (length (dates twoDaysProcessed)) (Z.of_nat j) in
       (place k - (51 # 100) * spacing <= 400)%Q
       ∧ (400 <= place k + (51 # 100) * spacing)%Q
       ∧ ∀ j, (j < length (dates twoDaysProcessed))%nat ->
           (place j - (49 # 100) * spacing <= 400)%Q ->
           (400 <= place j + (49 # 100) * spacing)%Q ->
           j = k).
Proof.
  apply (pointer_in_plot_finds_nearest_day twoDays desktop twoDaysProcessed
           400 100); reflexivity || (intros H; discriminate H).
Defined.

Lemma innerHeight_positive (dims : Dimensions) :
  (70 < height dims)%Q -> (0 < innerHeightQ dims)%Q.
Proof.
  intros H. unfold innerHeightQ.
  change (inject_Z margin.top) with (20 # 1).
  change (inject_Z margin.bottom) with (50 # 1). lra.
Qed.

Lemma day_under_pointer (fd : FlowData) (pd : ProcessedData)
    (dims : Dimensions) (x y : jsnum) (sd : StackedDay) :
  plainCounts fd ->
  processedData fd = Some pd ->
  dayAt pd dims x y = Some sd ->
  ∃ d, d ∈ daily_data fd
       ∧ sd = {| sd_date := date d; values := stackFrom d 0 (clusters fd);
                 total := Number (sumCounts d (clusters fd)) |}.
Proof.
  intros Hplain Hpd Hday. unfold dayAt in Hday.
  destruct (_ || _) in Hday; [done |].
  apply index_elem in Hday. by apply (stackedData_plain_elem fd pd).
Qed.

(** X8: in a viewport higher than 70 and with non-negative counts, when
    the pointer is over a day and lies inside a band of that day, at least
    a thousandth of a pixel below the place [yScale] gives its upper edge
    and above the place it gives its lower edge, the move makes the
    cluster of that band the hovered one, and, when its name is not empty,
    sets a tooltip with the band's cluster and count and the day's date
    and total.  On the edge where two bands meet the rounding of the code
    decides, and nothing is said. *)
Theorem pointer_in_band_hovers_it (fd : FlowData) (dims : Dimensions)
    (canvas : Canvas) (e : MouseEvent) (st : State) (pd : ProcessedData)
    (sc : Scales) (sd : StackedDay) (i : nat) (v : StackedValue) :
  (70 < height dims)%Q ->
  nonNegative fd ->
  processedData fd = Some pd ->
  scales (Some pd) dims = Some sc ->
  dayAt pd dims (pointerX canvas e) (pointerY canvas e) = Some sd ->
  values sd !! i = Some v ->
  (yScale sc (y1 v) + Fin (1 # 1000) <=? pointerY canvas e)%js = true ->
  (pointerY canvas e + Fin (1 # 1000) <=? yScale sc (y0 v))%js = true ->
  hoveredCluster (handleMouseMove fd dims (Some canvas) e st)
  = Some (cluster v)
  ∧ (cluster v ≠ ""%string ->
     ∃ t, tooltip (handleMouseMove fd dims (Some canvas) e st) = Some t
       ∧ tip_cluster t = cluster v ∧ tip_count t = count v
       ∧ tip_date t = sd_date sd ∧ tip_total t = total sd).
Proof.
  intros Hh Hnn Hpd Hsc Hday Hv Hupper Hlower.
  destruct (decide (plainCounts fd)) as [Hplain | Hnot].
  2: { pose proof (processedData_polluted fd pd Hnot Hpd) as HM.
       rewrite (yScale_NaN pd dims sc Hsc HM) in Hupper. done. }
  pose proof (innerHeight_positive dims Hh) as HH.
  pose proof (maxTotal_ge_1 fd) as HM.
  destruct (processedData_plain fd pd Hplain Hpd) as [HmaxY _].
  destruct (day_under_pointer fd pd dims _ _ sd Hplain Hpd Hday)
    as (d & Hd & Esd).
  assert (Hnnd : ∀ c, 0 <= countOf d c)
    by (intros c; by apply (countOf_nonneg fd)).
  destruct (scales_Some fd pd dims sc Hplain Hpd Hsc) as [_ Hys].
  assert (Evals : values sd = stackFrom d 0 (clusters fd))
    by (by rewrite Esd).
  rewrite Evals in Hv.
  destruct (stackFrom_lookup d 0 _ i v Hv) as (Hc & En & Ea & Eb).
  set (a := 0 + sumCounts d (take i (clusters fd))) in *.
  set (n := countOf d (cluster v)) in *.
  rewrite Eb in Hupper. rewrite Ea in Hlower.
  unfold toNumber, ofZ, pointerY in Hupper, Hlower.
  rewrite Hys in Hupper, Hlower.
  cbn [sub add neg le] in Hupper, Hlower.
  apply Qle_bool_iff in Hupper, Hlower.
  set (yq := (clientY e + - rect_top canvas)%Q) in *.
  set (m := ((inject_Z margin.top + innerHeightQ dims - yq)
             * inject_Z (maxTotal fd) / innerHeightQ dims)%Q).
  pose proof (yScaleQ_inverse dims (maxTotal fd) HM HH yq) as Hyq.
  fold m in Hyq.
  assert (Hlo : (inject_Z a < m)%Q).
  { apply Qnot_le_lt. intros Hle.
    pose proof (yScaleQ_antitone dims (maxTotal fd) HM HH _ _ Hle) as H.
    rewrite <- Hyq in H. lra. }
  assert (Hhi : (m <= inject_Z (a + n))%Q).
  { apply Qnot_lt_le. intros Hlt.
    pose proof (yScaleQ_decreasing dims (maxTotal fd) HM HH _ _ Hlt) as H.
    rewrite <- Hyq in H. lra. }
  assert (Hfind : find (hit sc (pointerY canvas e)) (values sd) = Some v).
  { rewrite Evals.
    by apply (scan_finds_band pd dims sc (maxTotal fd) d Hsc HmaxY HM HH Hnnd
                _ 0 i v a (a + n) m yq). }
  destruct (found_band fd pd dims sc _ _ sd v Hpd Hday Hfind)
    as (d' & _ & _ & _ & _ & Hall).
  destruct (handleMouseMove_cases fd dims canvas e st pd sc Hpd Hsc)
    as [(H & _) | [(sd' & H1 & H2 & _) | [H | H]]].
  - congruence.
  - congruence.
  - destruct H as (sd' & v' & H1 & H2 & Hempty & Hhov & _).
    assert (sd' = sd) as -> by congruence.
    assert (v' = v) as -> by congruence.
    split; [done |]. intros Hne. done.
  - destruct H as (sd' & v' & value & H1 & H2 & _ & Hin & Hc' & Hhov & Htip).
    assert (sd' = sd) as -> by congruence.
    assert (v' = v) as -> by congruence.
    split; [done |]. intros _. eexists. split; [exact Htip |]. simpl.
    repeat split. rewrite (Hall value Hin Hc').
    symmetry. apply Hall; [| done].
    rewrite Evals. apply list_elem_of_lookup. by exists i.
Qed.

(** On [twoDays] the first day has X on [0, 3] and Y on [3, 5]; in a
    viewport 400 high the band of X lies between the heights 152 and 350,
    and the pointer is at 200. *)
Lemma pointer_in_band_hovers_it_witness :
  hoveredCluster (handleMouseMove twoDays desktop (Some atOrigin)
                    (pointer 60 200) idle) = Some "X"%string
  ∧ ∃ t, tooltip (handleMouseMove twoDays desktop (Some atOrigin)
                    (pointer 60 200) idle) = Some t
      ∧ tip_cluster t = "X"%string ∧ tip_count t = Number 3
      ∧ tip_date t = "2024-01-01"%string ∧ tip_total t = Number 5.
Proof.
  assert (Hnn : nonNegative twoDays).
  { apply nonNegative_entries. vm_compute. repeat constructor; discriminate. }
  assert (Hh : (70 < height desktop)%Q) by reflexivity.
  destruct (pointer_in_band_hovers_it twoDays desktop atOrigin
              (pointer 60 200) idle twoDaysProcessed _ firstOfTwo
              0 (bandOf "X" 0 3)
              Hh Hnn eq_refl eq_refl eq_refl eq_refl eq_refl eq_refl)
    as [H1 H2].
  split; [exact H1 |]. apply H2. discriminate.
Defined.



Lemma or_string_not_empty (a : option string) (b : string) :
  b ≠ ""%string -> or_string a b ≠ ""%string.
Proof.
  intros Hb. unfold or_string. destruct (truthy a) eqn:E; [| done].
  destruct a as [s|]; [| done]. simpl. by apply truthy_Some.
Qed.

(** The read of a colour, case by case. *)
Lemma color_or_colorOf (fd : FlowData) (c : string) :
  color_or (get (colors fd) c) "#6B7280" = colorOf fd c.
Proof.
  unfold colorOf, get. destruct (colors fd !! c) as [s|]; simpl.
  - unfold or_string. destruct (decide (s = ""%string)) as [-> | Hs]; [done |].
    replace (truthy (Some s)) with true; [done |].
    symmetry. by apply truthy_Some.
  - destruct (decide (c ∈ objectPrototype)).
    + by rewrite bool_decide_eq_true_2.
    + by rewrite bool_decide_eq_false_2.
Qed.



End FlowPointer.

(** ** The drawing effect *)

Module DrawFacts.
Import Flow FlowSpec FlowFacts FlowSamples DrawSpec.

Lemma bandFills_app (a b : list CanvasOp) :
  bandFills (a ++ b) = bandFills a ++ bandFills b.
Proof. apply omap_app. Qed.

Lemma bandFills_mapM {A} (f : A -> option CanvasOp) (l : list A)
    (k : list CanvasOp) :
  mapM f l = Some k ->
  (∀ x y, f x = Some y -> bandFill y = None) ->
  bandFills k = [].
Proof.
  intros Hk Hf. apply mapM_Some_1 in Hk.
  induction Hk as [|x y l k Hxy _ IH]; [done |].
  unfold bandFills in *. simpl. by rewrite (Hf x y Hxy).
Qed.

Lemma opacity_byte (st : State) (c : string) :
  round (Fin (if bool_decide (hoveredCluster st = Some c)
                 || bool_decide (selectedCluster st = Some c)
              then 9 # 10
              else if bool_decide (hoveredCluster st ≠ None)
                      && bool_decide (hoveredCluster st ≠ Some c)
                   then 3 # 10 else 7 # 10) * 255)%js
  = ofZ (opacity st c).
Proof.
  unfold opacity.
  destruct (bool_decide (hoveredCluster st = Some c)) eqn:E1;
    [reflexivity |].
  destruct (bool_decide (selectedCluster st = Some c)); [reflexivity |].
  simpl orb. cbv iota.
  destruct (bool_decide (hoveredCluster st ≠ None)); [| reflexivity].
  apply bool_decide_eq_false_1 in E1.
  rewrite bool_decide_eq_true_2 by done. reflexivity.
Qed.

(** The band of cluster number [i] is drawn when every day has a value
    number [i], and it sets one band fill. *)
Lemma band_drawn (fd : FlowData) (st : State) (pd : ProcessedData)
    (sc : Scales) (i : nat) (c : string) :
  Forall (fun sd => is_Some (values sd !! i)) (stackedData pd) ->
  ∃ ops, band fd st pd sc i c = Some ops
    ∧ bandFills ops = [(colorOf fd c, ofZ (opacity st c))].
Proof.
  intros Hall. rewrite Forall_forall in Hall.
  assert (Htop : is_Some (mapM (fun '(idx, day) =>
                   v ← values day !! i;
                   Some ((if (idx =? 0)%nat then MoveTo else LineTo)
                           (xScale sc (sd_date day)) (yScale sc (y1 v))))
                 (imap pair (stackedData pd)))).
  { apply mapM_is_Some_2. apply Forall_forall. intros [idx sd] Hin.
    apply elem_of_lookup_imap in Hin as (j & sd' & [= -> ->] & Hj).
    destruct (Hall sd') as [v Hv]; [apply list_elem_of_lookup; eauto |].
    unfold compose. rewrite Hv. by eexists. }
  assert (Hbot : is_Some (mapM (fun day =>
                   v ← values day !! i;
                   Some (LineTo (xScale sc (sd_date day)) (yScale sc (y0 v))))
                 (rev (stackedData pd)))).
  { apply mapM_is_Some_2. apply Forall_forall. intros sd Hin.
    apply list_elem_of_In, in_rev, list_elem_of_In in Hin.
    destruct (Hall sd Hin) as [v Hv]. unfold compose. rewrite Hv.
    by eexists. }
  destruct Htop as [top Etop]. destruct Hbot as [bottom Ebot].
  unfold band. rewrite Etop. cbn [mbind option_bind].
  rewrite Ebot. cbn [mbind option_bind].
  eexists. split; [reflexivity |].
  rewrite !bandFills_app.
  rewrite (bandFills_mapM _ _ _ Etop), (bandFills_mapM _ _ _ Ebot).
  - rewrite opacity_byte, FlowPointer.color_or_colorOf.
    destruct (bool_decide _ || bool_decide _); reflexivity.
  - intros sd y Hy. destruct (values sd !! i); [| done].
    cbn [mbind option_bind] in Hy. by injection Hy as <-.
  - intros [idx sd] y Hy. destruct (values sd !! i); [| done].
    cbn [mbind option_bind] in Hy. injection Hy as <-.
    by destruct (idx =? 0)%nat.
Qed.

Lemma bandFills_none (ops : list CanvasOp) :
  Forall (fun op => bandFill op = None) ops -> bandFills ops = [].
Proof.
  induction 1 as [|op ops Hop _ IH]; [done |].
  unfold bandFills in *. simpl. by rewrite Hop.
Qed.

Lemma every_day_has_value (fd : FlowData) (pd : ProcessedData) (i : nat) :
  processedData fd = Some pd ->
  (i < length (clusters fd))%nat ->
  Forall (fun sd => is_Some (values sd !! i)) (stackedData pd).
Proof.
  intros Hpd Hi. apply Forall_forall. intros sd Hsd.
  destruct (stackedData_elem fd pd sd Hpd Hsd) as (d & _ & ->).
  rewrite stackDay_eq. simpl. apply lookup_lt_is_Some_2.
  by rewrite length_stackValues.
Qed.

Lemma bandFills_bands (fd : FlowData) (st : State) (pd : ProcessedData)
    (sc : Scales) (ics : list (nat * string)) (bands : list (list CanvasOp)) :
  Forall (fun ic => Forall (fun sd => is_Some (values sd !! ic.1))
                           (stackedData pd)) ics ->
  mapM (fun '(i, c) => band fd st pd sc i c) ics = Some bands ->
  bandFills (concat bands)
  = map (fun ic => (colorOf fd ic.2, ofZ (opacity st ic.2))) ics.
Proof.
  intros Hall Hbands. apply mapM_Some_1 in Hbands.
  induction Hbands as [|[i c] ops ics bands Hops _ IH]; [done |].
  apply Forall_cons in Hall as [Hi Hall].
  destruct (band_drawn fd st pd sc i c Hi) as (ops' & Hops' & Hfill).
  assert (ops' = ops) as -> by congruence.
  simpl concat. rewrite bandFills_app, Hfill, (IH Hall). reflexivity.
Qed.

Lemma bandFills_xLabels (dims : Dimensions) (pd : ProcessedData)
    (sc : Scales) :
  bandFills (xLabels dims pd sc) = [].
Proof.
  apply bandFills_none. unfold xLabels. apply Forall_concat.
  apply Forall_forall. intros l Hl.
  apply elem_of_lookup_imap in Hl as (i & d & -> & _).
  destruct (_ || _); repeat constructor.
Qed.

(** X11: when there is data and the canvas gives a 2D context, the
    drawing effect ends without an exception (every day has a value for
    every cluster), and the band fills it sets are, in order, those of the
    clusters from the last to the first: one per cluster, with opacity
    byte 230 for a hovered or selected cluster, 77 for the others while
    some cluster is hovered, and 179 otherwise.  The colour of a fill is
    the one configured for the cluster when that is not the empty string;
    without a configured colour it is #6B7280, unless the cluster bears
    the name of a member of [Object.prototype]: the fill then starts with
    that member and is no colour.  So when every listed cluster has a
    configured colour or does not bear such a name, every fill is the
    configured colour or #6B7280. *)
Theorem draw_paints_bands_back_to_front (fd : FlowData) (dims : Dimensions)
    (st : State) (dpr : Q) (canvas : Canvas) (pd : ProcessedData) :
  processedData fd = Some pd ->
  context2d canvas = true ->
  ∃ ops, draw fd dims st dpr (Some canvas) = Some ops
    ∧ bandFills ops
      = rev (map (fun c => (colorOf fd c, ofZ (opacity st c))) (clusters fd))
    ∧ (plainColors fd ->
       bandFills ops
       = rev (map (fun c => (Color (or_string (colors fd !! c) "#6B7280"),
                             ofZ (opacity st c))) (clusters fd))).
Proof.
  intros Hpd Hctx.
  destruct (scales_defined pd dims) as [sc Hsc].
  assert (Hcs : pd_clusters pd = clusters fd).
  { pose proof Hpd as H. apply processedData_Some in H as [_ ->]. done. }
  assert (Hall : Forall (fun ic : nat * string =>
                   Forall (fun sd => is_Some (values sd !! ic.1))
                          (stackedData pd))
                   (rev (imap pair (pd_clusters pd)))).
  { apply Forall_forall. intros [i c] Hic.
    apply list_elem_of_In, in_rev, list_elem_of_In in Hic.
    apply elem_of_lookup_imap in Hic as (j & c' & [= -> ->] & Hj).
    apply (every_day_has_value fd pd j Hpd). rewrite <- Hcs.
    by apply lookup_lt_Some in Hj. }
  assert (Hsome : is_Some (mapM (fun '(i, c) => band fd st pd sc i c)
                             (rev (imap pair (pd_clusters pd))))).
  { apply mapM_is_Some_2. eapply Forall_impl; [exact Hall |].
    intros [i c] Hi. unfold compose.
    destruct (band_drawn fd st pd sc i c Hi) as (ops & -> & _). by eexists. }
  destruct Hsome as [bands Hbands].
  unfold draw. rewrite Hpd, Hsc, Hctx. cbn [negb].
  rewrite Hbands. cbn [mbind option_bind].
  eexists. split; [reflexivity |].
  rewrite !bandFills_app.
  rewrite (bandFills_bands fd st pd sc _ bands Hall Hbands).
  rewrite bandFills_xLabels.
  replace (bandFills (concat (map (gridLine dims pd sc) [0; 1; 2; 3; 4; 5])))
    with (@nil (jscolor * jsnum)) by reflexivity.
  replace (bandFills (map (yLabel pd sc) [0; 1; 2; 3; 4; 5]))
    with (@nil (jscolor * jsnum)) by reflexivity.
  cbn [bandFills omap list_omap bandFill app].
  rewrite app_nil_r, Hcs, map_rev.
  assert (Erev : map (fun ic : nat * string =>
                        (colorOf fd ic.2, ofZ (opacity st ic.2)))
                     (imap pair (clusters fd))
                 = map (fun c => (colorOf fd c, ofZ (opacity st c)))
                       (clusters fd)).
  { change (map ?f (imap pair ?l)) with (f <$> imap pair l).
    rewrite fmap_imap. change (map ?f ?l) with (f <$> l).
    by rewrite <- imap_const. }
  rewrite Erev. split; [done |].
  intros Hplain. f_equal. apply map_ext_in. intros c Hc.
  f_equal. unfold plainColors in Hplain. rewrite Forall_forall in Hplain.
  apply list_elem_of_In in Hc. specialize (Hplain c Hc).
  unfold colorOf, or_string, plainColor in *.
  destruct (colors fd !! c) as [s|].
  - destruct (decide (s = ""%string)) as [-> | Hs]; [done |].
    replace (truthy (Some s)) with true; [done |].
    symmetry. by apply truthy_Some.
  - destruct Hplain as [[s Hs] | Hplain]; [done |].
    by destruct (decide (c ∈ objectPrototype)).
Qed.

(** [oneDay] while X is hovered: first the band of Y, dimmed, then the band
    of X, raised. *)
Lemma draw_paints_bands_back_to_front_witness :
  ∃ ops, draw oneDay desktop overX 1 (Some atOrigin) = Some ops
    ∧ bandFills ops = [(Color "#6B7280", ofZ 77); (Color "#6B7280", ofZ 230)].
Proof.
  destruct (draw_paints_bands_back_to_front oneDay desktop overX 1 atOrigin
              oneDayProcessed eq_refl eq_refl)
    as (ops & Hdraw & _ & Hfills).
  exists ops. split; [exact Hdraw |]. apply Hfills.
  apply (bool_decide_eq_true_1 _). vm_compute. reflexivity.
Defined.

Lemma ceil_step (L m : Z) :
  1 <= L -> 0 <= m ->
  (m + 1 + L - 1) / L = (m + L - 1) / L + (if m mod L =? 0 then 1 else 0).
Proof.
  intros HL Hm.
  pose proof (Z.div_mod m L ltac:(lia)) as Hdm.
  pose proof (Z.mod_pos_bound m L ltac:(lia)) as Hr.
  set (q := m / L) in *. set (r := m mod L) in *.
  destruct (Z.eqb_spec r 0) as [E|E].
  - rewrite <- (Z.div_unique (m + 1 + L - 1) L (q + 1) 0) by lia.
    rewrite <- (Z.div_unique (m + L - 1) L q (L - 1)) by lia. lia.
  - rewrite <- (Z.div_unique (m + 1 + L - 1) L (q + 1) r) by lia.
    rewrite <- (Z.div_unique (m + L - 1) L (q + 1) (r - 1)) by lia. lia.
Qed.

(** Counting the labelled positions of a stretch of dates that starts at
    position [off]: the multiples of the interval, and the position [N]. *)
Lemma labels_count (L N : Z) (g : nat -> string -> CanvasOp)
    (l : list string) (off : nat) :
  1 <= L ->
  Z.of_nat (length (concat (imap (fun idx d =>
      if (Z.of_nat (off + idx) mod L =? 0) || (Z.of_nat (off + idx) =? N)
      then [g (off + idx)%nat d] else []) l)))
  <= (Z.of_nat (off + length l) + L - 1) / L - (Z.of_nat off + L - 1) / L
     + (if (Z.of_nat off <=? N) && (N <? Z.of_nat (off + length l))
        then 1 else 0).
Proof.
  intros HL. revert off. induction l as [|d l IH]; intros off.
  - simpl. rewrite Nat.add_0_r, Z.sub_diag.
    destruct (_ && _); lia.
  - rewrite imap_cons. simpl concat. rewrite length_app, Nat2Z.inj_add.
    rewrite (imap_ext _ (fun idx d =>
      if (Z.of_nat (S off + idx) mod L =? 0) || (Z.of_nat (S off + idx) =? N)
      then [g (S off + idx)%nat d] else [])).
    2: { intros i x _. unfold compose.
         replace (off + S i)%nat with (S off + i)%nat by lia. done. }
    specialize (IH (S off)).
    replace (S off + length l)%nat with (off + length (d :: l))%nat in IH
      by (simpl; lia).
    pose proof (ceil_step L (Z.of_nat off) HL ltac:(lia)) as Hstep.
    replace (Z.of_nat off + 1 + L - 1) with (Z.of_nat (S off) + L - 1)
      in Hstep by lia.
    rewrite Nat.add_0_r.
    destruct (Z.eqb_spec (Z.of_nat off mod L) 0);
      destruct (Z.eqb_spec (Z.of_nat off) N);
      destruct (Z.leb_spec (Z.of_nat off) N);
      destruct (Z.leb_spec (Z.of_nat (S off)) N);
      destruct (Z.ltb_spec N (Z.of_nat (off + length (d :: l))));
      simpl in *; lia.
Qed.

Lemma labels_count_from_0 (L N : Z) (g : nat -> string -> CanvasOp)
    (l : list string) :
  1 <= L ->
  Z.of_nat (length (concat (imap (fun idx d =>
      if (Z.of_nat idx mod L =? 0) || (Z.of_nat idx =? N)
      then [g idx d] else []) l)))
  <= (Z.of_nat (length l) + L - 1) / L + 1.
Proof.
  intros HL. pose proof (labels_count L N g l 0 HL) as H.
  rewrite (imap_ext _ (fun idx d =>
      if (Z.of_nat idx mod L =? 0) || (Z.of_nat idx =? N)
      then [g idx d] else [])) in H by done.
  replace ((Z.of_nat 0 + L - 1) / L) with 0 in H
    by (symmetry; apply Z.div_small; lia).
  replace (0 + length l)%nat with (length l) in H by done.
  destruct (_ && _) in H; lia.
Qed.

Lemma xLabels_eq (dims : Dimensions) (pd : ProcessedData) (sc : Scales) :
  let n := Z.of_nat (length (dates pd)) in
  let L := Z.max 1 (Qceiling (inject_Z n / 10)) in
  1 <= L ∧ n <= 10 * L
  ∧ xLabels dims pd sc
    = concat (imap (fun idx d =>
        if (Z.of_nat idx mod L =? 0) || (Z.of_nat idx =? n - 1)
        then [FillText (Str (slice 5 d)) (xScale sc d)
                (Fin (height dims) - margin.bottom + 8)%js]
        else []) (dates pd)).
Proof.
  intros n L. split; [lia |]. split; [| reflexivity].
  pose proof (Qle_ceiling (inject_Z n / 10)) as Hc.
  assert (n <= 10 * Qceiling (inject_Z n / 10)); [| lia].
  set (c := Qceiling (inject_Z n / 10)) in *.
  rewrite Zle_Qle, inject_Z_mult. change (inject_Z 10) with (10 # 1).
  unfold Qdiv in Hc. change (/ 10)%Q with (1 # 10) in Hc. lra.
Qed.

(** X12: whatever the number of days, the x axis carries at most eleven
    date labels, and the first and the last date are always among them,
    each written without its first five characters at the place [xScale]
    gives the date. *)
Theorem x_axis_has_at_most_eleven_labels (dims : Dimensions)
    (pd : ProcessedData) (sc : Scales) (first last : string) :
  head (dates pd) = Some first ->
  List.last (dates pd) first = last ->
  (length (xLabels dims pd sc) <= 11)%nat
  ∧ FillText (Str (slice 5 first)) (xScale sc first)
      (Fin (height dims) - margin.bottom + 8)%js ∈ xLabels dims pd sc
  ∧ FillText (Str (slice 5 last)) (xScale sc last)
      (Fin (height dims) - margin.bottom + 8)%js ∈ xLabels dims pd sc.
Proof.
  intros Hfirst Hlast.
  destruct (xLabels_eq dims pd sc) as (HL & Hn & Heq).
  set (n := Z.of_nat (length (dates pd))) in *.
  set (L := Z.max 1 (Qceiling (inject_Z n / 10))) in *.
  assert (Hmember : ∀ i d, dates pd !! i = Some d ->
            (Z.of_nat i mod L = 0 ∨ Z.of_nat i = n - 1) ->
            FillText (Str (slice 5 d)) (xScale sc d)
              (Fin (height dims) - margin.bottom + 8)%js
            ∈ xLabels dims pd sc).
  { intros i d Hi Hcond. rewrite Heq. apply list_elem_of_In, in_concat.
    eexists. split.
    - apply list_elem_of_In, elem_of_lookup_imap. exists i, d. split; [reflexivity | done].
    - simpl. replace (_ || _) with true; [by left |].
      symmetry. apply orb_true_iff. rewrite Z.eqb_eq, Z.eqb_eq. done. }
  split; [| split].
  - rewrite Heq.
    pose proof (labels_count_from_0 L (n - 1)
                  (fun _ d => FillText (Str (slice 5 d)) (xScale sc d)
                     (Fin (height dims) - margin.bottom + 8)%js)
                  (dates pd) HL) as Hcount.
    fold n in Hcount.
    assert ((n + L - 1) / L <= 10).
    { apply Z.lt_succ_r. apply Z.div_lt_upper_bound; lia. }
    lia.
  - apply (Hmember 0%nat first); [by rewrite <- head_lookup | by left].
  - destruct (dates pd) as [|d0 ds] eqn:E; [done |].
    apply (Hmember (length ds) last).
    + rewrite <- Hlast. clear. revert d0.
      induction ds as [|a ds IH]; intros d0; [done |].
      simpl length. change ((d0 :: a :: ds) !! S (length ds))
        with ((a :: ds) !! length ds).
      rewrite (IH a). simpl. by destruct ds.
    + right. unfold n. simpl length. lia.
Qed.

Lemma x_axis_has_at_most_eleven_labels_witness :
  ∃ sc, scales (Some twoDaysProcessed) desktop = Some sc
    ∧ (length (xLabels desktop twoDaysProcessed sc) <= 11)%nat
    ∧ FillText (Str "01-01") (xScale sc "2024-01-01")
        (Fin (height desktop) - margin.bottom + 8)%js
      ∈ xLabels desktop twoDaysProcessed sc
    ∧ FillText (Str "01-02") (xScale sc "2024-01-02")
        (Fin (height desktop) - margin.bottom + 8)%js
      ∈ xLabels desktop twoDaysProcessed sc.
Proof.
  eexists. split; [reflexivity |].
  apply (x_axis_has_at_most_eleven_labels desktop twoDaysProcessed _
           "2024-01-01" "2024-01-02");
    reflexivity.
Defined.

End DrawFacts.

(** ** More about the cluster graph *)

Module GraphSizes.
Import Graph GraphFacts GraphSamples GraphSpec GraphView.

Lemma getNodeSize_cases (hov sel : option string) (M : Z) (n : GraphNode) :
  1 <= M ->
  getNodeSize hov sel M n
  = if bool_decide (hov = Some (id (node n)))
       || bool_decide (sel = Some (id (node n)))
    then Fin (baseSizeQ M (paperCount (node n)) * (14 # 10))
    else if bool_decide (hov ≠ None)
            && bool_decide (hov ≠ Some (id (node n)))
         then Fin (baseSizeQ M (paperCount (node n)) * (3 # 4))
         else Fin (baseSizeQ M (paperCount (node n))).
Proof.
  intros HM. unfold getNodeSize, ofZ. cbn [div].
  rewrite Qeq_bool_inject_Z_0 by lia.
  destruct (_ || _); [reflexivity |]. destruct (_ && _); reflexivity.
Qed.

Lemma getNodeSize_idle (M : Z) (n : GraphNode) :
  1 <= M ->
  getNodeSize None None M n = Fin (baseSizeQ M (paperCount (node n))).
Proof.
  intros HM. rewrite getNodeSize_cases by done.
  rewrite !bool_decide_eq_false_2 by done. cbn [orb].
  rewrite (bool_decide_eq_false_2 (None ≠ None)) by (intros H; by apply H).
  reflexivity.
Qed.

Lemma collide_finite (M : Z) (n : GraphNode) :
  1 <= M ->
  collide M n
  = Fin (baseSizeQ M (or_number (Some (paperCount (node n))) 1)
         + inject_Z 40).
Proof.
  intros HM. unfold collide, ofZ. cbn [div].
  rewrite Qeq_bool_inject_Z_0 by lia. reflexivity.
Qed.

Lemma share_range (M p : Z) :
  1 <= M -> 0 <= p <= M ->
  (0 <= inject_Z p / inject_Z M)%Q ∧ (inject_Z p / inject_Z M <= 1)%Q.
Proof.
  intros HM Hp.
  assert (HP : (0 < inject_Z M)%Q)
    by (change 0%Q with (inject_Z 0); rewrite <- Zlt_Qlt; lia).
  split.
  - apply Qle_shift_div_l; [done |]. rewrite Qmult_0_l.
    change 0%Q with (inject_Z 0). rewrite <- Zle_Qle. lia.
  - apply Qle_shift_div_r; [done |]. rewrite Qmult_1_l, <- Zle_Qle. lia.
Qed.

Lemma share_monotone (M p q : Z) :
  1 <= M -> p <= q -> (inject_Z p / inject_Z M <= inject_Z q / inject_Z M)%Q.
Proof.
  intros HM Hpq.
  assert (HP : (0 < inject_Z M)%Q)
    by (change 0%Q with (inject_Z 0); rewrite <- Zlt_Qlt; lia).
  unfold Qdiv. apply Qmult_le_compat_r; [by rewrite <- Zle_Qle |].
  apply Qlt_le_weak. by apply Qinv_lt_0_compat.
Qed.

Lemma paperCount_le_max (gd : ClusterGraphData) (n : ClusterNode) :
  n ∈ nodes gd -> paperCount n <= maxPaperCount gd.
Proof.
  intros Hn. apply max_with_1_ge. apply list_elem_of_In, in_map.
  by apply list_elem_of_In.
Qed.

Lemma baseSizeQ_range (M p : Z) :
  1 <= M -> 0 <= p <= M ->
  (12 <= baseSizeQ M p)%Q ∧ (baseSizeQ M p <= 40)%Q.
Proof.
  intros HM Hp. destruct (share_range M p HM Hp) as [H0 H1].
  unfold baseSizeQ. change (inject_Z 12) with (12 # 1).
  change (inject_Z 28) with (28 # 1).
  set (r := (inject_Z p / inject_Z M)%Q) in *. split; lra.
Qed.

(** X13: for a node of the snapshot with a non-negative paper count, the
    radius it is drawn with while nothing is hovered or selected lies
    between 12 and 40; it is 12 for a node without papers and 40 for a
    node with the largest paper count; and a node with more papers is
    never drawn smaller. *)
Theorem node_radius_is_between_12_and_40 (gd : ClusterGraphData)
    (n m : GraphNode) :
  node n ∈ nodes gd ->
  0 <= paperCount (node n) ->
  (12 <=? getNodeSize None None (maxPaperCount gd) n)%js = true
  ∧ (getNodeSize None None (maxPaperCount gd) n <=? 40)%js = true
  ∧ (paperCount (node n) = 0 ->
     same (getNodeSize None None (maxPaperCount gd) n) 12)
  ∧ (paperCount (node n) = maxPaperCount gd ->
     same (getNodeSize None None (maxPaperCount gd) n) 40)
  ∧ (paperCount (node n) <= paperCount (node m) ->
     (getNodeSize None None (maxPaperCount gd) n
      <=? getNodeSize None None (maxPaperCount gd) m)%js = true).
Proof.
  intros Hn Hp. pose proof (maxPaperCount_ge_1 gd) as HM.
  pose proof (paperCount_le_max gd _ Hn) as Hle.
  rewrite !getNodeSize_idle by done.
  destruct (baseSizeQ_range (maxPaperCount gd) (paperCount (node n)) HM)
    as [H12 H40]; [lia |].
  unfold ofZ. cbn [le same]. rewrite !Qle_bool_iff.
  split; [done |]. split; [done |]. split; [| split].
  - intros ->. unfold baseSizeQ. unfold Qdiv. simpl inject_Z at 2. ring.
  - intros ->. unfold baseSizeQ. field. intros H.
    apply Qeq_bool_iff in H. rewrite Qeq_bool_inject_Z_0 in H; [done | lia].
  - intros Hnm. unfold baseSizeQ.
    pose proof (share_monotone (maxPaperCount gd) _ _ HM Hnm).
    change (inject_Z 28) with (28 # 1). lra.
Qed.

(** In [threeNodes], A has the most papers and B half as many. *)
Lemma node_radius_is_between_12_and_40_witness :
  (12 <=? getNodeSize None None (maxPaperCount threeNodes)
            (toGraphNode (mkNode "B" 5)))%js = true
  ∧ (getNodeSize None None (maxPaperCount threeNodes)
       (toGraphNode (mkNode "B" 5)) <=? 40)%js = true
  ∧ same (getNodeSize None None (maxPaperCount threeNodes)
            (toGraphNode (mkNode "C" 0))) 12
  ∧ same (getNodeSize None None (maxPaperCount threeNodes)
            (toGraphNode (mkNode "A" 10))) 40
  ∧ (getNodeSize None None (maxPaperCount threeNodes)
       (toGraphNode (mkNode "B" 5))
     <=? getNodeSize None None (maxPaperCount threeNodes)
           (toGraphNode (mkNode "A" 10)))%js = true.
Proof.
  assert (HA : mkNode "A" 10 ∈ nodes threeNodes) by (simpl; repeat constructor).
  assert (HB : mkNode "B" 5 ∈ nodes threeNodes) by (simpl; repeat constructor).
  assert (HC : mkNode "C" 0 ∈ nodes threeNodes) by (simpl; repeat constructor).
  destruct (node_radius_is_between_12_and_40 threeNodes
              (toGraphNode (mkNode "B" 5)) (toGraphNode (mkNode "A" 10))
              HB ltac:(simpl; lia)) as (H1 & H2 & _ & _ & H5).
  destruct (node_radius_is_between_12_and_40 threeNodes
              (toGraphNode (mkNode "C" 0)) (toGraphNode (mkNode "A" 10))
              HC ltac:(simpl; lia)) as (_ & _ & H3 & _).
  destruct (node_radius_is_between_12_and_40 threeNodes
              (toGraphNode (mkNode "A" 10)) (toGraphNode (mkNode "A" 10))
              HA ltac:(simpl; lia)) as (_ & _ & _ & H4 & _).
  split; [exact H1 |]. split; [exact H2 |].
  split; [by apply H3 |]. split; [by apply H4 |].
  apply H5. simpl. lia.
Defined.

(** X14: for a node of the snapshot with a non-negative paper count, in
    every hover and selection state, the radius the node is drawn with,
    enlarged by 15 (the outer radius of the glow; the pointer area adds
    5), is at most the radius given to the collision force. *)
Theorem collision_circle_contains_the_drawing (gd : ClusterGraphData)
    (hov sel : option string) (n : GraphNode) :
  node n ∈ nodes gd ->
  0 <= paperCount (node n) ->
  (getNodeSize hov sel (maxPaperCount gd) n + 15
   <=? collide (maxPaperCount gd) n)%js = true.
Proof.
  intros Hn Hp. pose proof (maxPaperCount_ge_1 gd) as HM.
  pose proof (paperCount_le_max gd _ Hn) as Hle.
  rewrite getNodeSize_cases, collide_finite by done.
  set (M := maxPaperCount gd) in *. set (p := paperCount (node n)) in *.
  assert (Hor : p <= or_number (Some p) 1 <= M).
  { unfold or_number. destruct (Z.eqb_spec p 0); lia. }
  destruct (baseSizeQ_range M p HM ltac:(lia)) as [H12 H40].
  pose proof (share_monotone M p _ HM (proj1 Hor)) as Hmono.
  assert (Hbase : (baseSizeQ M p <= baseSizeQ M (or_number (Some p) 1))%Q).
  { unfold baseSizeQ. change (inject_Z 28) with (28 # 1). lra. }
  change (inject_Z 40) with (40 # 1).
  destruct (_ || _); [| destruct (_ && _)];
    unfold ofZ; cbn [add le]; apply Qle_bool_iff;
    change (inject_Z 15) with (15 # 1); lra.
Qed.

Lemma collision_circle_contains_the_drawing_witness :
  (getNodeSize (Some "A"%string) None (maxPaperCount threeNodes)
     (toGraphNode (mkNode "A" 10)) + 15
   <=? collide (maxPaperCount threeNodes) (toGraphNode (mkNode "A" 10)))%js
  = true.
Proof.
  apply (collision_circle_contains_the_drawing threeNodes).
  - simpl. repeat constructor.
  - simpl. lia.
Defined.

(** X15: when the pointer comes over a node whose id is not empty, that
    node becomes the hovered one, the host is told so with the record of
    the node when it gave a callback, and the cursor of a mounted
    container becomes a pointer; from then on the node is drawn at 1.4
    times its base radius, and every other node at 0.75 times its base
    radius unless it is the selected one, which stays at 1.4. *)
Theorem hovering_a_node_enlarges_it (gd : ClusterGraphData)
    (cb container : bool) (sel : option string) (n m : GraphNode) :
  id (node n) ≠ ""%string ->
  id (node m) ≠ id (node n) ->
  let after := handleNodeHover cb container (Some n) in
  after.1.1 = Some (id (node n))
  ∧ after.1.2 = (if cb then [NodeHovered (Some (record n))] else [])
  ∧ after.2 = (if container then Some "pointer"%string else None)
  ∧ getNodeSize after.1.1 sel (maxPaperCount gd) n
    = Fin (baseSizeQ (maxPaperCount gd) (paperCount (node n)) * (14 # 10))
  ∧ getNodeSize after.1.1 sel (maxPaperCount gd) m
    = Fin (baseSizeQ (maxPaperCount gd) (paperCount (node m))
           * (if bool_decide (sel = Some (id (node m)))
              then 14 # 10 else 3 # 4)).
Proof.
  intros Hid Hne after. pose proof (maxPaperCount_ge_1 gd) as HM.
  assert (Hhov : after.1.1 = Some (id (node n))).
  { unfold after, handleNodeHover. cbn [fst].
    replace (truthy _) with true; [done |].
    symmetry. by apply FlowFacts.truthy_Some. }
  rewrite Hhov. split; [done |]. split; [by destruct cb |].
  split; [by destruct container |]. split.
  - rewrite getNodeSize_cases by done.
    by rewrite (bool_decide_eq_true_2 (Some _ = Some _)).
  - rewrite getNodeSize_cases by done.
    rewrite (bool_decide_eq_false_2 (Some (id (node n)) = Some _))
      by congruence.
    cbn [orb]. destruct (bool_decide (sel = _)); [done |].
    rewrite !bool_decide_eq_true_2 by congruence. done.
Qed.

Lemma hovering_a_node_enlarges_it_witness :
  (handleNodeHover true true (Some (toGraphNode (mkNode "A" 10)))).1.1
  = Some "A"%string
  ∧ getNodeSize (Some "A"%string) None (maxPaperCount threeNodes)
      (toGraphNode (mkNode "A" 10))
    = Fin (baseSizeQ (maxPaperCount threeNodes) 10 * (14 # 10))
  ∧ getNodeSize (Some "A"%string) None (maxPaperCount threeNodes)
      (toGraphNode (mkNode "B" 5))
    = Fin (baseSizeQ (maxPaperCount threeNodes) 5 * (3 # 4)).
Proof.
  destruct (hovering_a_node_enlarges_it threeNodes true true None
              (toGraphNode (mkNode "A" 10)) (toGraphNode (mkNode "B" 5)))
    as (H1 & _ & _ & H4 & H5); [discriminate | discriminate |].
  split; [exact H1 |]. split; [exact H4 | exact H5].
Defined.

Lemma getLinkWidth_cases (hov : option string) (M : Z) (l : GraphLink) :
  1 <= M ->
  getLinkWidth hov M l
  = if bool_decide (hov = Some (endpointId (link_source l)))
       || bool_decide (hov = Some (endpointId (link_target l)))
    then Fin (baseWidthQ M (link_sharedCount l) * inject_Z 2)
    else Fin (baseWidthQ M (link_sharedCount l)).
Proof.
  intros HM. unfold getLinkWidth, ofZ. cbn [div].
  rewrite Qeq_bool_inject_Z_0 by lia.
  destruct (_ || _); reflexivity.
Qed.

Lemma touchesHovered_bool (hov : option string) (l : GraphLink) :
  bool_decide (hov = Some (endpointId (link_source l)))
  || bool_decide (hov = Some (endpointId (link_target l))) = true
  <-> touchesHovered hov l.
Proof.
  unfold touchesHovered.
  rewrite orb_true_iff, !bool_decide_eq_true. done.
Qed.

(** X16: the three encodings of a link agree, whether its ends are still
    ids or already node objects.  For a link that carries the shared count
    of a link of the snapshot, a non-negative one, the base width lies
    between 1 and 6; when one of its ends is the hovered node the link is
    drawn at twice the base width, in yellow, with particles of width 4;
    otherwise at the base width, in grey, with particles of width 0. *)
Theorem link_highlight_is_consistent (gd : ClusterGraphData)
    (hov : option string) (l : GraphLink) (cl : ClusterLink) :
  cl ∈ links gd ->
  0 <= sharedCount cl ->
  link_sharedCount l = sharedCount cl ->
  (1 <= baseWidthQ (maxLinkStrength gd) (sharedCount cl))%Q
  ∧ (baseWidthQ (maxLinkStrength gd) (sharedCount cl) <= 6)%Q
  ∧ (touchesHovered hov l ->
     getLinkWidth hov (maxLinkStrength gd) l
     = Fin (baseWidthQ (maxLinkStrength gd) (sharedCount cl) * inject_Z 2)
     ∧ getLinkColor hov l = "rgba(255, 210, 30, 0.8)"%string
     ∧ linkDirectionalParticleWidth hov l = 4)
  ∧ (¬ touchesHovered hov l ->
     getLinkWidth hov (maxLinkStrength gd) l
     = Fin (baseWidthQ (maxLinkStrength gd) (sharedCount cl))
     ∧ getLinkColor hov l = "rgba(100, 100, 120, 0.3)"%string
     ∧ linkDirectionalParticleWidth hov l = 0).
Proof.
  intros Hcl Hs Hl. pose proof (maxLinkStrength_ge_1 gd) as HM.
  assert (Hle : sharedCount cl <= maxLinkStrength gd).
  { apply max_with_1_ge. apply list_elem_of_In, in_map.
    by apply list_elem_of_In. }
  destruct (share_range (maxLinkStrength gd) (sharedCount cl) HM ltac:(lia))
    as [H0 H1].
  rewrite getLinkWidth_cases by done.
  unfold getLinkColor, linkDirectionalParticleWidth. rewrite Hl.
  split; [| split; [| split]].
  - unfold baseWidthQ. change (inject_Z 1) with 1%Q.
    change (inject_Z 5) with (5 # 1). lra.
  - unfold baseWidthQ. change (inject_Z 1) with 1%Q.
    change (inject_Z 5) with (5 # 1). lra.
  - intros Ht. apply touchesHovered_bool in Ht. by rewrite Ht.
  - intros Ht. rewrite <- touchesHovered_bool in Ht.
    apply not_true_is_false in Ht. by rewrite Ht.
Qed.

Lemma link_highlight_is_consistent_witness :
  getLinkWidth (Some "B"%string) (maxLinkStrength threeNodes) resolvedLink
  = Fin (baseWidthQ (maxLinkStrength threeNodes) 3 * inject_Z 2)
  ∧ getLinkColor (Some "B"%string) resolvedLink
    = "rgba(255, 210, 30, 0.8)"%string
  ∧ linkDirectionalParticleWidth (Some "B"%string) resolvedLink = 4
  ∧ getLinkWidth (Some "C"%string) (maxLinkStrength threeNodes)
      (toGraphLink (mkLink "A" "B" 3))
    = Fin (baseWidthQ (maxLinkStrength threeNodes) 3).
Proof.
  assert (Hin : mkLink "A" "B" 3 ∈ links threeNodes)
    by (simpl; repeat constructor).
  assert (H0 : 0 <= sharedCount (mkLink "A" "B" 3)) by (simpl; lia).
  destruct (link_highlight_is_consistent threeNodes (Some "B"%string)
              resolvedLink (mkLink "A" "B" 3) Hin H0 eq_refl)
    as (_ & _ & Hyes & _).
  destruct (link_highlight_is_consistent threeNodes (Some "C"%string)
              (toGraphLink (mkLink "A" "B" 3)) (mkLink "A" "B" 3)
              Hin H0 eq_refl)
    as (_ & _ & _ & Hno).
  destruct Hyes as (H1 & H2 & H3); [right; reflexivity |].
  destruct Hno as (H4 & _).
  { intros [H | H]; discriminate H. }
  repeat split; assumption.
Defined.







End GraphSizes.

(** ** The host *)

Module AppFacts.
Import App AppSamples.



(** X19: the host mounts the flow chart only with data that has a day, in
    flow mode, while nothing is searched for, and with height 500; so what
    it mounts is always the chart, never the component's own message for
    missing data. *)
Theorem app_never_mounts_an_empty_chart (searchQuery : string)
    (viewMode : ViewMode) (flowData : option Flow.FlowData)
    (st : Flow.State) (h : Q) (view : Flow.View) :
  flowPanel searchQuery viewMode flowData st = Some (Mounted h view) ->
  searchQuery = ""%string ∧ viewMode = flow ∧ h = 500%Q
  ∧ ∃ fd legend tip range,
      flowData = Some fd ∧ Flow.daily_data fd ≠ []
      ∧ view = Flow.Chart legend tip range.
Proof.
  unfold flowPanel. intros H.
  destruct (truthy (Some searchQuery)) eqn:Hq; [done |].
  apply not_true_iff_false in Hq. rewrite FlowFacts.truthy_Some in Hq.
  assert (searchQuery = ""%string) as ->.
  { destruct (decide (searchQuery = ""%string)); [done | by destruct Hq]. }
  destruct viewMode; try done. destruct flowData as [fd|]; [| done].
  destruct (Flow.daily_data fd) as [|d ds] eqn:E; [done |].
  simpl in H. injection H as <- <-.
  split; [done |]. split; [done |]. split; [done |].
  unfold Flow.render. unfold Flow.processedData. rewrite E. simpl.
  do 4 eexists. split; [done |]. split; [by rewrite E | reflexivity].
Qed.

Lemma app_never_mounts_an_empty_chart_witness :
  ∃ legend tip range,
    flowPanel "" flow (Some FlowSamples.oneDay) FlowSamples.idle
    = Some (Mounted 500 (Flow.Chart legend tip range))
    ∧ flowPanel "" flow (Some FlowSamples.noDays) FlowSamples.idle
      = Some NoTemporalData.
Proof.
  destruct (app_never_mounts_an_empty_chart "" flow
              (Some FlowSamples.oneDay) FlowSamples.idle 500
              (Flow.render FlowSamples.oneDay FlowSamples.idle) eq_refl)
    as (_ & _ & _ & fd & legend & tip & range & _ & _ & Hview).
  exists legend, tip, range. split; [| reflexivity].
  rewrite <- Hview. reflexivity.
Defined.




End AppFacts.
